(** * p1-slimmelezer: framing, field parsing and clock resynchronisation

    A shallow embedding of [src/p1-slimmelezer.py] (class [SlimmeLezer]) and
    the properties its specification states about it.

    Conventions of the embedding.
    - A Python [str] is a [string]; a character is an [ascii], read as a code
      point below 256.
    - A Python [int] is a [Z]; a Python [float] holding a parsed meter value is
      an IEEE 754 binary64 number, [spec_float] at precision 53 and maximal
      exponent 1024.
    - An exception is a value of [exn]; a call that may raise returns a
      [result].
    - Wall-clock readings ([time.time()], [datetime.now()]) and [datetime]
      values are integers counting microseconds since the epoch, in a zone of
      constant offset; the readings come from an oracle [clock], one value per
      call, in call order.
    - A dict is a [gmap] from [string]. *)

From Stdlib Require Import ZArith String Ascii List Bool Lia.
From Stdlib Require Import SpecFloat.
From stdpp Require Import base option gmap strings.



(** ** Exceptions and results *)

Inductive exn : Type :=
| ValueError
| OverflowError
| AttributeError
| KeyError
| TypeError
| ZeroDivisionError.

Inductive result (A : Type) : Type :=
| Ok (a : A)
| Raise (e : exn).
Arguments Ok {A} a.
Arguments Raise {A} e.

#[export] Instance result_ret : MRet result := fun A a => Ok a.

#[export] Instance result_bind : MBind result := fun A B f r =>
  match r with
  | Ok a => f a
  | Raise e => Raise e
  end.

Definition of_option {A : Type} (e : exn) (o : option A) : result A :=
  match o with
  | Some a => Ok a
  | None => Raise e
  end.

(** ** Characters and the [str] methods the reader uses *)

Definition code (c : ascii) : nat := nat_of_ascii c.

Definition is_digit (c : ascii) : bool :=
  Nat.leb 48 (code c) && Nat.leb (code c) 57.

Definition digit_val (c : ascii) : Z := Z.of_nat (code c - 48).

(** Whitespace that [float()] and [int()] strip: the ASCII ones and, below
    256, U+0085 and U+00A0. *)
Definition is_space (c : ascii) : bool :=
  (Nat.leb 9 (code c) && Nat.leb (code c) 13)
  || Nat.eqb (code c) 32 || Nat.eqb (code c) 133 || Nat.eqb (code c) 160.

Definition lower (c : ascii) : ascii :=
  if Nat.leb 65 (code c) && Nat.leb (code c) 90
  then ascii_of_nat (code c + 32) else c.

Definition is_empty (s : string) : bool :=
  match s with
  | EmptyString => true
  | String _ _ => false
  end.

(** [line.startswith(p)] *)
Fixpoint startswith (p s : string) : bool :=
  match p with
  | EmptyString => true
  | String a p' =>
      match s with
      | EmptyString => false
      | String b s' => Ascii.eqb a b && startswith p' s'
      end
  end.

(** [p in s] *)
Fixpoint str_in (p s : string) : bool :=
  startswith p s ||
  match s with
  | EmptyString => false
  | String _ s' => str_in p s'
  end.

(** [s.split(sep)[0]] for a one-character separator *)
Fixpoint split_head (sep : ascii) (s : string) : string :=
  match s with
  | EmptyString => EmptyString
  | String c s' => if Ascii.eqb c sep then EmptyString else String c (split_head sep s')
  end.

(** [s.replace(c, t)] for a one-character pattern *)
Fixpoint replace_char (c : ascii) (t : string) (s : string) : string :=
  match s with
  | EmptyString => EmptyString
  | String a s' =>
      if Ascii.eqb a c then t +:+ replace_char c t s'
      else String a (replace_char c t s')
  end.

(** [s[1:]] *)
Definition drop_first (s : string) : string :=
  match s with
  | EmptyString => EmptyString
  | String _ s' => s'
  end.

Fixpoint lstrip (s : string) : string :=
  match s with
  | EmptyString => EmptyString
  | String c s' => if is_space c then lstrip s' else s
  end.

Fixpoint rstrip (s : string) : string :=
  match s with
  | EmptyString => EmptyString
  | String c s' =>
      let r := rstrip s' in
      if is_empty r && is_space c then EmptyString else String c r
  end.

Definition strip (s : string) : string := rstrip (lstrip s).

(** ** [float(str)], [int(str)], [int(float)] *)

Definition float := spec_float.
Definition prec : Z := 53.
Definition emax : Z := 1024.

(** Underscores of a numeric literal: allowed only between two digits. The
    function returns the literal without them. *)
Fixpoint drop_underscores (prev : ascii) (s : string) : option string :=
  match s with
  | EmptyString => if Ascii.eqb prev "_" then None else Some EmptyString
  | String c s' =>
      if Ascii.eqb c "_" then
        if is_digit prev then drop_underscores c s' else None
      else if Ascii.eqb prev "_" && negb (is_digit c) then None
      else String c <$> drop_underscores c s'
  end.

(** Reads a run of digits: the value accumulated onto [acc], the number of
    digits read, the rest. *)
Fixpoint read_digits (s : string) (acc : Z) (n : nat) : Z * nat * string :=
  match s with
  | String c s' =>
      if is_digit c then read_digits s' (10 * acc + digit_val c)%Z (S n)
      else (acc, n, s)
  | EmptyString => (acc, n, s)
  end.

Definition read_sign (s : string) : bool * string :=
  match s with
  | String "-" s' => (true, s')
  | String "+" s' => (false, s')
  | _ => (false, s)
  end.

(** The decimal literal [digits [. digits] [e [sign] digits]] (at least one
    digit before the exponent): mantissa, decimal exponent, unread rest. An
    exponent marker with no digit after it is left unread. *)
Definition read_decimal (s : string) : option (Z * Z * string) :=
  let '(ip, ni, r1) := read_digits s 0%Z 0%nat in
  let '(m, nf, r2) :=
    match r1 with
    | String "." r => read_digits r ip 0%nat
    | _ => (ip, 0%nat, r1)
    end in
  if Nat.eqb (ni + nf) 0 then None
  else
    let plain := Some (m, (- Z.of_nat nf)%Z, r2) in
    match r2 with
    | String c r3 =>
        if Ascii.eqb (lower c) "e" then
          let '(neg, r4) := read_sign r3 in
          let '(ev, ne, r5) := read_digits r4 0%Z 0%nat in
          if Nat.eqb ne 0 then plain
          else Some (m, ((if neg then - ev else ev) - Z.of_nat nf)%Z, r5)
        else plain
    | EmptyString => plain
    end.

(** Case-insensitive [startswith], the pattern given in lower case. *)
Fixpoint istartswith (p s : string) : option string :=
  match p with
  | EmptyString => Some s
  | String a p' =>
      match s with
      | EmptyString => None
      | String b s' => if Ascii.eqb a (lower b) then istartswith p' s' else None
      end
  end.

(** The correctly rounded binary64 value of [(-1)^neg * m * 10^e10]. *)
Definition float_of_decimal (neg : bool) (m e10 : Z) : float :=
  match m with
  | Zpos p =>
      if (0 <=? e10)%Z
      then binary_round prec emax neg (p * Z.to_pos (10 ^ e10)) 0
      else SFdiv prec emax (S754_finite neg p 0)
                           (S754_finite false (Z.to_pos (10 ^ (- e10))) 0)
  | _ => S754_zero neg
  end.

(** [float(s)]; [None] stands for [ValueError]. *)
Definition py_float (s : string) : option float :=
  s1 ← drop_underscores "000" (strip s);
  let '(neg, body) := read_sign s1 in
  match read_decimal body with
  | Some (m, e10, rest) =>
      if is_empty rest then Some (float_of_decimal neg m e10) else None
  | None =>
      match istartswith "inf" body with
      | Some r =>
          let r' := match istartswith "inity" r with Some r' => r' | None => r end in
          if is_empty r' then Some (S754_infinity neg) else None
      | None =>
          match istartswith "nan" body with
          | Some r => if is_empty r then Some S754_nan else None
          | None => None
          end
      end
  end.

(** [float(n)] for an [int] small enough to be exact. *)
Definition float_of_Z (n : Z) : float := binary_normalize prec emax n 0 false.

Definition fmul (x y : float) : float := SFmul prec emax x y.

(** [int(x)] for a float: truncation towards zero. *)
Definition int_of_float (x : float) : result Z :=
  match x with
  | S754_zero _ => Ok 0%Z
  | S754_infinity _ => Raise OverflowError
  | S754_nan => Raise ValueError
  | S754_finite s m e => Ok (cond_Zopp s (Z.shiftl (Zpos m) e))
  end.

(** [int(s)] in base 10; [None] stands for [ValueError]. The interpreter's
    limit on the number of digits is not modelled. *)
Definition py_int (s : string) : option Z :=
  let '(neg, body) := read_sign (strip s) in
  match body with
  | String c _ =>
      if is_digit c then
        b ← drop_underscores "000" body;
        let '(v, _, rest) := read_digits b 0%Z 0%nat in
        if is_empty rest then Some (if neg then (- v)%Z else v) else None
      else None
  | EmptyString => None
  end.

(** ** Field values *)

(** What a dict of the reader holds. [VMicro us] is a float of seconds that
    the model keeps as a whole number of microseconds (clock readings, the
    drift); [VFloat] is a float parsed from the telegram. *)
Inductive pyval : Type :=
| VInt (n : Z)
| VFloat (x : float)
| VStr (s : string)
| VMicro (us : Z).

(** [SlimmeLezer.parse_p1_value] *)
Definition parse_p1_value (value : string) : result pyval :=
  if str_in "*m3" value then
    x ← of_option ValueError (py_float (split_head "*" value));
    n ← int_of_float (fmul (float_of_Z 1000) x);
    Ok (VInt n)
  else if str_in "*kW" value then
    x ← of_option ValueError (py_float (split_head "*" value));
    n ← int_of_float (fmul (float_of_Z 1000) x);
    Ok (VInt n)
  else if str_in "*V" value then
    x ← of_option ValueError (py_float (split_head "*" value));
    Ok (VFloat x)
  else if str_in "*A" value then
    n ← of_option ValueError (py_int (split_head "*" value));
    Ok (VInt n)
  else Ok (VStr value).

(** ** Regular expressions

    The fragment of [re] the three line patterns and [strptime] use: character
    classes, concatenation, alternation, a greedy or lazy star over a class,
    named groups and [$]. The matcher backtracks in the order of [re]: the
    first alternative first, a greedy star longest first, a lazy star
    shortest first. *)

Inductive regex : Type :=
| Cls (p : ascii -> bool)
| Cat (r1 r2 : regex)
| Alt (r1 r2 : regex)
| Star (greedy : bool) (p : ascii -> bool)
| Grp (name : string) (r : regex)
| Eol.

Definition captures : Type := list (string * string).

(** A continuation receives the text just matched, the unread rest and the
    groups captured so far. *)
Definition cont : Type := string -> string -> captures -> option (captures * string).

Definition newline : string := String "010" EmptyString.

Fixpoint star_match (greedy : bool) (p : ascii -> bool) (k : cont)
    (acc s : string) (caps : captures) {struct s} : option (captures * string) :=
  match s with
  | String c s' =>
      if p c then
        if greedy then
          match star_match greedy p k (acc +:+ String c EmptyString) s' caps with
          | Some r => Some r
          | None => k acc s caps
          end
        else
          match k acc s caps with
          | Some r => Some r
          | None => star_match greedy p k (acc +:+ String c EmptyString) s' caps
          end
      else k acc s caps
  | EmptyString => k acc s caps
  end.

Fixpoint rmatch (r : regex) (s : string) (caps : captures) (k : cont)
    : option (captures * string) :=
  match r with
  | Cls p =>
      match s with
      | String c s' => if p c then k (String c EmptyString) s' caps else None
      | EmptyString => None
      end
  | Cat r1 r2 =>
      rmatch r1 s caps (fun t1 s1 c1 =>
        rmatch r2 s1 c1 (fun t2 s2 c2 => k (t1 +:+ t2) s2 c2))
  | Alt r1 r2 =>
      match rmatch r1 s caps k with
      | Some x => Some x
      | None => rmatch r2 s caps k
      end
  | Star g p => star_match g p k EmptyString s caps
  | Grp n r0 => rmatch r0 s caps (fun t s' c' => k t s' ((n, t) :: c'))
  | Eol =>
      if is_empty s || String.eqb s newline then k EmptyString s caps else None
  end.

Definition accept : cont := fun _ rest caps => Some (caps, rest).

(** [r.match(s)]: the groups and the unread rest. *)
Definition re_match (r : regex) (s : string) : option (captures * string) :=
  rmatch r s [] accept.

(** [r.search(s)]: the match at the leftmost position that has one. *)
Fixpoint re_search (r : regex) (s : string) : option captures :=
  match re_match r s with
  | Some (caps, _) => Some caps
  | None =>
      match s with
      | EmptyString => None
      | String _ s' => re_search r s'
      end
  end.

(** [m.group(name)] for a group that took part in the match. *)
Fixpoint group (name : string) (caps : captures) : string :=
  match caps with
  | [] => EmptyString
  | (n, t) :: caps' => if String.eqb n name then t else group name caps'
  end.

Declare Scope regex_scope.
Delimit Scope regex_scope with re.
Bind Scope regex_scope with regex.
Infix "⋅" := Cat (at level 60, right associativity) : regex_scope.

Definition chr (c : ascii) : regex := Cls (Ascii.eqb c).
Definition ichr (c : ascii) : regex := Cls (fun x => Ascii.eqb c (lower x)).
Definition digit : regex := Cls is_digit.
Definition digits : regex := Cat digit (Star true is_digit).
Definition not_lparen (c : ascii) : bool := negb (Ascii.eqb c "(").
Definition dot (c : ascii) : bool := negb (Ascii.eqb c "010").

(** [\d+\-\d+:\d+\.\d+\.\d+] *)
Definition KEY_RGX : regex :=
  (digits ⋅ chr "-" ⋅ digits ⋅ chr ":" ⋅ digits ⋅ chr "." ⋅ digits ⋅ chr "." ⋅ digits)%re.

Definition P1_ONE_VALUE_RGX : regex :=
  (Grp "key" KEY_RGX ⋅ chr "(" ⋅ Grp "value" (Star false not_lparen) ⋅ chr ")" ⋅ Eol)%re.

Definition P1_TWO_VALUES_RGX : regex :=
  (Grp "key" KEY_RGX ⋅ chr "(" ⋅ Grp "value1" (Star false not_lparen) ⋅ chr ")"
   ⋅ chr "(" ⋅ Grp "value2" (Star false not_lparen) ⋅ chr ")" ⋅ Eol)%re.

Definition P1_MORE_THAN_TWO_VALUES_RGX : regex :=
  (Grp "key" KEY_RGX ⋅ chr "(" ⋅ Grp "value" (Star false not_lparen) ⋅ chr ")"
   ⋅ chr "(" ⋅ Grp "value2" (Star false not_lparen) ⋅ chr "(" ⋅ Star true dot
   ⋅ chr ")" ⋅ Eol)%re.

(** ** The reader's state

    The attributes of [SlimmeLezer] that the framing loop reads or writes,
    the local counter of [read_datagram], and three ghost components: the
    number of clock readings taken so far, the messages handed to the
    multicast socket (oldest first) and the log records of level info and
    above (oldest first). Sending is taken to succeed. *)

Record message : Type := Message {
  msg_meta : gmap string pyval;
  msg_telegram : gmap string pyval
}.

Inductive log_record : Type :=
| LogSkipping (counted count : Z)
| LogDateKeyMissing
| LogDrift (us : Z)
| LogMissedHeader
| LogNotParsed (line : string).

Record state : Type := State {
  data_meta : gmap string pyval;
  data_telegram : gmap string pyval;
  first_line_read : bool;
  frame_start_time : option Z;
  first_datagram_time : Z;
  first_datagram_timestamp : Z;
  delta_time : Z;
  previous_timesync_period_block : Z;
  timesync_period : Z;
  datagram_counter : Z;
  ticks : nat;
  sent : list message;
  logged : list log_record
}.

Definition set_data_meta (m : gmap string pyval) (st : state) : state :=
  State m (data_telegram st) (first_line_read st) (frame_start_time st)
    (first_datagram_time st) (first_datagram_timestamp st) (delta_time st)
    (previous_timesync_period_block st) (timesync_period st)
    (datagram_counter st) (ticks st) (sent st) (logged st).

Definition set_data_telegram (t : gmap string pyval) (st : state) : state :=
  State (data_meta st) t (first_line_read st) (frame_start_time st)
    (first_datagram_time st) (first_datagram_timestamp st) (delta_time st)
    (previous_timesync_period_block st) (timesync_period st)
    (datagram_counter st) (ticks st) (sent st) (logged st).

Definition set_first_line_read (b : bool) (st : state) : state :=
  State (data_meta st) (data_telegram st) b (frame_start_time st)
    (first_datagram_time st) (first_datagram_timestamp st) (delta_time st)
    (previous_timesync_period_block st) (timesync_period st)
    (datagram_counter st) (ticks st) (sent st) (logged st).

Definition set_frame_start_time (t : option Z) (st : state) : state :=
  State (data_meta st) (data_telegram st) (first_line_read st) t
    (first_datagram_time st) (first_datagram_timestamp st) (delta_time st)
    (previous_timesync_period_block st) (timesync_period st)
    (datagram_counter st) (ticks st) (sent st) (logged st).

Definition set_first_datagram_time (t : Z) (st : state) : state :=
  State (data_meta st) (data_telegram st) (first_line_read st)
    (frame_start_time st) t (first_datagram_timestamp st) (delta_time st)
    (previous_timesync_period_block st) (timesync_period st)
    (datagram_counter st) (ticks st) (sent st) (logged st).

Definition set_first_datagram_timestamp (t : Z) (st : state) : state :=
  State (data_meta st) (data_telegram st) (first_line_read st)
    (frame_start_time st) (first_datagram_time st) t (delta_time st)
    (previous_timesync_period_block st) (timesync_period st)
    (datagram_counter st) (ticks st) (sent st) (logged st).

Definition set_delta_time (d : Z) (st : state) : state :=
  State (data_meta st) (data_telegram st) (first_line_read st)
    (frame_start_time st) (first_datagram_time st)
    (first_datagram_timestamp st) d (previous_timesync_period_block st)
    (timesync_period st) (datagram_counter st) (ticks st) (sent st)
    (logged st).

Definition set_previous_timesync_period_block (b : Z) (st : state) : state :=
  State (data_meta st) (data_telegram st) (first_line_read st)
    (frame_start_time st) (first_datagram_time st)
    (first_datagram_timestamp st) (delta_time st) b (timesync_period st)
    (datagram_counter st) (ticks st) (sent st) (logged st).

Definition set_datagram_counter (n : Z) (st : state) : state :=
  State (data_meta st) (data_telegram st) (first_line_read st)
    (frame_start_time st) (first_datagram_time st)
    (first_datagram_timestamp st) (delta_time st)
    (previous_timesync_period_block st) (timesync_period st) n (ticks st)
    (sent st) (logged st).

Definition set_ticks (n : nat) (st : state) : state :=
  State (data_meta st) (data_telegram st) (first_line_read st)
    (frame_start_time st) (first_datagram_time st)
    (first_datagram_timestamp st) (delta_time st)
    (previous_timesync_period_block st) (timesync_period st)
    (datagram_counter st) n (sent st) (logged st).

Definition set_sent (l : list message) (st : state) : state :=
  State (data_meta st) (data_telegram st) (first_line_read st)
    (frame_start_time st) (first_datagram_time st)
    (first_datagram_timestamp st) (delta_time st)
    (previous_timesync_period_block st) (timesync_period st)
    (datagram_counter st) (ticks st) l (logged st).

Definition set_logged (l : list log_record) (st : state) : state :=
  State (data_meta st) (data_telegram st) (first_line_read st)
    (frame_start_time st) (first_datagram_time st)
    (first_datagram_timestamp st) (delta_time st)
    (previous_timesync_period_block st) (timesync_period st)
    (datagram_counter st) (ticks st) (sent st) l.

(** The monad of the reader's methods: a state, and an exception or a
    value. *)
Definition M (A : Type) : Type := state -> result (A * state).

#[export] Instance M_ret : MRet M := fun A a st => Ok (a, st).

#[export] Instance M_bind : MBind M := fun A B f m st =>
  match m st with
  | Ok (a, st') => f a st'
  | Raise e => Raise e
  end.

Definition get_state : M state := fun st => Ok (st, st).
Definition modify (f : state -> state) : M unit := fun st => Ok (tt, f st).
Definition raise {A : Type} (e : exn) : M A := fun _ => Raise e.
Definition lift {A : Type} (r : result A) : M A := fun st =>
  match r with
  | Ok a => Ok (a, st)
  | Raise e => Raise e
  end.

Definition log (r : log_record) : M unit :=
  modify (fun st => set_logged (logged st ++ [r]) st).

Definition set_meta (k : string) (v : pyval) : M unit :=
  modify (fun st => set_data_meta (<[k := v]> (data_meta st)) st).

Definition set_telegram (k : string) (v : pyval) : M unit :=
  modify (fun st => set_data_telegram (<[k := v]> (data_telegram st)) st).

(** [self.data = dict(); self.data['meta'] = {}; self.data['telegram'] = {}] *)
Definition reset_data : M unit :=
  modify (fun st => set_data_telegram ∅ (set_data_meta ∅ st)).

(** [self.multicast_sock.sendto(json.dumps(self.data).encode(), ...)] *)
Definition send_data : M unit :=
  modify (fun st =>
    set_sent (sent st ++ [Message (data_meta st) (data_telegram st)]) st).

(** ** Time arithmetic *)

Definition second_us : Z := 1000000.

(** [int(t)] for a float of seconds: truncation towards zero. *)
Definition int_seconds (us : Z) : Z := Z.quot us second_us.

(** [timedelta.seconds]: the seconds field of the normalised triple (days,
    seconds, microseconds), between 0 and 86399. *)
Definition timedelta_seconds (us : Z) : Z := ((us `mod` (86400 * second_us)) `div` second_us)%Z.

(** [timedelta.total_seconds()] in whole seconds. *)
Definition timedelta_whole_seconds (us : Z) : Z := (us `div` second_us)%Z.

(** [round(t)] for a float of seconds: to the nearest integer, ties to
    even. *)
Definition round_seconds (us : Z) : Z :=
  let q := (us `div` second_us)%Z in
  let r := (us `mod` second_us)%Z in
  if (2 * r <? second_us)%Z then q
  else if (second_us <? 2 * r)%Z then (q + 1)%Z
  else if Z.even q then q else (q + 1)%Z.

Definition TIMESTAMP_KEY : string := "0-0:1.0.0".

(** Where [read_datagram] waits for its next line: inside [skip_datagram]
    with its two counters, or at the head of its own loop. *)
Inductive pc : Type :=
| InSkip (counted_datagrams count : Z)
| InLoop.

(** ** The locale's [strptime] and [strftime]

    [datetime.strptime] with the format ['%y%m%d%H%M%S%Z'] where [time.tzname]
    is [('CET', 'CEST')], and [strftime('%Y-%m-%d %H:%M:%S')], on the proleptic
    Gregorian calendar. They instantiate the two parameters of the reader. *)

Definition range (a b : ascii) : regex :=
  Cls (fun c => Nat.leb (code a) (code c) && Nat.leb (code c) (code b)).

Fixpoint iword (w : string) : regex :=
  match w with
  | EmptyString => Star true (fun _ => false)
  | String c EmptyString => ichr c
  | String c w' => Cat (ichr c) (iword w')
  end.

(** The pattern [_strptime] compiles for the format, with [re.IGNORECASE]. *)
Definition STRPTIME_RGX : regex :=
  (Grp "y" (digit ⋅ digit)
   ⋅ Grp "m" (Alt (chr "1" ⋅ range "0" "2") (Alt (chr "0" ⋅ range "1" "9") (range "1" "9")))
   ⋅ Grp "d" (Alt (chr "3" ⋅ range "0" "1") (Alt (range "1" "2" ⋅ digit)
             (Alt (chr "0" ⋅ range "1" "9") (Alt (range "1" "9") (chr " " ⋅ range "1" "9")))))
   ⋅ Grp "H" (Alt (chr "2" ⋅ range "0" "3") (Alt (range "0" "1" ⋅ digit) digit))
   ⋅ Grp "M" (Alt (range "0" "5" ⋅ digit) digit)
   ⋅ Grp "S" (Alt (chr "6" ⋅ range "0" "1") (Alt (range "0" "5" ⋅ digit) digit))
   ⋅ Grp "Z" (Alt (iword "cest") (Alt (iword "utc") (Alt (iword "gmt") (iword "cet")))))%re.

Definition is_leap (y : Z) : bool :=
  ((y `mod` 4 =? 0) && negb (y `mod` 100 =? 0) || (y `mod` 400 =? 0))%Z.

Definition days_in_month (y m : Z) : Z :=
  if (m =? 2)%Z then (if is_leap y then 29 else 28)%Z
  else if ((m =? 4) || (m =? 6) || (m =? 9) || (m =? 11))%Z then 30%Z
  else 31%Z.

(** Days from 1970-01-01 to the civil date. *)
Definition days_from_civil (y m d : Z) : Z :=
  let y' := (if m <=? 2 then y - 1 else y)%Z in
  let era := (y' `div` 400)%Z in
  let yoe := (y' - era * 400)%Z in
  let mp := (if 2 <? m then m - 3 else m + 9)%Z in
  let doy := ((153 * mp + 2) `div` 5 + d - 1)%Z in
  let doe := (yoe * 365 + yoe `div` 4 - yoe `div` 100 + doy)%Z in
  (era * 146097 + doe - 719468)%Z.

(** The civil date of a day number: year, month, day. *)
Definition civil_from_days (z : Z) : Z * Z * Z :=
  let z := (z + 719468)%Z in
  let era := (z `div` 146097)%Z in
  let doe := (z - era * 146097)%Z in
  let yoe := ((doe - doe `div` 1460 + doe `div` 36524 - doe `div` 146096) `div` 365)%Z in
  let doy := (doe - (365 * yoe + yoe `div` 4 - yoe `div` 100))%Z in
  let mp := ((5 * doy + 2) `div` 153)%Z in
  let d := (doy - (153 * mp + 2) `div` 5 + 1)%Z in
  let m := (if mp <? 10 then mp + 3 else mp - 9)%Z in
  ((if m <=? 2 then yoe + era * 400 + 1 else yoe + era * 400)%Z, m, d).

Definition strptime_cet (s : string) : option Z :=
  '(m, rest) ← re_match STRPTIME_RGX s;
  if negb (is_empty rest) then None
  else
    y ← py_int (group "y" m);
    month ← py_int (group "m" m);
    day ← py_int (group "d" m);
    hour ← py_int (group "H" m);
    minute ← py_int (group "M" m);
    second ← py_int (group "S" m);
    let year := (if y <=? 68 then 2000 + y else 1900 + y)%Z in
    if ((days_in_month year month <? day) || (59 <? second))%Z then None
    else Some ((((days_from_civil year month day * 24 + hour) * 60 + minute) * 60
                + second) * second_us)%Z.

Definition decimal_digit (n : Z) : ascii := ascii_of_nat (48 + Z.to_nat (n `mod` 10)).

Definition pad2 (n : Z) : string :=
  String (decimal_digit (n `div` 10)) (String (decimal_digit n) EmptyString).

Definition pad4 (n : Z) : string := pad2 (n `div` 100) +:+ pad2 (n `mod` 100).

Definition strftime_ymd_hms (us : Z) : string :=
  let secs := (us `div` second_us)%Z in
  let '(y, m, d) := civil_from_days (secs `div` 86400) in
  let sod := (secs `mod` 86400)%Z in
  pad4 y +:+ "-" +:+ pad2 m +:+ "-" +:+ pad2 d +:+ " "
  +:+ pad2 (sod `div` 3600) +:+ ":" +:+ pad2 ((sod `mod` 3600) `div` 60)
  +:+ ":" +:+ pad2 (sod `mod` 60).


(** ** More [str] methods: those of the line reader and of the configuration *)

(** [s[n:]] *)
Fixpoint str_drop (n : nat) (s : string) : string :=
  match n, s with
  | S n', String _ s' => str_drop n' s'
  | _, _ => s
  end.

(** [s[:-1]] *)
Fixpoint drop_last (s : string) : string :=
  match s with
  | EmptyString => EmptyString
  | String c s' => if is_empty s' then EmptyString else String c (drop_last s')
  end.

(** [new] after every character of [s]. *)
Fixpoint between (new s : string) : string :=
  match s with
  | EmptyString => EmptyString
  | String c s' => String c (new +:+ between new s')
  end.

(** [s.replace(old, new)] for a pattern that is not empty: the occurrences
    are taken from the left and do not overlap. The next [skip] characters
    belong to an occurrence already replaced. *)
Fixpoint replace_from (old new s : string) (skip : nat) : string :=
  match s with
  | EmptyString => EmptyString
  | String c s' =>
      match skip with
      | S k => replace_from old new s' k
      | O =>
          if startswith old s
          then new +:+ replace_from old new s' (String.length old - 1)
          else String c (replace_from old new s' 0)
      end
  end.

(** [s.replace(old, new)] *)
Definition replace (old new s : string) : string :=
  if is_empty old then new +:+ between new s else replace_from old new s 0.

(** [s.split(sep, 1)] for a separator that is not empty: [[s]] when the
    separator does not occur, the text before its first occurrence and the
    text after it otherwise. *)
Fixpoint split1 (sep s : string) : list string :=
  if startswith sep s then [EmptyString; str_drop (String.length sep) s]
  else
    match s with
    | EmptyString => [s]
    | String c s' =>
        match split1 sep s' with
        | [a; b] => [String c a; b]
        | _ => [s]
        end
    end.

(** [\w] on the code points below 256. *)
Definition is_word (c : ascii) : bool :=
  let n := code c in
  is_digit c
  || (Nat.leb 65 n && Nat.leb n 90) || Nat.eqb n 95 || (Nat.leb 97 n && Nat.leb n 122)
  || Nat.eqb n 170 || Nat.eqb n 178 || Nat.eqb n 179 || Nat.eqb n 181
  || Nat.eqb n 185 || Nat.eqb n 186 || (Nat.leb 188 n && Nat.leb n 190)
  || (Nat.leb 192 n && Nat.leb n 214) || (Nat.leb 216 n && Nat.leb n 246)
  || (Nat.leb 248 n && Nat.leb n 255).

(** [m.group(0)] after [r.match(s)], and the unread rest. *)
Definition match_text (r : regex) (s : string) : option (string * string) :=
  '(caps, rest) ← re_match (Grp "0" r) s;
  Some (group "0" caps, rest).

(** [r.findall(s)] for a pattern without groups that matches no empty text:
    the matches from the left, not overlapping. The next [skip] characters
    belong to the match found last. *)
Fixpoint findall_from (r : regex) (s : string) (skip : nat) : list string :=
  match s with
  | EmptyString => []
  | String _ s' =>
      match skip with
      | S k => findall_from r s' k
      | O =>
          match match_text r s with
          | Some (t, _) => t :: findall_from r s' (String.length t - 1)
          | None => findall_from r s' 0
          end
      end
  end.

Definition findall (r : regex) (s : string) : list string := findall_from r s 0.

(** ** The P1 socket and the line reader

    The attributes of [SlimmeLezer] that [read_line] reads or writes, and two
    ghost components: the number of times the socket was opened and what was
    done to the socket, the process and the log (oldest first). Closing a
    socket is taken to succeed. *)

(** [self.slimmelezer_delimeter] *)
Definition slimmelezer_delimeter : string := String "013" (String "010" EmptyString).

(** What one evaluation of [self.p1_sock.recv(1024).decode('UTF-8')] gives: a
    text, [socket.timeout], or another exception. Each chunk of bytes is
    decoded on its own: one that does not decode is [OtherException]
    ([UnicodeDecodeError]), and gives no text. *)
Inductive received : Type :=
| Data (text : string)
| SocketTimeout
| OtherException.

Inductive action : Type :=
| LogWaiting (seconds : Z)
| Sleep (seconds : Z)
| Connect (ok : bool)
| LogOpenError
| Close
| LogOpened
| LogTimeout
| LogReadError.

Record connection : Type := Connection {
  slimmelezer_buffer : string;
  sleep_open_p1_connection : Z;
  opened_sockets : nat;
  actions : list action
}.

Definition set_slimmelezer_buffer (b : string) (c : connection) : connection :=
  Connection b (sleep_open_p1_connection c) (opened_sockets c) (actions c).

Definition set_sleep_open_p1_connection (n : Z) (c : connection) : connection :=
  Connection (slimmelezer_buffer c) n (opened_sockets c) (actions c).

Definition set_opened_sockets (n : nat) (c : connection) : connection :=
  Connection (slimmelezer_buffer c) (sleep_open_p1_connection c) n (actions c).

Definition act (a : action) (c : connection) : connection :=
  Connection (slimmelezer_buffer c) (sleep_open_p1_connection c) (opened_sockets c)
    (actions c ++ [a]).

(** A call that may still be waiting for the socket. *)
Inductive answer (A : Type) : Type :=
| Returned (a : A)
| Raised (e : exn)
| Waiting.
Arguments Returned {A} a.
Arguments Raised {A} e.
Arguments Waiting {A}.

(** ** The methods of [SlimmeLezer] *)

Module SlimmeLezer.

Section Reader.

(** [datetime.strptime(s, '%y%m%d%H%M%S%Z')], [None] for [ValueError], and
    [strftime('%Y-%m-%d %H:%M:%S')]: their results depend on the locale. *)
Variable strptime : string -> option Z.
Variable strftime : Z -> string.

(** The wall clock: the value of its [n]-th reading. *)
Variable clock : nat -> Z.

(** [time.time()] and [datetime.datetime.now()] *)
Definition now : M Z := fun st =>
  Ok (clock (ticks st), set_ticks (S (ticks st)) st).

(** [SlimmeLezer.__init__], for the attributes of [state]. *)
Definition init (timesync_period : Z) : state :=
  let t := (clock 0 - 2 * timesync_period * second_us)%Z in
  State ∅ ∅ false None t t 0%Z 0%Z timesync_period 0%Z 1%nat [] [].

(** Lines 192 to 197 of [process_datagram]: the drift is recomputed and the
    reference times are moved. *)
Definition resync (datagram_timestamp : Z) : M unit :=
  st ← get_state;
  frame_start ← lift (of_option AttributeError (frame_start_time st));
  let delta := ((frame_start - first_datagram_time st)
                - (datagram_timestamp - first_datagram_timestamp st))%Z in
  _ ← modify (set_delta_time delta);
  _ ← log (LogDrift delta);
  t ← now;
  _ ← modify (set_first_datagram_time t);
  _ ← modify (set_first_datagram_timestamp datagram_timestamp);
  t' ← now;
  modify (set_previous_timesync_period_block
            (int_seconds t' `div` timesync_period st)%Z).

(** [SlimmeLezer.process_datagram] *)
Definition process_datagram : M unit :=
  st ← get_state;
  match data_telegram st !! TIMESTAMP_KEY with
  | None => log LogDateKeyMissing
  | Some v =>
      s ← lift (match v with VStr s => Ok s | _ => Raise AttributeError end);
      let datagram_timestamp_string :=
        replace_char "W" "CET" (replace_char "S" "CEST" s) in
      datagram_timestamp ←
        lift (of_option ValueError (strptime datagram_timestamp_string));
      t ← now;
      _ ← (if (timesync_period st =? 0)%Z then raise ZeroDivisionError
           else if negb (int_seconds t `div` timesync_period st
                         =? previous_timesync_period_block st)%Z
           then resync datagram_timestamp
           else mret tt);
      st ← get_state;
      let delta_time_in_seconds :=
        timedelta_seconds (datagram_timestamp - first_datagram_timestamp st) in
      let telegram_date :=
        (first_datagram_time st + delta_time_in_seconds * second_us)%Z in
      _ ← set_meta "datagram-timestamp" (VStr (strftime datagram_timestamp));
      _ ← set_meta "telegram-timestamp" (VInt (round_seconds telegram_date));
      _ ← set_meta "clock-drift" (VMicro (delta_time st));
      t' ← now;
      _ ← set_meta "current-time" (VMicro t');
      send_data
  end.

(** [SlimmeLezer.skip_datagram]: its entry, up to the first [read_line]. *)
Definition skip_datagram (count : Z) : M pc :=
  _ ← modify (set_first_line_read false);
  _ ← reset_data;
  mret (InSkip 0 count).

Definition is_footer (line : string) : bool :=
  startswith "!" line && Nat.eqb (String.length line) 5.

(** One turn of the loop of [skip_datagram], on the line read. *)
Definition skip_datagram_line (counted_datagrams count : Z) (line : string) : M pc :=
  if negb (startswith "!" line) || negb (Nat.eqb (String.length line) 5)
  then mret (InSkip counted_datagrams count)
  else
    let counted_datagrams := (counted_datagrams + 1)%Z in
    _ ← log (LogSkipping counted_datagrams count);
    if (count <=? counted_datagrams)%Z then mret InLoop
    else mret (InSkip counted_datagrams count).

(** Lines 253 to 280 of [read_datagram]: the three patterns, in order. *)
Definition parse_line (line : string) : M unit :=
  match re_search P1_MORE_THAN_TWO_VALUES_RGX line with
  | Some m =>
      let key := group "key" m in
      value ← lift (parse_p1_value (group "value" m));
      value2 ← lift (parse_p1_value (group "value2" m));
      set_telegram key value
  | None =>
  match re_search P1_TWO_VALUES_RGX line with
  | Some m =>
      let key := group "key" m in
      value1 ← lift (parse_p1_value (group "value1" m));
      value2 ← lift (parse_p1_value (group "value2" m));
      _ ← set_telegram (key +:+ ".A") value1;
      set_telegram (key +:+ ".B") value2
  | None =>
  match re_search P1_ONE_VALUE_RGX line with
  | Some m =>
      let key := group "key" m in
      value ← lift (parse_p1_value (group "value" m));
      set_telegram key value
  | None => log (LogNotParsed line)
  end end end.

(** Lines 235 to 251 of [read_datagram]: the footer line. *)
Definition end_line (line : string) : M unit :=
  _ ← set_telegram "checksum" (VStr (drop_first line));
  t ← now;
  _ ← set_meta "frame-end-time" (VMicro t);
  st ← get_state;
  start ← lift (match data_meta st !! "frame-start-time" with
                | Some (VMicro t0) => Ok t0
                | Some _ => Raise TypeError
                | None => Raise KeyError
                end);
  let duration := Z.quot (t - start) 1000 in
  _ ← set_meta "frame-time-duration" (VInt duration);
  st ← get_state;
  _ ← (match data_telegram st !! TIMESTAMP_KEY with
       | Some _ => process_datagram
       | None => log LogDateKeyMissing
       end);
  _ ← modify (set_first_line_read false);
  reset_data.

(** Lines 222 to 230 of [read_datagram]: the header line. *)
Definition first_line (line : string) : M unit :=
  st ← get_state;
  let datagram_counter := (datagram_counter st + 1)%Z in
  _ ← modify (set_datagram_counter datagram_counter);
  _ ← set_telegram "header" (VStr line);
  t ← now;
  _ ← modify (set_frame_start_time (Some t));
  t' ← now;
  _ ← set_meta "frame-start-time" (VMicro t');
  _ ← set_meta "frame-number" (VInt datagram_counter);
  modify (set_first_line_read true).

(** One turn of the loop of [read_datagram], on the line read. *)
Definition read_datagram_line (line : string) : M pc :=
  st ← get_state;
  if Nat.eqb (String.length line) 0 then mret InLoop
  else if negb (first_line_read st) && startswith "/" line then
    _ ← first_line line; mret InLoop
  else if negb (first_line_read st) then
    _ ← log LogMissedHeader; skip_datagram 2
  else if startswith "!" line && Nat.eqb (String.length line) 5 then
    _ ← end_line line; mret InLoop
  else
    _ ← parse_line line; mret InLoop.

Definition step (p : pc) (line : string) : M pc :=
  match p with
  | InSkip counted_datagrams count => skip_datagram_line counted_datagrams count line
  | InLoop => read_datagram_line line
  end.

(** The reader fed the lines that [read_line] returns, in order, from the
    place [p]. *)
Fixpoint run (p : pc) (lines : list string) : M pc :=
  match lines with
  | [] => mret p
  | line :: lines' => p' ← step p line; run p' lines'
  end.

(** [SlimmeLezer.read_datagram] on the lines that arrive. *)
Definition read_datagram (skip_count : Z) (lines : list string) : M pc :=
  _ ← modify (set_datagram_counter 0);
  p ← skip_datagram skip_count;
  run p lines.

End Reader.

Section Socket.

(** Whether the [try] block of [open_p1_connection] runs to its end, for the
    [n]-th socket opened. *)
Variable connects : nat -> bool.

(** [SlimmeLezer.close_p1_connection] *)
Definition close_p1_connection (c : connection) : connection := act Close c.

(** [SlimmeLezer.open_p1_connection] *)
Definition open_p1_connection (c : connection) : connection :=
  let c := act (LogWaiting (sleep_open_p1_connection c)) c in
  let c := act (Sleep (sleep_open_p1_connection c)) c in
  let c := set_sleep_open_p1_connection 15 c in
  let ok := connects (opened_sockets c) in
  let c := act (Connect ok) (set_opened_sockets (S (opened_sockets c)) c) in
  let c := if ok then c else close_p1_connection (act LogOpenError c) in
  act LogOpened c.

(** [SlimmeLezer.__init__], for the attributes of [connection]. *)
Definition connect : connection :=
  open_p1_connection (Connection EmptyString 1 0 []).

(** [SlimmeLezer.read_slimmelezer_buffer] on what the socket gives, in
    order: the connection and what is left to receive, [None] while the
    delimiter has not come. *)
Fixpoint read_slimmelezer_buffer (incoming : list received) (c : connection)
    : option (connection * list received) :=
  if negb (str_in slimmelezer_delimeter (slimmelezer_buffer c)) then
    match incoming with
    | [] => None
    | Data result :: incoming' =>
        read_slimmelezer_buffer incoming'
          (set_slimmelezer_buffer (slimmelezer_buffer c +:+ result) c)
    | SocketTimeout :: incoming' =>
        read_slimmelezer_buffer incoming'
          (open_p1_connection (close_p1_connection (act LogTimeout c)))
    | OtherException :: incoming' =>
        read_slimmelezer_buffer incoming'
          (open_p1_connection (close_p1_connection (act LogReadError c)))
    end
  else Some (c, incoming).

(** [SlimmeLezer.read_line] *)
Definition read_line (incoming : list received) (c : connection)
    : answer (string * connection * list received) :=
  match (if negb (str_in slimmelezer_delimeter (slimmelezer_buffer c))
         then read_slimmelezer_buffer incoming c
         else Some (c, incoming)) with
  | None => Waiting
  | Some (c, incoming) =>
      match split1 slimmelezer_delimeter (slimmelezer_buffer c) with
      | [element; buffer] => Returned (element, set_slimmelezer_buffer buffer c, incoming)
      | _ => Raised ValueError
      end
  end.

(** [n] calls of [read_line] in a row: the lines returned, in order. *)
Fixpoint read_lines (n : nat) (incoming : list received) (c : connection)
    : answer (list string * connection * list received) :=
  match n with
  | O => Returned ([], c, incoming)
  | S n' =>
      match read_line incoming c with
      | Returned (element, c, incoming) =>
          match read_lines n' incoming c with
          | Returned (elements, c, incoming) => Returned (element :: elements, c, incoming)
          | Raised e => Raised e
          | Waiting => Waiting
          end
      | Raised e => Raised e
      | Waiting => Waiting
      end
  end.

End Socket.

End SlimmeLezer.

(** ** Vocabulary of the statements *)

Fixpoint all_chars (p : ascii -> bool) (s : string) : bool :=
  match s with
  | EmptyString => true
  | String c s' => p c && all_chars p s'
  end.

Fixpoint count_char (c : ascii) (s : string) : nat :=
  match s with
  | EmptyString => 0
  | String a s' => (if Ascii.eqb a c then 1 else 0) + count_char c s'
  end.

(** A non-empty run of digits. *)
Definition is_digits (s : string) : bool := negb (is_empty s) && all_chars is_digit s.

(** A tag key [<a>-<b>:<c>.<d>.<e>]. *)
Definition is_tag (tag : string) : Prop :=
  exists a b c d e,
    is_digits a = true /\ is_digits b = true /\ is_digits c = true /\
    is_digits d = true /\ is_digits e = true /\
    tag = a +:+ "-" +:+ b +:+ ":" +:+ c +:+ "." +:+ d +:+ "." +:+ e.

(** A value with no opening parenthesis in it. *)
Definition plain (v : string) : bool := all_chars not_lparen v.

(** The texts a pattern can match, whatever surrounds them. *)
Fixpoint lang (r : regex) (t : string) : Prop :=
  match r with
  | Cls p => exists c, t = String c EmptyString /\ p c = true
  | Cat r1 r2 => exists t1 t2, t = t1 +:+ t2 /\ lang r1 t1 /\ lang r2 t2
  | Alt r1 r2 => lang r1 t \/ lang r2 t
  | Star _ p => all_chars p t = true
  | Grp _ r0 => lang r0 t
  | Eol => t = EmptyString
  end.

(** [p] occurs in [s]. *)
Definition contains (p s : string) : Prop := exists a b, s = a +:+ p +:+ b.

(** [s.endswith(p)], for the statements that speak of a suffix. *)
Fixpoint endswith (p s : string) : bool :=
  String.eqb p s ||
  match s with
  | EmptyString => false
  | String _ s' => endswith p s'
  end.

(** The resync window of a clock reading: [int(t) // timesync_period]. *)
Definition window (period us : Z) : Z := (int_seconds us `div` period)%Z.

(** The clock state of the synchroniser: reference wall time, reference
    device time, drift, last resync window. *)
Definition clock_state (st : state) : Z * Z * Z * Z :=
  (first_datagram_time st, first_datagram_timestamp st, delta_time st,
   previous_timesync_period_block st).

(** [self.first_line_read = False] and the three assignments that empty
    [self.data]. *)
Definition cleared (st : state) : state :=
  set_data_telegram ∅ (set_data_meta ∅ (set_first_line_read false st)).

(** The state of a footer line between its bookkeeping (checksum, end time,
    duration) and the test for the timestamp tag; [t0] is the frame's start
    time and [t] the clock reading taken. *)
Definition closing (line : string) (t0 t : Z) (st : state) : state :=
  set_data_meta
    (<["frame-time-duration" := VInt (Z.quot (t - t0) 1000)]>
       (<["frame-end-time" := VMicro t]> (data_meta st)))
    (set_ticks (S (ticks st))
       (set_data_telegram (<["checksum" := VStr (drop_first line)]> (data_telegram st)) st)).

Section Vocabulary.

Variable strftime : Z -> string.
Variable clock : nat -> Z.

(** [published st T st']: [process_datagram] took [st] to [st'] and sent one
    message, the device timestamp being [T]. Either the window of the first
    reading equals the last resync window and the clock state is kept, or it
    differs, and the drift and the references are recomputed. *)
Definition published (st : state) (T : Z) (st' : state) : Prop :=
  sent st' = sent st ++ [Message (data_meta st') (data_telegram st')] /\
  data_telegram st' = data_telegram st /\
  data_meta st' =
    <["current-time" := VMicro (clock (pred (ticks st')))]>
      (<["clock-drift" := VMicro (delta_time st')]>
         (<["telegram-timestamp" :=
              VInt (round_seconds
                      (first_datagram_time st'
                       + timedelta_seconds (T - first_datagram_timestamp st')
                         * second_us))]>
            (<["datagram-timestamp" := VStr (strftime T)]> (data_meta st)))) /\
  first_line_read st' = first_line_read st /\
  frame_start_time st' = frame_start_time st /\
  timesync_period st' = timesync_period st /\
  datagram_counter st' = datagram_counter st /\
  ((window (timesync_period st) (clock (ticks st)) = previous_timesync_period_block st /\
    clock_state st' = clock_state st /\
    ticks st' = S (S (ticks st)) /\
    logged st' = logged st)
   \/
   (window (timesync_period st) (clock (ticks st)) <> previous_timesync_period_block st /\
    exists fs,
      frame_start_time st = Some fs /\
      delta_time st' = (fs - first_datagram_time st
                        - (T - first_datagram_timestamp st))%Z /\
      first_datagram_time st' = clock (S (ticks st)) /\
      first_datagram_timestamp st' = T /\
      previous_timesync_period_block st' =
        window (timesync_period st) (clock (S (S (ticks st)))) /\
      ticks st' = S (S (S (S (ticks st)))) /\
      logged st' = logged st ++ [LogDrift (delta_time st')])).

End Vocabulary.

(** The state a header line leaves: [t] and [t'] are the two clock readings
    taken. *)
Definition opened (line : string) (t t' : Z) (st : state) : state :=
  set_first_line_read true
    (set_data_meta
       (<["frame-number" := VInt (datagram_counter st + 1)]>
          (<["frame-start-time" := VMicro t']> (data_meta st)))
       (set_ticks (S (S (ticks st)))
          (set_frame_start_time (Some t)
             (set_data_telegram (<["header" := VStr line]> (data_telegram st))
                (set_datagram_counter (datagram_counter st + 1) st))))).

(** While a datagram is in progress its frame start is on record, as an
    attribute and as a meta field. *)
Definition framed (st : state) : Prop :=
  first_line_read st = true ->
  (exists t0, data_meta st !! "frame-start-time" = Some (VMicro t0)) /\
  (exists fs, frame_start_time st = Some fs).

(** A step that sends nothing and leaves the clock state alone. *)
Definition quiet (st st' : state) : Prop :=
  sent st' = sent st /\ clock_state st' = clock_state st /\
  timesync_period st' = timesync_period st /\ ticks st <= ticks st'.

(** A run of lines that ends with a footer line and holds no other. *)
Definition footer_delimited (d : list string) : Prop :=
  exists body f,
    d = body ++ [f] /\
    Forall (fun l => SlimmeLezer.is_footer l = false) body /\
    SlimmeLezer.is_footer f = true.

(** ** Vocabulary of the proofs about the matcher *)

(** [takes r t rest new]: on [t +:+ rest] the pattern [r] hands [t], [rest]
    and the groups [new] to its continuation first. *)
Definition takes (r : regex) (t rest : string) (new : captures) : Prop :=
  forall caps k res,
    k t rest (new ++ caps) = Some res -> rmatch r (t +:+ rest) caps k = Some res.

(** [rejects r s]: [r] matches no prefix of [s]. *)
Definition rejects (r : regex) (s : string) : Prop :=
  forall caps k, rmatch r s caps k = None.

Definition head_fails (p : ascii -> bool) (s : string) : bool :=
  match s with
  | EmptyString => true
  | String c _ => negb (p c)
  end.

Definition not_star (c : ascii) : bool := negb (Ascii.eqb c "*").

Section Invariants.

Variable clock : nat -> Z.

(** The last resync window is not ahead of any reading still to come. *)
Definition ahead (st : state) : Prop :=
  forall k, ticks st <= k ->
    (previous_timesync_period_block st <= window (timesync_period st) (clock k))%Z.

(** The messages [new] sent so far within the window [w] all carry the
    drift the state holds, and the window is on record. *)
Definition one_drift (w : Z) (new : list message) (st : state) : Prop :=
  new = [] \/
  (previous_timesync_period_block st = w /\
   Forall (fun m => msg_meta m !! "clock-drift" = Some (VMicro (delta_time st))) new).

End Invariants.

(** ** Sample streams

    Lines as a meter sends them, clocks, and the reader run in the locale of
    [strptime_cet]; the statements below are tried on them. *)

Module Sample.

Definition reader (clock : nat -> Z) (skip_count : Z) (lines : list string)
    (period : Z) : result (pc * state) :=
  SlimmeLezer.read_datagram strptime_cet strftime_ymd_hms clock skip_count lines
    (SlimmeLezer.init clock period).

(** The state a run ends in, [fallback] after an exception. *)
Definition final (fallback : state) (r : result (pc * state)) : state :=
  match r with
  | Ok (_, st) => st
  | Raise _ => fallback
  end.

(** The meta field [k] of every message sent, oldest first. *)
Definition sent_meta (k : string) (r : result (pc * state)) : option (list (option pyval)) :=
  match r with
  | Ok (_, st) => Some (map (fun m => msg_meta m !! k) (sent st))
  | Raise _ => None
  end.

Definition header : string := "/ISK5\2M550T-1013".

(** 2022-10-11 12:00:00 UTC, a quarter of a second per reading. *)
Definition clock_2022 (n : nat) : Z :=
  (1665489600 * second_us + Z.of_nat n * 250000)%Z.

(** The same, with a day and five seconds between the first datagram (eight
    readings, the one of [__init__] included) and the second. *)
Definition clock_next_day (n : nat) : Z :=
  if Nat.ltb n 8 then clock_2022 n else (clock_2022 n + 86405 * second_us)%Z.

(** A clock set back across midnight UTC between two datagrams: from
    2022-10-12 00:00:10 to 2022-10-11 23:59:50. *)
Definition clock_set_back (n : nat) : Z :=
  if Nat.ltb n 8 then (1665532810 * second_us + Z.of_nat n * 250000)%Z
  else (1665532790 * second_us + Z.of_nat n * 250000)%Z.

(** A clock that starts at the epoch: 1970-01-01 00:16:40 UTC. *)
Definition clock_1970 (n : nat) : Z := (1000 * second_us + Z.of_nat n * 250000)%Z.

(** The lines of a datagram between its header and its footer. *)
Definition body (timestamp : string) : list string :=
  ["1-3:0.2.8(50)"; "0-0:1.0.0(" +:+ timestamp +:+ ")";
   "1-0:1.8.1(000123.456*kWh)"; "1-0:1.7.0(00.424*kW)";
   "1-0:32.7.0(230.1*V)"; "1-0:31.7.0(002*A)";
   "0-1:24.2.1(101209112500W)(12785.123*m3)";
   "1-0:99.97.0(2)(0-0:96.7.19)(101208152415W)(0000000240*s)(101208151004W)(0000000301*s)"].

Definition datagram (timestamp footer : string) : list string :=
  header :: body timestamp ++ [footer].

(** Two datagrams a second apart, after one footer line to skip. *)
Definition two_in_a_row : list string :=
  ["!0000"] ++ datagram "221011140005S" "!A1B2" ++ datagram "221011140006S" "!C3D4".

(** The first of them alone. *)
Definition one_alone : list string :=
  ["!0000"] ++ datagram "221011140005S" "!A1B2".

(** A day and five seconds between the device timestamps. *)
Definition a_day_apart : list string :=
  ["!0000"] ++ datagram "221011140000S" "!A1B2" ++ datagram "221012140005S" "!C3D4".

(** The device clock one second back. *)
Definition a_second_back : list string :=
  ["!0000"] ++ datagram "221011140005S" "!A1B2" ++ datagram "221011140004S" "!C3D4".

(** Ten datagrams, a second apart. *)
Definition ten : list (list string) :=
  map (fun n => datagram ("2210111400" +:+ pad2 n +:+ "S") "!A1B2")
    [0; 1; 2; 3; 4; 5; 6; 7; 8; 9]%Z.

(** The reader once its startup skip of one footer line is over. *)
Definition awaiting_header : state :=
  final (SlimmeLezer.init clock_2022 86400) (reader clock_2022 1 ["!0000"] 86400).

(** The reader inside a datagram, after the header and one line. *)
Definition in_datagram (line : string) : state :=
  final (SlimmeLezer.init clock_2022 86400)
    (reader clock_2022 1 ["!0000"; header; line] 86400).

End Sample.

(** ** The command line and the configuration file *)

(** The default of [--config-file] in [get_arguments]:
    [__file__.replace('.py', '.yml').replace('/bin/', '/etc/')]. *)
Definition default_config_file (file : string) : string :=
  replace "/bin/" "/etc/" (replace ".py" ".yml" file).

(** [\$\{\w+?\}], the pattern of [path_constructor]. *)
Definition ENVIRONMENT_RGX : regex :=
  (chr "$" ⋅ chr "{" ⋅ Cls is_word ⋅ Star false is_word ⋅ chr "}")%re.

(** [path_constructor] of [main], on the text of the node; [environ] is
    [os.environ]. *)
Definition path_constructor (environ : gmap string string) (value : string) : string :=
  let matches := findall ENVIRONMENT_RGX value in
  fold_left
    (fun value match_ =>
       let environment_variable := drop_last (str_drop 2 match_) in
       let environment_value :=
         default environment_variable (environ !! environment_variable) in
       replace match_ environment_value value)
    matches value.

(** What [yaml.load] returns, for the types JSON has too. A mapping is kept
    by its string keys, the only ones the reader looks up. *)
#[local] Set Warnings "-register-all".
Inductive yaml : Type :=
| YNone
| YBool (b : bool)
| YInt (n : Z)
| YFloat (x : float)
| YStr (s : string)
| YList (l : list yaml)
| YDict (d : gmap string yaml).
#[local] Set Warnings "register-all".

(** [key in container], for a [key] that is a [str]. *)
Definition is_in (key : string) (container : yaml) : result bool :=
  match container with
  | YDict d => Ok (bool_decide (is_Some (d !! key)))
  | YStr s => Ok (str_in key s)
  | YList l =>
      Ok (existsb (fun v => match v with YStr s => String.eqb s key | _ => false end) l)
  | YNone | YBool _ | YInt _ | YFloat _ => Raise TypeError
  end.

(** [container[key]], for a [key] that is a [str]. *)
Definition subscript (container : yaml) (key : string) : result yaml :=
  match container with
  | YDict d => of_option KeyError (d !! key)
  | _ => Raise TypeError
  end.

(** [int(v)] *)
Definition to_int (v : yaml) : result Z :=
  match v with
  | YInt n => Ok n
  | YBool b => Ok (if b then 1 else 0)%Z
  | YFloat x => int_of_float x
  | YStr s => of_option ValueError (py_int s)
  | YNone | YList _ | YDict _ => Raise TypeError
  end.

Inductive config_warning : Type :=
| CategoryMissing (category : string)
| KeyMissing (key category : string).

(** [get_config_value]: the value returned and the warnings logged. The
    conversion [config_type] is a parameter, as it is in the source. *)
Definition get_config_value {R : Type} (CONFIG : yaml) (category key : string)
    (config_type : yaml -> result R) (default : R) : result (R * list config_warning) :=
  found ← is_in category CONFIG;
  if negb found then Ok (default, [CategoryMissing category])
  else
    section ← subscript CONFIG category;
    found ← is_in key section;
    if negb found then Ok (default, [KeyMissing key category])
    else
      section ← subscript CONFIG category;
      v ← subscript section key;
      _ ← config_type v;
      section ← subscript CONFIG category;
      v ← subscript section key;
      r ← config_type v;
      Ok (r, []).

(** ** Vocabulary of the statements about the line reader *)

(** The text that a run of receptions carries. *)
Fixpoint payload (incoming : list received) : string :=
  match incoming with
  | [] => EmptyString
  | Data text :: incoming' => text +:+ payload incoming'
  | _ :: incoming' => payload incoming'
  end.

(** The receptions that ended in an exception. *)
Fixpoint failures (incoming : list received) : nat :=
  match incoming with
  | [] => 0
  | Data _ :: incoming' => failures incoming'
  | _ :: incoming' => S (failures incoming')
  end.

(** The lines, each followed by the delimiter. *)
Fixpoint join_lines (lines : list string) : string :=
  match lines with
  | [] => EmptyString
  | line :: lines' => line +:+ slimmelezer_delimeter +:+ join_lines lines'
  end.

(** The seconds spent in [time.sleep]. *)
Fixpoint seconds_slept (l : list action) : Z :=
  match l with
  | [] => 0%Z
  | Sleep n :: l' => (n + seconds_slept l')%Z
  | _ :: l' => seconds_slept l'
  end.

(** What [read_slimmelezer_buffer] has done when it returns: [consumed] is
    what it took from the socket. *)
Definition filled (c : connection) (incoming : list received)
    (c' : connection) (incoming' : list received) : Prop :=
  exists consumed,
    incoming = consumed ++ incoming' /\
    slimmelezer_buffer c' = slimmelezer_buffer c +:+ payload consumed /\
    str_in slimmelezer_delimeter (slimmelezer_buffer c') = true /\
    (forall before after, consumed = before ++ after -> after <> [] ->
       str_in slimmelezer_delimeter (slimmelezer_buffer c +:+ payload before) = false) /\
    (sleep_open_p1_connection c = 15%Z ->
     sleep_open_p1_connection c' = 15%Z /\
     opened_sockets c' = (opened_sockets c + failures consumed)%nat /\
     seconds_slept (actions c')
     = (seconds_slept (actions c) + 15 * Z.of_nat (failures consumed))%Z).

(** ** Vocabulary of the statements about the configuration *)

(** A text seen as plain text and references to environment variables. *)
Inductive piece : Type :=
| Text (s : string)
| Reference (name : string).

Definition written (p : piece) : string :=
  match p with
  | Text s => s
  | Reference name => "${" +:+ name +:+ "}"
  end.

(** [os.environ.get(name, name)] *)
Definition value_of (environ : gmap string string) (name : string) : string :=
  default name (environ !! name).

Definition expanded (environ : gmap string string) (p : piece) : string :=
  match p with
  | Text s => s
  | Reference name => value_of environ name
  end.

Fixpoint str_concat (l : list string) : string :=
  match l with
  | [] => EmptyString
  | s :: l' => s +:+ str_concat l'
  end.

Definition not_dollar (c : ascii) : bool := negb (Ascii.eqb c "$").

(** A text without a dollar sign. *)
Definition no_dollar (s : string) : bool := all_chars not_dollar s.

(** A name that [\w+] matches. *)
Definition is_name (name : string) : bool := negb (is_empty name) && all_chars is_word name.

(** A piece of text without a dollar sign, or a reference to a variable whose
    value has none. *)
Definition simple (environ : gmap string string) (p : piece) : Prop :=
  match p with
  | Text s => no_dollar s = true
  | Reference name => is_name name = true /\ no_dollar (value_of environ name) = true
  end.

(** The names a text refers to, in order. *)
Fixpoint references (ps : list piece) : list string :=
  match ps with
  | [] => []
  | Text _ :: ps' => references ps'
  | Reference name :: ps' => name :: references ps'
  end.

(** A piece of text without a dollar sign, or a reference. *)
Definition unexpanded (p : piece) : Prop :=
  match p with
  | Text s => no_dollar s = true
  | Reference name => is_name name = true
  end.

(** The piece after [value.replace('${name}', value_)]. *)
Definition substituted (name value : string) (p : piece) : piece :=
  match p with
  | Text s => Text s
  | Reference m => if String.eqb m name then Text value else Reference m
  end.

(** ** Vocabulary of the statements about data lines *)

(** [matches r t rest new]: the pattern [r] can match the text [t] when
    [rest] follows it, capturing the groups [new] (the last one first). *)
Fixpoint matches (r : regex) (t rest : string) (new : captures) : Prop :=
  match r with
  | Cls p => exists c, t = String c EmptyString /\ p c = true /\ new = []
  | Cat r1 r2 =>
      exists t1 t2 n1 n2,
        t = t1 +:+ t2 /\ new = n2 ++ n1 /\
        matches r1 t1 (t2 +:+ rest) n1 /\ matches r2 t2 rest n2
  | Alt r1 r2 => matches r1 t rest new \/ matches r2 t rest new
  | Star _ p => all_chars p t = true /\ new = []
  | Grp n r0 => exists new0, new = (n, t) :: new0 /\ matches r0 t rest new0
  | Eol => t = EmptyString /\ new = [] /\ (rest = EmptyString \/ rest = newline)
  end.

(** A key under which a data line is stored: a tag, or a tag followed by
    [.A] or [.B]. *)
Definition field_key (k : string) : Prop :=
  exists tag, is_tag tag /\ (k = tag \/ k = tag +:+ ".A" \/ k = tag +:+ ".B").

(** A line whose last character, a final newline apart, is a closing
    parenthesis. *)
Definition closed (line : string) : Prop :=
  exists b, line = b +:+ ")" \/ line = b +:+ ")" +:+ newline.

Definition not_digit (c : ascii) : bool := negb (is_digit c).

(** ** Vocabulary of the statements about the messages sent *)

(** Each number is below those after it. *)
Fixpoint increasing (l : list Z) : Prop :=
  match l with
  | [] => True
  | n :: l' => Forall (Z.lt n) l' /\ increasing l'
  end.

(** A datagram as the meter sends it: a header line, lines that are not
    footer lines, a footer line. *)
Definition whole_datagram (d : list string) : Prop :=
  exists header body footer,
    d = header :: body ++ [footer] /\
    startswith "/" header = true /\
    Forall (fun l => SlimmeLezer.is_footer l = false) body /\
    SlimmeLezer.is_footer footer = true.

Section Messages.

Variable strptime : string -> option Z.
Variable strftime : Z -> string.

(** The eight meta fields of a message: frame start, frame number, frame
    end, device timestamp [T], corrected timestamp, drift, time of
    sending. *)
Definition meta_fields (t0 n t1 T stamp drift t2 : Z) : gmap string pyval :=
  <["current-time" := VMicro t2]>
    (<["clock-drift" := VMicro drift]>
       (<["telegram-timestamp" := VInt stamp]>
          (<["datagram-timestamp" := VStr (strftime T)]>
             (<["frame-time-duration" := VInt (Z.quot (t1 - t0) 1000)]>
                (<["frame-end-time" := VMicro t1]>
                   (<["frame-number" := VInt n]>
                      (<["frame-start-time" := VMicro t0]> ∅))))))).

(** A message with the frame number [n]: its meta fields are the eight, its
    telegram holds the header line, the four characters of the checksum and
    a timestamp that [strptime] reads, and nothing but fields of data lines
    besides. *)
Definition complete (m : message) (n : Z) : Prop :=
  exists t0 t1 T stamp drift t2 h c ts,
    msg_meta m = meta_fields t0 n t1 T stamp drift t2 /\
    msg_telegram m !! "header" = Some (VStr h) /\ startswith "/" h = true /\
    msg_telegram m !! "checksum" = Some (VStr c) /\ String.length c = 4 /\
    msg_telegram m !! TIMESTAMP_KEY = Some (VStr ts) /\
    strptime (replace_char "W" "CET" (replace_char "S" "CEST" ts)) = Some T /\
    (forall k, is_Some (msg_telegram m !! k) ->
       k = "header" \/ k = "checksum" \/ field_key k).

(** Between two datagrams [self.data] is empty; inside one its meta fields
    are the frame start and the frame number, which is the number of header
    lines seen, and its telegram holds the header line and fields of data
    lines; the messages sent are complete and numbered in increasing order,
    below the number of the datagram in progress. *)
Definition orderly (st : state) : Prop :=
  (0 <= datagram_counter st)%Z /\
  (first_line_read st = false -> data_meta st = ∅ /\ data_telegram st = ∅) /\
  (first_line_read st = true ->
   (1 <= datagram_counter st)%Z /\
   exists t0 h,
     data_meta st
     = <["frame-number" := VInt (datagram_counter st)]>
         (<["frame-start-time" := VMicro t0]> ∅) /\
     data_telegram st !! "header" = Some (VStr h) /\ startswith "/" h = true /\
     (forall k, is_Some (data_telegram st !! k) -> k = "header" \/ field_key k)) /\
  exists ns,
    Forall2 complete (sent st) ns /\ increasing ns /\
    Forall (fun n => (1 <= n <= datagram_counter st)%Z /\
                     (first_line_read st = true -> (n < datagram_counter st)%Z)) ns.

(** What is wrong with the timestamp, or with the period, when the footer
    line of a datagram raises [e]. *)
Definition unusable (st : state) (e : exn) : Prop :=
  (exists v, data_telegram st !! TIMESTAMP_KEY = Some v /\
             (forall ts, v <> VStr ts) /\ e = AttributeError) \/
  (exists ts, data_telegram st !! TIMESTAMP_KEY = Some (VStr ts) /\
              strptime (replace_char "W" "CET" (replace_char "S" "CEST" ts)) = None /\
              e = ValueError) \/
  (exists ts T, data_telegram st !! TIMESTAMP_KEY = Some (VStr ts) /\
                strptime (replace_char "W" "CET" (replace_char "S" "CEST" ts)) = Some T /\
                timesync_period st = 0%Z /\ e = ZeroDivisionError).

End Messages.

Section Timing.

Variable clock : nat -> Z.

(** The times of a message are clock readings taken in this order: frame
    start, frame end, sending. *)
Definition taken_in_order (m : message) : Prop :=
  exists i j k,
    i < j /\ j < k /\
    msg_meta m !! "frame-start-time" = Some (VMicro (clock i)) /\
    msg_meta m !! "frame-end-time" = Some (VMicro (clock j)) /\
    msg_meta m !! "current-time" = Some (VMicro (clock k)).

(** Inside a datagram the frame start on record is a reading already
    taken. *)
Definition timed (st : state) : Prop :=
  (first_line_read st = true ->
   exists i, i < ticks st /\ data_meta st !! "frame-start-time" = Some (VMicro (clock i))) /\
  Forall taken_in_order (sent st).

End Timing.

(** ** A sample installation

    What a socket gives, an environment and a configuration; the statements
    about the line reader and the configuration are tried on them. *)

Module Installation.

Definition always (n : nat) : bool := true.

(** Every second socket is refused. *)
Definition flaky (n : nat) : bool := Nat.even n.

Definition crlf : string := slimmelezer_delimeter.

(** Three lines and the start of a fourth, as the socket cuts them. *)
Definition cut_by_line : list received :=
  [Data (Sample.header +:+ crlf); Data ("1-0:1.7.0(00.424*kW)" +:+ crlf);
   Data ("!A1B2" +:+ crlf); Data "/ISK5"].

(** The same text cut elsewhere, a delimiter cut in two, with a timeout and
    another exception on the way. *)
Definition cut_anywhere : list received :=
  [Data "/ISK5\2M5"; SocketTimeout; Data ("50T-1013" +:+ String "013" EmptyString);
   Data (String "010" EmptyString +:+ "1-0:1.7.0(00.424*kW)" +:+ crlf +:+ "!A1");
   OtherException; Data ("B2" +:+ crlf +:+ "/ISK5")].

Definition environ : gmap string string :=
  <["P1_HOST" := "10.0.0.2"]> (<["HOME" := "/home/p1"]> ∅).

(** [${HOME}/log/${P1_HOST}-${USER}.log], [USER] not being set. *)
Definition log_file : list piece :=
  [Reference "HOME"; Text "/log/"; Reference "P1_HOST"; Text "-";
   Reference "USER"; Text ".log"].

Definition slimmelezer_section : gmap string yaml :=
  <["host" := YStr "10.0.0.2"]> (<["port" := YInt 8088]> (<["timesync_period" := YStr "3600"]> ∅)).

Definition CONFIG : gmap string yaml :=
  <["slimmelezer" := YDict slimmelezer_section]> ∅.

(** A datagram without the field [0-0:1.0.0]. *)
Definition undated : list string :=
  [Sample.header; "1-0:1.7.0(00.424*kW)"; "1-0:32.7.0(230.1*V)"; "!E5F6"].

(** Two datagrams, the second one undated, and a third. *)
Definition first_two : list (list string) :=
  [Sample.datagram "221011140005S" "!A1B2"; undated].

Definition third : list string := Sample.datagram "221011140007S" "!C3D4".

End Installation.

(** * Properties *)

#[local] Arguments String.append !s1 s2 : simpl nomatch.
#[local] Arguments Ascii.eqb : simpl never.
#[local] Arguments String.eqb : simpl never.

Ltac unfold_m :=
  unfold SlimmeLezer.now, mbind, mret, M_bind, M_ret, get_state, modify, lift,
    raise, of_option, log, set_meta, set_telegram, reset_data, send_data in *.

Ltac by_eval := vm_compute; reflexivity.

(** ** Strings *)

Lemma str_app_assoc (a b c : string) : (a +:+ b) +:+ c = a +:+ (b +:+ c).
Proof. induction a as [|x a IH]; simpl; [reflexivity | f_equal; exact IH]. Qed.

Lemma str_app_nil_r (a : string) : a +:+ "" = a.
Proof. induction a as [|x a IH]; simpl; [reflexivity | f_equal; exact IH]. Qed.

Lemma all_chars_app p a b :
  all_chars p (a +:+ b) = all_chars p a && all_chars p b.
Proof.
  induction a as [|x a IH]; simpl; [reflexivity|].
  rewrite IH. now rewrite andb_assoc.
Qed.

Lemma count_char_app c a b :
  count_char c (a +:+ b) = (count_char c a + count_char c b)%nat.
Proof. induction a as [|x a IH]; simpl; [reflexivity | rewrite IH; lia]. Qed.

Lemma count_char_none c p s :
  (forall x, p x = true -> Ascii.eqb x c = false) ->
  all_chars p s = true -> count_char c s = 0%nat.
Proof.
  intros Hp. induction s as [|x s IH]; simpl; [reflexivity|].
  intros [Hx Hs]%andb_true_iff. rewrite (Hp x Hx). now rewrite IH.
Qed.

Lemma is_digit_not_lparen x : is_digit x = true -> Ascii.eqb x "(" = false.
Proof.
  intros H. destruct (Ascii.eqb_spec x "(") as [->|]; [discriminate H | reflexivity].
Qed.

Lemma plain_count v : plain v = true -> count_char "(" v = 0%nat.
Proof.
  apply count_char_none. intros x. unfold not_lparen.
  now destruct (Ascii.eqb x "(").
Qed.

Lemma is_digits_all s : is_digits s = true -> all_chars is_digit s = true.
Proof. unfold is_digits. now intros [_ H]%andb_true_iff. Qed.

Lemma is_digits_count s : is_digits s = true -> count_char "(" s = 0%nat.
Proof.
  intros H. apply (count_char_none _ is_digit); [apply is_digit_not_lparen|].
  now apply is_digits_all.
Qed.

Lemma is_tag_count tag : is_tag tag -> count_char "(" tag = 0%nat.
Proof.
  intros (a & b & c & d & e & Ha & Hb & Hc & Hd & He & ->).
  rewrite !count_char_app. simpl.
  rewrite !is_digits_count by assumption. reflexivity.
Qed.

(** ** The matcher *)

Lemma star_match_sound g p k s :
  forall acc caps res,
    star_match g p k acc s caps = Some res ->
    exists t s', s = t +:+ s' /\ all_chars p t = true /\ k (acc +:+ t) s' caps = Some res.
Proof.
  induction s as [|c s IH]; simpl; intros acc caps res H.
  - exists "", "". simpl; rewrite ?str_app_nil_r; repeat split; assumption.
  - destruct (p c) eqn:Hc.
    + assert (Hrec : forall r, star_match g p k (acc +:+ String c "") s caps = Some r ->
                exists t s', String c s = t +:+ s' /\ all_chars p t = true
                             /\ k (acc +:+ t) s' caps = Some r).
      { intros r Hr. destruct (IH _ _ _ Hr) as (t & s' & -> & Ht & Hk).
        exists (String c t), s'. simpl. rewrite Hc, Ht.
        rewrite str_app_assoc in Hk. repeat split; assumption. }
      assert (Hstop : forall r, k acc (String c s) caps = Some r ->
                exists t s', String c s = t +:+ s' /\ all_chars p t = true
                             /\ k (acc +:+ t) s' caps = Some r).
      { intros r Hr. exists "", (String c s). simpl; rewrite ?str_app_nil_r; repeat split; assumption. }
      destruct g.
      * destruct (star_match true p k (acc +:+ String c "") s caps) eqn:E.
        -- inversion H; subst. now apply Hrec.
        -- now apply Hstop.
      * destruct (k acc (String c s) caps) eqn:E.
        -- inversion H; subst. now apply Hstop.
        -- now apply Hrec.
    + exists "", (String c s). simpl; rewrite ?str_app_nil_r; repeat split; assumption.
Qed.

Lemma rmatch_sound r :
  forall s caps k res,
    rmatch r s caps k = Some res ->
    exists t s' c', s = t +:+ s' /\ lang r t /\ k t s' c' = Some res.
Proof.
  induction r as [p | r1 IH1 r2 IH2 | r1 IH1 r2 IH2 | g p | n r IH | ];
    simpl; intros s caps k res H.
  - destruct s as [|c s]; [discriminate|].
    destruct (p c) eqn:Hc; [|discriminate].
    exists (String c ""), s, caps. simpl. eauto.
  - apply IH1 in H as (t1 & s1 & c1 & -> & L1 & H).
    apply IH2 in H as (t2 & s2 & c2 & -> & L2 & H).
    exists (t1 +:+ t2), s2, c2. rewrite str_app_assoc. eauto 7.
  - destruct (rmatch r1 s caps k) eqn:E.
    + inversion H; subst. apply IH1 in E as (t & s' & c' & -> & L & E). eauto 7.
    + apply IH2 in H as (t & s' & c' & -> & L & E'). eauto 7.
  - apply star_match_sound in H as (t & s' & -> & Ht & H). simpl in H. eauto 7.
  - apply IH in H as (t & s' & c' & -> & L & H). eauto 7.
  - destruct (is_empty s || (s =? newline)%string); [|discriminate].
    exists "", s, caps. auto.
Qed.

Lemma re_match_sound r s res :
  re_match r s = Some res -> exists t s', s = t +:+ s' /\ lang r t.
Proof.
  unfold re_match. intros H.
  apply rmatch_sound in H as (t & s' & c' & -> & L & _). eauto.
Qed.

Lemma re_search_unfold r s :
  re_search r s =
  match re_match r s with
  | Some (caps, _) => Some caps
  | None => match s with
            | EmptyString => None
            | String _ s' => re_search r s'
            end
  end.
Proof. destruct s; reflexivity. Qed.

(** A pattern that needs more opening parentheses than the line has does not
    match anywhere in it. *)
Lemma re_search_count r n s :
  (forall t, lang r t -> (n <= count_char "(" t)%nat) ->
  (count_char "(" s < n)%nat ->
  re_search r s = None.
Proof.
  intros Hr. induction s as [|c s IH]; intros Hs.
  - rewrite re_search_unfold. destruct (re_match r "") as [[caps rest]|] eqn:E; [|reflexivity].
    apply re_match_sound in E as (t & s' & E & L).
    apply Hr in L. rewrite E, count_char_app in Hs. lia.
  - rewrite re_search_unfold.
    destruct (re_match r (String c s)) as [[caps rest]|] eqn:E.
    + apply re_match_sound in E as (t & s' & E & L).
      apply Hr in L. rewrite E, count_char_app in Hs. lia.
    + apply IH. simpl in Hs. lia.
Qed.

Lemma lang_chr c t : lang (chr c) t -> t = String c "".
Proof.
  intros (x & -> & H). apply Ascii.eqb_eq in H. now subst.
Qed.

Lemma more_than_two_count t :
  lang P1_MORE_THAN_TWO_VALUES_RGX t -> (3 <= count_char "(" t)%nat.
Proof.
  unfold P1_MORE_THAN_TWO_VALUES_RGX.
  intros (tk & t1 & -> & _ & (p1 & t2 & -> & ->%lang_chr & (v1 & t3 & -> & _ &
         (p2 & t4 & -> & ->%lang_chr & (p3 & t5 & -> & ->%lang_chr &
         (v2 & t6 & -> & _ & (p4 & t7 & -> & ->%lang_chr & _))))))).
  rewrite !count_char_app. simpl. lia.
Qed.

(** ** Matches along the preferred path *)

Lemma takes_cls p c rest : p c = true -> takes (Cls p) (String c "") rest [].
Proof. intros Hc caps k res H. simpl. now rewrite Hc. Qed.

Lemma takes_chr c rest : takes (chr c) (String c "") rest [].
Proof. apply takes_cls. apply Ascii.eqb_refl. Qed.

Lemma takes_cat r1 r2 t1 t2 rest n1 n2 :
  takes r1 t1 (t2 +:+ rest) n1 -> takes r2 t2 rest n2 ->
  takes (Cat r1 r2) (t1 +:+ t2) rest (n2 ++ n1).
Proof.
  intros H1 H2 caps k res H. simpl. rewrite str_app_assoc.
  apply H1. apply H2. now rewrite <- app_assoc in H.
Qed.

Lemma takes_grp n r t rest new :
  takes r t rest new -> takes (Grp n r) t rest ((n, t) :: new).
Proof. intros H caps k res Hk. simpl. now apply H. Qed.

Lemma star_greedy_prefix p k t :
  forall acc rest caps res,
    all_chars p t = true ->
    star_match true p k (acc +:+ t) rest caps = Some res ->
    star_match true p k acc (t +:+ rest) caps = Some res.
Proof.
  induction t as [|c t IH]; simpl; intros acc rest caps res Ht H.
  - now rewrite str_app_nil_r in H.
  - apply andb_true_iff in Ht as [Hc Ht]. rewrite Hc.
    rewrite (IH (acc +:+ String c "") rest caps res Ht); [reflexivity|].
    now rewrite str_app_assoc.
Qed.

Lemma star_match_stop g p k acc rest caps :
  head_fails p rest = true -> star_match g p k acc rest caps = k acc rest caps.
Proof.
  destruct rest as [|c rest]; simpl; [reflexivity|].
  intros H. apply negb_true_iff in H. now rewrite H.
Qed.

Lemma takes_star_greedy p t rest :
  all_chars p t = true -> head_fails p rest = true -> takes (Star true p) t rest [].
Proof.
  intros Ht Hr caps k res H. simpl.
  apply star_greedy_prefix; [assumption|].
  now rewrite star_match_stop.
Qed.

Lemma takes_digits a rest :
  is_digits a = true -> head_fails is_digit rest = true -> takes digits a rest [].
Proof.
  unfold is_digits. intros [Hne Ha]%andb_true_iff Hr.
  destruct a as [|c a]; [discriminate|]. simpl in Ha.
  apply andb_true_iff in Ha as [Hc Ha].
  change (String c a) with (String c "" +:+ a).
  change (@nil (string * string)) with (@nil (string * string) ++ []).
  apply takes_cat; [now apply takes_cls | now apply takes_star_greedy].
Qed.

Lemma takes_key tag rest :
  is_tag tag -> head_fails is_digit rest = true -> takes KEY_RGX tag rest [].
Proof.
  intros (a & b & c & d & e & Ha & Hb & Hc & Hd & He & ->) Hr.
  unfold KEY_RGX.
  repeat (first
    [ apply (takes_cat _ _ _ _ _ [] []);
      [ first [ apply takes_digits; [assumption | reflexivity]
              | apply takes_chr ] | ]
    | apply takes_digits; assumption ]).
Qed.

Lemma takes_key_group tag rest :
  is_tag tag -> head_fails is_digit rest = true ->
  takes (Grp "key" KEY_RGX) tag rest [("key", tag)].
Proof. intros. now apply takes_grp, takes_key. Qed.

(** A lazy star stops at the first place where the rest of the pattern
    matches. *)
Lemma star_lazy_takes p k v :
  forall acc rest caps res,
    all_chars p v = true ->
    (forall a b, v = a +:+ b -> b <> "" -> k (acc +:+ a) (b +:+ rest) caps = None) ->
    k (acc +:+ v) rest caps = Some res ->
    star_match false p k acc (v +:+ rest) caps = Some res.
Proof.
  induction v as [|c v IH]; simpl; intros acc rest caps res Hv Hshort Hk.
  - rewrite str_app_nil_r in Hk.
    destruct rest as [|c rest]; simpl; [assumption|].
    destruct (p c); [now rewrite Hk | assumption].
  - apply andb_true_iff in Hv as [Hc Hv]. rewrite Hc.
    pose proof (Hshort "" (String c v) eq_refl ltac:(discriminate)) as Hs.
    rewrite str_app_nil_r in Hs. simpl in Hs. rewrite Hs.
    apply IH; [assumption | | now rewrite str_app_assoc].
    intros a b -> Hb. rewrite str_app_assoc. now apply (Hshort (String c a) b).
Qed.

Lemma lazy_group_takes n p R v rest caps k res :
  all_chars p v = true ->
  (forall a b, v = a +:+ b -> b <> "" -> rejects R (b +:+ rest)) ->
  rmatch R rest ((n, v) :: caps) (fun t2 s2 c2 => k (v +:+ t2) s2 c2) = Some res ->
  rmatch (Cat (Grp n (Star false p)) R) (v +:+ rest) caps k = Some res.
Proof.
  intros Hv Hshort H. simpl.
  apply star_lazy_takes; [assumption | | exact H].
  intros a b E Hb. simpl. now apply (Hshort a b).
Qed.

Lemma all_chars_suffix p a b : all_chars p (a +:+ b) = true -> all_chars p b = true.
Proof. rewrite all_chars_app. now intros [_ H]%andb_true_iff. Qed.

Lemma eqb_newline_paren s : ((s +:+ ")") =? newline)%string = false.
Proof.
  apply String.eqb_neq. destruct s as [|c [|c' s]]; discriminate.
Qed.

Lemma is_empty_app_paren s : is_empty (s +:+ ")") = false.
Proof. destruct s; reflexivity. Qed.

(** What comes after a lazy value cannot start inside the value. *)
Lemma rejects_close_open R b rest :
  plain b = true -> b <> "" ->
  rejects (chr ")" ⋅ chr "(" ⋅ R) (b +:+ ")" +:+ rest).
Proof.
  intros Hb Hne caps k. destruct b as [|c b]; [contradiction|].
  simpl. destruct (Ascii.eqb ")" c); [|reflexivity].
  unfold plain in Hb. simpl in Hb. apply andb_true_iff in Hb as [_ Hb].
  destruct b as [|c' b]; [reflexivity|]. simpl.
  simpl in Hb. apply andb_true_iff in Hb as [Hc' _].
  unfold not_lparen in Hc'. apply negb_true_iff in Hc'.
  rewrite Ascii.eqb_sym. now rewrite Hc'.
Qed.

Lemma rejects_close_eol b :
  b <> "" -> rejects (chr ")" ⋅ Eol) (b +:+ ")").
Proof.
  intros Hne caps k. destruct b as [|c b]; [contradiction|].
  simpl. destruct (Ascii.eqb ")" c); [|reflexivity].
  now rewrite is_empty_app_paren, eqb_newline_paren.
Qed.

Lemma rejects_open R b rest :
  plain b = true -> b <> "" -> rejects (chr "(" ⋅ R) (b +:+ rest).
Proof.
  intros Hb Hne caps k. destruct b as [|c b]; [contradiction|].
  simpl. unfold plain in Hb. simpl in Hb. apply andb_true_iff in Hb as [Hc _].
  unfold not_lparen in Hc. apply negb_true_iff in Hc.
  rewrite Ascii.eqb_sym. now rewrite Hc.
Qed.

Lemma takes_then r1 r2 t rest new caps k res :
  takes r1 t rest new ->
  rmatch r2 rest (new ++ caps) (fun t2 s2 c2 => k (t +:+ t2) s2 c2) = Some res ->
  rmatch (Cat r1 r2) (t +:+ rest) caps k = Some res.
Proof. intros H1 H2. cbn [rmatch]. now apply H1. Qed.

Lemma chr_then c R s caps k :
  rmatch (Cat (chr c) R) (String c s) caps k
  = rmatch R s caps (fun t2 s2 c2 => k (String c "" +:+ t2) s2 c2).
Proof. cbn [rmatch chr]. now rewrite Ascii.eqb_refl. Qed.

Lemma two_values_match tag v1 v2 :
  is_tag tag -> plain v1 = true -> plain v2 = true ->
  re_match P1_TWO_VALUES_RGX (tag +:+ "(" +:+ v1 +:+ ")(" +:+ v2 +:+ ")")
  = Some ([("value2", v2); ("value1", v1); ("key", tag)], "").
Proof.
  intros Ht H1 H2. unfold re_match, P1_TWO_VALUES_RGX.
  apply (takes_then _ _ tag _ [("key", tag)]);
    [now apply takes_key_group|].
  change ("(" +:+ v1 +:+ ")(" +:+ v2 +:+ ")")
    with (String "(" (v1 +:+ String ")" (String "(" (v2 +:+ String ")" "")))).
  rewrite chr_then.
  apply lazy_group_takes; [exact H1 | |].
  { intros a b -> Hb. apply (rejects_close_open _ b); [|assumption].
    now apply all_chars_suffix in H1. }
  rewrite !chr_then.
  apply lazy_group_takes; [exact H2 | |].
  { intros a b -> Hb. now apply rejects_close_eol. }
  rewrite chr_then. reflexivity.
Qed.

Lemma two_values_search tag v1 v2 :
  is_tag tag -> plain v1 = true -> plain v2 = true ->
  re_search P1_TWO_VALUES_RGX (tag +:+ "(" +:+ v1 +:+ ")(" +:+ v2 +:+ ")")
  = Some [("value2", v2); ("value1", v1); ("key", tag)].
Proof.
  intros. rewrite re_search_unfold. now rewrite two_values_match.
Qed.

Lemma more_than_two_no_match tag v1 v2 :
  is_tag tag -> plain v1 = true -> plain v2 = true ->
  re_search P1_MORE_THAN_TWO_VALUES_RGX (tag +:+ "(" +:+ v1 +:+ ")(" +:+ v2 +:+ ")")
  = None.
Proof.
  intros Ht H1 H2. apply (re_search_count _ 3); [apply more_than_two_count|].
  rewrite !count_char_app. cbn [count_char].
  rewrite (is_tag_count _ Ht), (plain_count _ H1), (plain_count _ H2).
  rewrite !Ascii.eqb_refl.
  replace (Ascii.eqb ")" "(") with false by reflexivity. simpl. lia.
Qed.

Lemma more_than_two_match tag v1 v2 rest :
  is_tag tag -> plain v1 = true -> plain v2 = true -> all_chars dot rest = true ->
  re_search P1_MORE_THAN_TWO_VALUES_RGX
    (tag +:+ "(" +:+ v1 +:+ ")(" +:+ v2 +:+ "(" +:+ rest +:+ ")")
  = Some [("value2", v2); ("value", v1); ("key", tag)].
Proof.
  intros Ht H1 H2 Hr. rewrite re_search_unfold.
  enough (re_match P1_MORE_THAN_TWO_VALUES_RGX
            (tag +:+ "(" +:+ v1 +:+ ")(" +:+ v2 +:+ "(" +:+ rest +:+ ")")
          = Some ([("value2", v2); ("value", v1); ("key", tag)], "")) as -> by reflexivity.
  unfold re_match, P1_MORE_THAN_TWO_VALUES_RGX.
  apply (takes_then _ _ tag _ [("key", tag)]);
    [now apply takes_key_group|].
  change ("(" +:+ v1 +:+ ")(" +:+ v2 +:+ "(" +:+ rest +:+ ")")
    with (String "(" (v1 +:+ String ")" (String "(" (v2 +:+ String "(" (rest +:+ String ")" ""))))).
  rewrite chr_then.
  apply lazy_group_takes; [exact H1 | |].
  { intros a b -> Hb. apply (rejects_close_open _ b); [|assumption].
    now apply all_chars_suffix in H1. }
  rewrite !chr_then.
  apply lazy_group_takes; [exact H2 | |].
  { intros a b -> Hb. apply (rejects_open _ b); [|assumption].
    now apply all_chars_suffix in H2. }
  rewrite chr_then. cbn [rmatch].
  apply star_greedy_prefix; [assumption|].
  reflexivity.
Qed.

Lemma two_values_count t :
  lang P1_TWO_VALUES_RGX t -> (2 <= count_char "(" t)%nat.
Proof.
  unfold P1_TWO_VALUES_RGX.
  intros (tk & t1 & -> & _ & (p1 & t2 & -> & ->%lang_chr & (v1 & t3 & -> & _ &
         (p2 & t4 & -> & ->%lang_chr & (p3 & t5 & -> & ->%lang_chr & _))))).
  rewrite !count_char_app. simpl. lia.
Qed.

Lemma one_value_count tag v :
  is_tag tag -> plain v = true ->
  count_char "(" (tag +:+ "(" +:+ v +:+ ")") = 1%nat.
Proof.
  intros Ht Hv. rewrite !count_char_app. cbn [count_char].
  rewrite (is_tag_count _ Ht), (plain_count _ Hv), Ascii.eqb_refl.
  replace (Ascii.eqb ")" "(") with false by reflexivity. reflexivity.
Qed.

Lemma one_value_search tag v :
  is_tag tag -> plain v = true ->
  re_search P1_MORE_THAN_TWO_VALUES_RGX (tag +:+ "(" +:+ v +:+ ")") = None /\
  re_search P1_TWO_VALUES_RGX (tag +:+ "(" +:+ v +:+ ")") = None /\
  re_search P1_ONE_VALUE_RGX (tag +:+ "(" +:+ v +:+ ")")
  = Some [("value", v); ("key", tag)].
Proof.
  intros Ht Hv. split; [|split].
  - apply (re_search_count _ 3); [apply more_than_two_count|].
    rewrite one_value_count by assumption. lia.
  - apply (re_search_count _ 2); [apply two_values_count|].
    rewrite one_value_count by assumption. lia.
  - rewrite re_search_unfold.
    enough (re_match P1_ONE_VALUE_RGX (tag +:+ "(" +:+ v +:+ ")")
            = Some ([("value", v); ("key", tag)], "")) as -> by reflexivity.
    unfold re_match, P1_ONE_VALUE_RGX.
    apply (takes_then _ _ tag _ [("key", tag)]);
      [now apply takes_key_group|].
    change ("(" +:+ v +:+ ")") with (String "(" (v +:+ String ")" "")).
    rewrite chr_then.
    apply lazy_group_takes; [exact Hv | |].
    { intros a b -> Hb. now apply rejects_close_eol. }
    rewrite chr_then. reflexivity.
Qed.

(** ** Unit conversion *)

Lemma startswith_iff p s : startswith p s = true <-> exists b, s = p +:+ b.
Proof.
  revert s. induction p as [|a p IH]; intros s; simpl.
  - split; [intros _; now exists s | reflexivity].
  - destruct s as [|b s].
    + split; [discriminate | intros (x & Hx); discriminate Hx].
    + rewrite andb_true_iff, Ascii.eqb_eq, IH. split.
      * intros (-> & x & ->). now exists x.
      * intros (x & Hx). inversion Hx; subst. split; [reflexivity | now exists x].
Qed.

Lemma str_in_contains p s : str_in p s = true <-> contains p s.
Proof.
  unfold contains. induction s as [|c s IH]; simpl.
  - rewrite orb_false_r, startswith_iff. split.
    + intros (b & E). exists "", b. exact E.
    + intros (a & b & E). destruct a as [|x a]; [now exists b | discriminate E].
  - rewrite orb_true_iff, startswith_iff, IH. split.
    + intros [(b & E)|(a & b & E)].
      * exists "", b. exact E.
      * exists (String c a), b. simpl. now rewrite E.
    + intros (a & b & E). destruct a as [|x a].
      * left. now exists b.
      * right. inversion E; subst. now exists a, b.
Qed.

Lemma str_in_false p s : ~ contains p s -> str_in p s = false.
Proof.
  intros H. destruct (str_in p s) eqn:E; [|reflexivity].
  apply str_in_contains in E. contradiction.
Qed.

Lemma split_head_star a b :
  all_chars not_star a = true -> split_head "*" (a +:+ "*" +:+ b) = a.
Proof.
  induction a as [|c a IH]; simpl; [reflexivity|].
  unfold not_star at 1. intros [Hc Ha]%andb_true_iff.
  apply negb_true_iff in Hc. rewrite Hc. f_equal. now apply IH.
Qed.

Lemma parse_line_example st :
  SlimmeLezer.parse_line "1-0:1.7.0(00.424*kW)" st
  = Ok (tt, set_data_telegram (<["1-0:1.7.0" := VInt 424]> (data_telegram st)) st).
Proof.
  unfold SlimmeLezer.parse_line.
  replace (re_search P1_MORE_THAN_TWO_VALUES_RGX "1-0:1.7.0(00.424*kW)")
    with (@None captures) by (vm_compute; reflexivity).
  replace (re_search P1_TWO_VALUES_RGX "1-0:1.7.0(00.424*kW)")
    with (@None captures) by (vm_compute; reflexivity).
  replace (re_search P1_ONE_VALUE_RGX "1-0:1.7.0(00.424*kW)")
    with (Some [("value", "00.424*kW"); ("key", "1-0:1.7.0")])
    by (vm_compute; reflexivity).
  replace (group "key" [("value", "00.424*kW"); ("key", "1-0:1.7.0")])
    with "1-0:1.7.0" by reflexivity.
  replace (parse_p1_value (group "value" [("value", "00.424*kW"); ("key", "1-0:1.7.0")]))
    with (Ok (VInt 424)) by (vm_compute; reflexivity).
  reflexivity.
Qed.

(** C3 (as amended). Unit conversion is selected by the first of the markers
    [*m3], [*kW], [*V], [*A] that occurs anywhere in the raw value, and it
    converts the text before the first [*]: with [*m3] or [*kW] that text is
    read as a float, multiplied by 1000 and truncated to an integer; with
    [*V] it is read as a float; with [*A] it is read as an integer; a text
    that is not a number raises [ValueError]; a value with none of the four
    markers is returned unchanged. A single-value line [tag(value)] whose
    value converts stores the conversion under [tag]; the line
    [1-0:1.7.0(00.424*kW)] yields the field [1-0:1.7.0] equal to the integer
    424. *)
Theorem parse_p1_value_by_marker (value : string) :
  let number := split_head "*" value in
  (contains "*m3" value \/ contains "*kW" value ->
   parse_p1_value value
   = (x ← of_option ValueError (py_float number);
      n ← int_of_float (fmul (float_of_Z 1000) x);
      Ok (VInt n))) /\
  (~ contains "*m3" value -> ~ contains "*kW" value -> contains "*V" value ->
   parse_p1_value value
   = (x ← of_option ValueError (py_float number); Ok (VFloat x))) /\
  (~ contains "*m3" value -> ~ contains "*kW" value -> ~ contains "*V" value ->
   contains "*A" value ->
   parse_p1_value value
   = (n ← of_option ValueError (py_int number); Ok (VInt n))) /\
  (~ contains "*m3" value -> ~ contains "*kW" value -> ~ contains "*V" value ->
   ~ contains "*A" value ->
   parse_p1_value value = Ok (VStr value)) /\
  (forall a b, all_chars not_star a = true -> value = a +:+ "*" +:+ b -> number = a) /\
  (forall tag x st,
     is_tag tag -> plain value = true -> parse_p1_value value = Ok x ->
     SlimmeLezer.parse_line (tag +:+ "(" +:+ value +:+ ")") st
     = Ok (tt, set_data_telegram (<[tag := x]> (data_telegram st)) st)) /\
  (forall st,
     SlimmeLezer.parse_line "1-0:1.7.0(00.424*kW)" st
     = Ok (tt, set_data_telegram (<["1-0:1.7.0" := VInt 424]> (data_telegram st)) st)).
Proof.
  cbv zeta.
  split; [|split; [|split; [|split; [|split; [|split]]]]]; cycle 5.
  { intros tag x st Ht Hv Hx. unfold SlimmeLezer.parse_line.
    destruct (one_value_search tag value Ht Hv) as (-> & -> & ->).
    cbn [group]. replace (String.eqb "value" "key") with false by reflexivity.
    rewrite !String.eqb_refl, Hx. reflexivity. }
  all: cycle 1. all: unfold parse_p1_value.
  - intros [H|H]; apply str_in_contains in H.
    + now rewrite H.
    + rewrite H. now destruct (str_in "*m3" value).
  - intros H1 H2 H3. apply str_in_contains in H3.
    now rewrite (str_in_false _ _ H1), (str_in_false _ _ H2), H3.
  - intros H1 H2 H3 H4. apply str_in_contains in H4.
    now rewrite (str_in_false _ _ H1), (str_in_false _ _ H2), (str_in_false _ _ H3), H4.
  - intros H1 H2 H3 H4.
    now rewrite (str_in_false _ _ H1), (str_in_false _ _ H2), (str_in_false _ _ H3),
      (str_in_false _ _ H4).
  - intros a b Ha ->. now apply split_head_star.
  - apply parse_line_example.
Qed.

Lemma parse_p1_value_raises v e :
  parse_p1_value v = Raise e -> e = ValueError \/ e = OverflowError.
Proof.
  unfold parse_p1_value, mbind, result_bind, of_option.
  assert (Hint : forall x, int_of_float x = Raise e -> e = ValueError \/ e = OverflowError).
  { intros [s|s| |s m ex]; simpl; intros H; inversion H; auto. }
  destruct (str_in "*m3" v).
  { destruct (py_float _) as [x|]; [|intros H; inversion H; auto].
    destruct (int_of_float _) eqn:E; [discriminate|]. intros H; inversion H; subst. eauto. }
  destruct (str_in "*kW" v).
  { destruct (py_float _) as [x|]; [|intros H; inversion H; auto].
    destruct (int_of_float _) eqn:E; [discriminate|]. intros H; inversion H; subst. eauto. }
  destruct (str_in "*V" v).
  { destruct (py_float _) as [x|]; [discriminate|intros H; inversion H; auto]. }
  destruct (str_in "*A" v).
  { destruct (py_int _) as [x|]; [discriminate|intros H; inversion H; auto]. }
  discriminate.
Qed.

(** ** The reader *)

Section Properties.

Variable strptime : string -> option Z.
Variable strftime : Z -> string.
Variable clock : nat -> Z.

Local Abbreviation now := (SlimmeLezer.now clock).
Local Abbreviation resync := (SlimmeLezer.resync clock).
Local Abbreviation process_datagram := (SlimmeLezer.process_datagram strptime strftime clock).
Local Abbreviation skip_datagram := SlimmeLezer.skip_datagram.
Local Abbreviation skip_datagram_line := SlimmeLezer.skip_datagram_line.
Local Abbreviation parse_line := SlimmeLezer.parse_line.
Local Abbreviation end_line := (SlimmeLezer.end_line strptime strftime clock).
Local Abbreviation first_line := (SlimmeLezer.first_line clock).
Local Abbreviation read_datagram_line := (SlimmeLezer.read_datagram_line strptime strftime clock).
Local Abbreviation step := (SlimmeLezer.step strptime strftime clock).
Local Abbreviation run := (SlimmeLezer.run strptime strftime clock).
Local Abbreviation read_datagram := (SlimmeLezer.read_datagram strptime strftime clock).
Local Abbreviation is_footer := SlimmeLezer.is_footer.
Local Abbreviation published := (published strftime clock).
Local Abbreviation ahead := (ahead clock).
Local Abbreviation init := (SlimmeLezer.init clock).
Local Abbreviation fix_zone ts := (replace_char "W" "CET" (replace_char "S" "CEST" ts)).

Lemma process_datagram_missing st :
  data_telegram st !! TIMESTAMP_KEY = None ->
  process_datagram st = Ok (tt, set_logged (logged st ++ [LogDateKeyMissing]) st).
Proof.
  intros Hk. unfold SlimmeLezer.process_datagram. unfold_m. now rewrite Hk.
Qed.

Lemma process_datagram_publishes st ts T fs :
  data_telegram st !! TIMESTAMP_KEY = Some (VStr ts) ->
  strptime (fix_zone ts) = Some T ->
  timesync_period st <> 0%Z ->
  frame_start_time st = Some fs ->
  exists st', process_datagram st = Ok (tt, st') /\ published st T st'.
Proof.
  intros Hk Hp Hper Hfs.
  unfold SlimmeLezer.process_datagram, SlimmeLezer.resync. unfold_m.
  rewrite Hk, Hp. simpl.
  destruct (Z.eqb_spec (timesync_period st) 0) as [|_]; [contradiction|].
  destruct (Z.eqb_spec (int_seconds (clock (ticks st)) `div` timesync_period st)
              (previous_timesync_period_block st)) as [Hw|Hw]; simpl.
  - eexists. split; [reflexivity|].
    unfold published, clock_state, window. simpl.
    repeat split; try reflexivity. left. repeat split; try reflexivity. exact Hw.
  - rewrite Hfs. simpl. eexists. split; [reflexivity|].
    unfold published, clock_state, window. simpl.
    repeat split; try reflexivity. right. split; [exact Hw|].
    exists fs. repeat split; try reflexivity. exact Hfs.
Qed.

Lemma process_datagram_inv st u st' :
  process_datagram st = Ok (u, st') ->
  (data_telegram st !! TIMESTAMP_KEY = None /\
   st' = set_logged (logged st ++ [LogDateKeyMissing]) st)
  \/
  (exists ts T,
     data_telegram st !! TIMESTAMP_KEY = Some (VStr ts) /\
     strptime (fix_zone ts) = Some T /\
     timesync_period st <> 0%Z /\
     published st T st').
Proof.
  intros H.
  destruct (data_telegram st !! TIMESTAMP_KEY) as [v|] eqn:Hk.
  2:{ left. rewrite (process_datagram_missing st Hk) in H. now inversion H. }
  right.
  destruct v as [n|x|ts|us];
    try (unfold SlimmeLezer.process_datagram in H; unfold_m; rewrite Hk in H;
         simpl in H; discriminate H).
  destruct (strptime (fix_zone ts)) as [T|] eqn:Hp.
  2:{ unfold SlimmeLezer.process_datagram in H; unfold_m; rewrite Hk, Hp in H.
      simpl in H. discriminate H. }
  destruct (Z.eq_dec (timesync_period st) 0%Z) as [Hz|Hz].
  { unfold SlimmeLezer.process_datagram in H; unfold_m; rewrite Hk, Hp in H.
    simpl in H. rewrite Hz in H. simpl in H. discriminate H. }
  exists ts, T. do 3 (split; [first [reflexivity | assumption]|]).
  destruct (frame_start_time st) as [fs|] eqn:Hfs.
  - destruct (process_datagram_publishes st ts T fs Hk Hp Hz Hfs) as (st2 & E & P).
    rewrite E in H. inversion H; subst. exact P.
  - (* no frame start: only the branch without recomputation returns *)
    unfold SlimmeLezer.process_datagram, SlimmeLezer.resync in H. unfold_m.
    rewrite Hk, Hp in H. simpl in H.
    destruct (Z.eqb_spec (timesync_period st) 0) as [|_]; [contradiction|].
    destruct (Z.eqb_spec (int_seconds (clock (ticks st)) `div` timesync_period st)
                (previous_timesync_period_block st)) as [Hw|Hw]; simpl in H.
    + inversion H; subst.
      unfold published, clock_state, window. simpl.
      rewrite Hfs.
      repeat split; try reflexivity. left. repeat split; try reflexivity. exact Hw.
    + rewrite Hfs in H. simpl in H. discriminate H.
Qed.


Lemma end_line_drops line st t0 :
  data_meta st !! "frame-start-time" = Some (VMicro t0) ->
  data_telegram st !! TIMESTAMP_KEY = None ->
  end_line line st
  = Ok (tt, cleared (set_logged (logged st ++ [LogDateKeyMissing])
                       (closing line t0 (clock (ticks st)) st))).
Proof.
  intros Hm Hk. unfold SlimmeLezer.end_line. unfold_m. simpl.
  rewrite lookup_insert_ne by discriminate. rewrite Hm. simpl.
  rewrite lookup_insert_ne by discriminate. rewrite Hk. reflexivity.
Qed.

Lemma end_line_publishes line st t0 ts T fs :
  data_meta st !! "frame-start-time" = Some (VMicro t0) ->
  data_telegram st !! TIMESTAMP_KEY = Some (VStr ts) ->
  strptime (fix_zone ts) = Some T ->
  timesync_period st <> 0%Z ->
  frame_start_time st = Some fs ->
  exists st2,
    published (closing line t0 (clock (ticks st)) st) T st2 /\
    end_line line st = Ok (tt, cleared st2).
Proof.
  intros Hm Hk Hp Hper Hfs.
  destruct (process_datagram_publishes
              (closing line t0 (clock (ticks st)) st) ts T fs) as (st2 & E & P);
    try assumption.
  { simpl. rewrite lookup_insert_ne by discriminate. exact Hk. }
  exists st2. split; [exact P|].
  unfold SlimmeLezer.end_line. unfold_m. simpl.
  rewrite lookup_insert_ne by discriminate. rewrite Hm. simpl.
  rewrite lookup_insert_ne by discriminate. rewrite Hk.
  match goal with
  | |- context [SlimmeLezer.process_datagram _ _ _ ?s] =>
      change s with (closing line t0 (clock (ticks st)) st)
  end.
  rewrite E. reflexivity.
Qed.

Lemma end_line_inv line st u st' :
  end_line line st = Ok (u, st') ->
  exists t0,
    data_meta st !! "frame-start-time" = Some (VMicro t0) /\
    ((data_telegram st !! TIMESTAMP_KEY = None /\
      st' = cleared (set_logged (logged st ++ [LogDateKeyMissing])
                       (closing line t0 (clock (ticks st)) st)))
     \/
     (exists ts T st2,
        data_telegram st !! TIMESTAMP_KEY = Some (VStr ts) /\
        strptime (fix_zone ts) = Some T /\
        timesync_period st <> 0%Z /\
        published (closing line t0 (clock (ticks st)) st) T st2 /\
        st' = cleared st2)).
Proof.
  intros H.
  destruct (data_meta st !! "frame-start-time") as [v|] eqn:Hm.
  2:{ unfold SlimmeLezer.end_line in H. unfold_m. simpl in H.
      rewrite lookup_insert_ne in H by discriminate. rewrite Hm in H. discriminate H. }
  destruct v as [n|x|s|t0];
    try (unfold SlimmeLezer.end_line in H; unfold_m; simpl in H;
         rewrite lookup_insert_ne in H by discriminate; rewrite Hm in H;
         discriminate H).
  exists t0. split; [reflexivity|].
  destruct (data_telegram st !! TIMESTAMP_KEY) as [v|] eqn:Hk.
  - right.
    unfold SlimmeLezer.end_line in H. unfold_m. simpl in H.
    rewrite lookup_insert_ne in H by discriminate. rewrite Hm in H. simpl in H.
    rewrite lookup_insert_ne in H by discriminate. rewrite Hk in H.
    match type of H with
    | context [SlimmeLezer.process_datagram _ _ _ ?s] =>
        change s with (closing line t0 (clock (ticks st)) st) in H
    end.
    destruct (process_datagram (closing line t0 (clock (ticks st)) st))
      as [[u2 st2]|e] eqn:E; [|discriminate H].
    inversion H; subst.
    apply process_datagram_inv in E as [[E _]|(ts & T & E1 & E2 & E3 & E4)].
    + simpl in E. rewrite lookup_insert_ne in E by discriminate. congruence.
    + simpl in E1. rewrite lookup_insert_ne in E1 by discriminate.
      rewrite Hk in E1. inversion E1; subst.
      exists ts, T, st2.
      split; [reflexivity|]. split; [assumption|]. split; [exact E3|].
      split; [exact E4 | reflexivity].
  - left. split; [reflexivity|].
    rewrite (end_line_drops line st t0 Hm Hk) in H. now inversion H.
Qed.

Lemma first_line_eq line st :
  first_line line st
  = Ok (tt, opened line (clock (ticks st)) (clock (S (ticks st))) st).
Proof. reflexivity. Qed.

Ltac now_same_frame st :=
  match goal with
  | |- exists tel lg, ?X = _ =>
      exists (data_telegram X), (logged X); destruct st; reflexivity
  end.

Lemma parse_line_inv line st u st' :
  parse_line line st = Ok (u, st') ->
  exists tel lg, st' = set_logged lg (set_data_telegram tel st).
Proof.
  unfold SlimmeLezer.parse_line. unfold_m. intros H.
  destruct (re_search P1_MORE_THAN_TWO_VALUES_RGX line) as [m|].
  { destruct (parse_p1_value (group "value" m)); [|discriminate H].
    destruct (parse_p1_value (group "value2" m)); [|discriminate H].
    simpl in H. inversion H; subst. now_same_frame st. }
  destruct (re_search P1_TWO_VALUES_RGX line) as [m|].
  { destruct (parse_p1_value (group "value1" m)); [|discriminate H].
    destruct (parse_p1_value (group "value2" m)); [|discriminate H].
    simpl in H. inversion H; subst. now_same_frame st. }
  destruct (re_search P1_ONE_VALUE_RGX line) as [m|].
  { destruct (parse_p1_value (group "value" m)); [|discriminate H].
    simpl in H. inversion H; subst. now_same_frame st. }
  inversion H; subst. now_same_frame st.
Qed.

(** The branches of the loop of [read_datagram]. *)

Lemma line_empty st : read_datagram_line "" st = Ok (InLoop, st).
Proof. reflexivity. Qed.

Lemma startswith_nonempty p c s : startswith (String c p) s = true -> s <> "".
Proof. destruct s; [discriminate | discriminate]. Qed.

Lemma length_nonempty line : line <> "" -> Nat.eqb (String.length line) 0 = false.
Proof. destruct line; [contradiction | reflexivity]. Qed.

Lemma line_header line st :
  first_line_read st = false -> startswith "/" line = true ->
  read_datagram_line line st
  = Ok (InLoop, opened line (clock (ticks st)) (clock (S (ticks st))) st).
Proof.
  intros Hf Hs. unfold SlimmeLezer.read_datagram_line. unfold_m.
  destruct line as [|c line]; [discriminate Hs|].
  cbn [String.length Nat.eqb]. rewrite Hf, Hs. reflexivity.
Qed.

Lemma line_missed line st :
  first_line_read st = false -> line <> "" -> startswith "/" line = false ->
  read_datagram_line line st
  = Ok (InSkip 0 2, cleared (set_logged (logged st ++ [LogMissedHeader]) st)).
Proof.
  intros Hf Hne Hs. unfold SlimmeLezer.read_datagram_line. unfold_m.
  destruct line as [|c line]; [contradiction|].
  cbn [String.length Nat.eqb]. rewrite Hf, Hs. reflexivity.
Qed.

Lemma is_footer_nonempty line : is_footer line = true -> line <> "".
Proof. destruct line; [discriminate | discriminate]. Qed.

Lemma line_footer line st :
  first_line_read st = true -> is_footer line = true ->
  read_datagram_line line st
  = match end_line line st with
    | Ok (_, st') => Ok (InLoop, st')
    | Raise e => Raise e
    end.
Proof.
  intros Hf Hs. unfold SlimmeLezer.read_datagram_line. unfold_m.
  rewrite (length_nonempty line) by now apply is_footer_nonempty.
  rewrite Hf. unfold SlimmeLezer.is_footer in Hs. cbn [negb andb].
  rewrite Hs.
  destruct (end_line line st) as [[u st']|e]; reflexivity.
Qed.

Lemma line_data line st :
  first_line_read st = true -> line <> "" -> is_footer line = false ->
  read_datagram_line line st
  = match parse_line line st with
    | Ok (_, st') => Ok (InLoop, st')
    | Raise e => Raise e
    end.
Proof.
  intros Hf Hne Hs. unfold SlimmeLezer.read_datagram_line. unfold_m.
  rewrite (length_nonempty line) by assumption.
  rewrite Hf. unfold SlimmeLezer.is_footer in Hs. cbn [negb andb].
  rewrite Hs.
  destruct (parse_line line st) as [[u st']|e]; reflexivity.
Qed.

(** The loop of [skip_datagram]. *)

Lemma skip_other c n line st :
  is_footer line = false -> skip_datagram_line c n line st = Ok (InSkip c n, st).
Proof.
  intros H. unfold SlimmeLezer.skip_datagram_line, SlimmeLezer.is_footer in *.
  rewrite <- negb_andb, H. reflexivity.
Qed.

Lemma skip_footer c n line st :
  is_footer line = true ->
  skip_datagram_line c n line st
  = Ok (if (n <=? c + 1)%Z then InLoop else InSkip (c + 1) n,
        set_logged (logged st ++ [LogSkipping (c + 1) n]) st).
Proof.
  intros H. unfold SlimmeLezer.skip_datagram_line, SlimmeLezer.is_footer in *.
  rewrite <- negb_andb, H. unfold_m. simpl.
  destruct (n <=? c + 1)%Z; reflexivity.
Qed.

Lemma run_app p l1 l2 st :
  run p (l1 ++ l2) st
  = match run p l1 st with
    | Ok (p', st') => run p' l2 st'
    | Raise e => Raise e
    end.
Proof.
  revert p st. induction l1 as [|l l1 IH]; intros p st; [reflexivity|].
  cbn [app SlimmeLezer.run]. unfold mbind, M_bind.
  destruct (step p l st) as [[p' st']|e]; [apply IH | reflexivity].
Qed.

Lemma run_skip_others c n ls st :
  Forall (fun l => is_footer l = false) ls ->
  run (InSkip c n) ls st = Ok (InSkip c n, st).
Proof.
  induction 1 as [|l ls Hl _ IH]; [reflexivity|].
  cbn [SlimmeLezer.run SlimmeLezer.step]. unfold mbind, M_bind.
  now rewrite skip_other.
Qed.

Lemma step_inv p line st p' st' :
  step p line st = Ok (p', st') ->
  quiet st st' \/
  (exists t0 T st2,
     p = InLoop /\ first_line_read st = true /\ is_footer line = true /\
     published (closing line t0 (clock (ticks st)) st) T st2 /\
     st' = cleared st2).
Proof.
  intros H. destruct p as [c n|]; cbn [SlimmeLezer.step] in H.
  - left. destruct (is_footer line) eqn:Hf.
    + rewrite skip_footer in H by assumption. inversion H; subst.
      unfold quiet, clock_state. simpl. auto.
    + rewrite skip_other in H by assumption. inversion H; subst.
      unfold quiet. auto.
  - destruct line as [|c line].
    { rewrite line_empty in H. inversion H; subst. left. unfold quiet. auto. }
    destruct (first_line_read st) eqn:Hflr.
    + destruct (is_footer (String c line)) eqn:Hf.
      * rewrite line_footer in H by assumption.
        destruct (end_line (String c line) st) as [[u st1]|e] eqn:E; [|discriminate H].
        inversion H; subst.
        apply end_line_inv in E as (t0 & Hm & [[Hk ->]|(ts & T & st2 & Hk & Hp & Hper & P & ->)]).
        -- left. unfold quiet, clock_state. simpl. auto.
        -- right. exists t0, T, st2. auto.
      * rewrite line_data in H by (assumption || discriminate).
        destruct (parse_line (String c line) st) as [[u st1]|e] eqn:E; [|discriminate H].
        inversion H; subst.
        apply parse_line_inv in E as (tel & lg & ->).
        left. unfold quiet, clock_state. simpl. auto.
    + left. destruct (startswith "/" (String c line)) eqn:Hs.
      * rewrite line_header in H by assumption. inversion H; subst.
        unfold quiet, clock_state. simpl. repeat split; try reflexivity. lia.
      * rewrite line_missed in H by (assumption || discriminate). inversion H; subst.
        unfold quiet, clock_state. simpl. auto.
Qed.

(** The frame start stays on record while a datagram is in progress. *)

Lemma step_framed p line st p' st' :
  framed st -> step p line st = Ok (p', st') -> framed st'.
Proof.
  intros Hfr H. destruct p as [c n|]; cbn [SlimmeLezer.step] in H.
  - destruct (is_footer line) eqn:Hf.
    + rewrite skip_footer in H by assumption. inversion H; subst. exact Hfr.
    + rewrite skip_other in H by assumption. inversion H; subst. exact Hfr.
  - destruct line as [|c line].
    { rewrite line_empty in H. inversion H; subst. exact Hfr. }
    destruct (first_line_read st) eqn:Hflr.
    + destruct (is_footer (String c line)) eqn:Hf.
      * rewrite line_footer in H by assumption.
        destruct (end_line (String c line) st) as [[u st1]|e] eqn:E; [|discriminate H].
        inversion H; subst.
        apply end_line_inv in E as (t0 & Hm & [[Hk ->]|(ts & T & st2 & Hk & Hp & Hper & P & ->)]);
          intros Hc; discriminate Hc.
      * rewrite line_data in H by (assumption || discriminate).
        destruct (parse_line (String c line) st) as [[u st1]|e] eqn:E; [|discriminate H].
        inversion H; subst.
        apply parse_line_inv in E as (tel & lg & ->).
        intros _. apply Hfr. exact Hflr.
    + destruct (startswith "/" (String c line)) eqn:Hs.
      * rewrite line_header in H by assumption. inversion H; subst.
        intros _. split; eexists; simpl.
        -- rewrite lookup_insert_ne by discriminate. apply lookup_insert_eq.
        -- reflexivity.
      * rewrite line_missed in H by (assumption || discriminate). inversion H; subst.
        intros Hc; discriminate Hc.
Qed.

Lemma run_framed lines :
  forall p st p' st',
    framed st -> run p lines st = Ok (p', st') -> framed st'.
Proof.
  induction lines as [|l lines IH]; intros p st p' st' Hfr H.
  - inversion H; subst. exact Hfr.
  - cbn [SlimmeLezer.run] in H. unfold mbind, M_bind in H.
    destruct (step p l st) as [[p1 st1]|e] eqn:E; [|discriminate H].
    eapply IH; [|exact H]. eapply step_framed; eassumption.
Qed.

Lemma read_datagram_eq skip_count lines st :
  read_datagram skip_count lines st
  = run (InSkip 0 skip_count) lines (cleared (set_datagram_counter 0 st)).
Proof. reflexivity. Qed.

Lemma read_datagram_framed skip_count lines st p' st' :
  read_datagram skip_count lines st = Ok (p', st') -> framed st'.
Proof.
  rewrite read_datagram_eq. apply run_framed. intros Hc. discriminate Hc.
Qed.

(** The lines of a datagram in progress change only the telegram and the
    log. *)
Lemma run_body body :
  forall st p st',
    first_line_read st = true ->
    Forall (fun l => is_footer l = false) body ->
    run InLoop body st = Ok (p, st') ->
    p = InLoop /\ exists tel lg, st' = set_logged lg (set_data_telegram tel st).
Proof.
  induction body as [|l body IH]; intros st p st' Hflr Hb H.
  - inversion H; subst. split; [reflexivity|].
    exists (data_telegram st'), (logged st'). destruct st'; reflexivity.
  - inversion Hb as [|? ? Hl Hb']; subst.
    cbn [SlimmeLezer.run SlimmeLezer.step] in H. unfold mbind, M_bind in H.
    destruct l as [|c l].
    { rewrite line_empty in H. now apply IH. }
    rewrite line_data in H by (assumption || discriminate).
    destruct (parse_line (String c l) st) as [[u st1]|e] eqn:E; [|discriminate H].
    apply parse_line_inv in E as (tel & lg & ->).
    apply IH in H as (-> & tel' & lg' & ->); [|exact Hflr|exact Hb'].
    split; [reflexivity|]. exists tel', lg'. destruct st; reflexivity.
Qed.

(** Skipping counts footer lines and nothing else. *)

Lemma run_skip_group c n d st :
  footer_delimited d ->
  run (InSkip c n) d st
  = Ok (if (n <=? c + 1)%Z then InLoop else InSkip (c + 1) n,
        set_logged (logged st ++ [LogSkipping (c + 1) n]) st).
Proof.
  intros (body & f & -> & Hb & Hf).
  rewrite run_app, run_skip_others by assumption.
  cbn [SlimmeLezer.run SlimmeLezer.step]. unfold mbind, M_bind.
  rewrite skip_footer by assumption.
  destruct (n <=? c + 1)%Z; reflexivity.
Qed.

Lemma run_skip_groups ds :
  forall c n st,
    Forall footer_delimited ds ->
    (c + Z.of_nat (length ds) < n)%Z ->
    exists lg,
      run (InSkip c n) (concat ds) st
      = Ok (InSkip (c + Z.of_nat (length ds)) n, set_logged (logged st ++ lg) st).
Proof.
  induction ds as [|d ds IH]; intros c n st Hds Hlt.
  - exists []. cbn [concat length SlimmeLezer.run]. unfold mret, M_ret.
    rewrite Z.add_0_r, app_nil_r. destruct st; reflexivity.
  - inversion Hds as [|? ? Hd Hds']; subst.
    cbn [concat]. rewrite run_app, run_skip_group by assumption.
    cbn [length] in Hlt. rewrite Nat2Z.inj_succ in Hlt.
    destruct (Z.leb_spec n (c + 1)) as [Hle|_]; [lia|].
    destruct (IH (c + 1)%Z n (set_logged (logged st ++ [LogSkipping (c + 1) n]) st) Hds')
      as (lg & E); [lia|].
    exists (LogSkipping (c + 1) n :: lg). rewrite E.
    cbn [length]. rewrite Nat2Z.inj_succ.
    replace (c + 1 + Z.of_nat (length ds))%Z with (c + Z.succ (Z.of_nat (length ds)))%Z by lia.
    simpl. rewrite <- app_assoc. reflexivity.
Qed.

Lemma run_skip_all ds d n st :
  Forall footer_delimited ds -> footer_delimited d ->
(Z.of_nat (length ds) + 1)%Z = n ->
  exists lg,
    run (InSkip 0 n) (concat (ds ++ [d])) st
    = Ok (InLoop, set_logged (logged st ++ lg) st).
Proof.
  intros Hds Hd Hn.
  destruct (run_skip_groups ds 0%Z n st Hds) as (lg & E); [lia|].
  rewrite concat_app, run_app, E. cbn [concat]. rewrite app_nil_r.
  rewrite run_skip_group by assumption.
  destruct (Z.leb_spec n (0 + Z.of_nat (length ds) + 1)) as [_|Hlt]; [|lia].
  exists (lg ++ [LogSkipping (0 + Z.of_nat (length ds) + 1) n]).
  simpl. rewrite <- app_assoc. reflexivity.
Qed.

(** C4 (as amended). For every two-value line [tag(v1)(v2)] whose two values
    convert without error, the field parser stores exactly the two fields
    [tag.A] and [tag.B], holding the conversions of [v1] and of [v2]; for
    every list-style line [tag(v1)(v2(rest)] whose values [v1] and [v2]
    convert without error, it stores the first value under [tag] and nothing
    else. *)
Theorem two_value_and_list_lines tag v1 v2 x1 x2 st :
  is_tag tag -> plain v1 = true -> plain v2 = true ->
  parse_p1_value v1 = Ok x1 -> parse_p1_value v2 = Ok x2 ->
  parse_line (tag +:+ "(" +:+ v1 +:+ ")(" +:+ v2 +:+ ")") st
  = Ok (tt, set_data_telegram
              (<[tag +:+ ".B" := x2]> (<[tag +:+ ".A" := x1]> (data_telegram st))) st)
  /\
  forall rest,
    all_chars dot rest = true ->
    parse_line (tag +:+ "(" +:+ v1 +:+ ")(" +:+ v2 +:+ "(" +:+ rest +:+ ")") st
    = Ok (tt, set_data_telegram (<[tag := x1]> (data_telegram st)) st).
Proof.
  intros Ht H1 H2 E1 E2. split.
  - unfold SlimmeLezer.parse_line.
    rewrite more_than_two_no_match, two_values_search by assumption.
    cbn [group]. replace (String.eqb "value2" "key") with false by reflexivity.
    replace (String.eqb "value1" "key") with false by reflexivity.
    replace (String.eqb "value2" "value1") with false by reflexivity.
    rewrite !String.eqb_refl. rewrite E1, E2. reflexivity.
  - intros rest Hr. unfold SlimmeLezer.parse_line.
    rewrite more_than_two_match by assumption.
    cbn [group]. replace (String.eqb "value2" "key") with false by reflexivity.
    replace (String.eqb "value" "key") with false by reflexivity.
    replace (String.eqb "value2" "value") with false by reflexivity.
    rewrite !String.eqb_refl. rewrite E1, E2. reflexivity.
Qed.

(** C7 (as amended). For every data line read while a datagram is in
    progress: a line that matches none of the three patterns is logged as
    unparsed and changes nothing else; a line that matches a pattern, and
    whose captured values convert, stores its field or fields; whenever the
    step returns, only the telegram and the log have changed, so the
    datagram goes on; and the step raises exactly when the conversion of a
    value captured by the first matching pattern raises, with that
    exception ([ValueError] or [OverflowError]), which nothing catches. *)
Theorem data_line_outcomes st line :
  first_line_read st = true -> line <> "" -> is_footer line = false ->
  (re_search P1_MORE_THAN_TWO_VALUES_RGX line = None ->
   re_search P1_TWO_VALUES_RGX line = None ->
   re_search P1_ONE_VALUE_RGX line = None ->
   read_datagram_line line st
   = Ok (InLoop, set_logged (logged st ++ [LogNotParsed line]) st)) /\
  (forall m v v2,
     re_search P1_MORE_THAN_TWO_VALUES_RGX line = Some m ->
     parse_p1_value (group "value" m) = Ok v ->
     parse_p1_value (group "value2" m) = Ok v2 ->
     read_datagram_line line st
     = Ok (InLoop, set_data_telegram (<[group "key" m := v]> (data_telegram st)) st)) /\
  (forall m v1 v2,
     re_search P1_MORE_THAN_TWO_VALUES_RGX line = None ->
     re_search P1_TWO_VALUES_RGX line = Some m ->
     parse_p1_value (group "value1" m) = Ok v1 ->
     parse_p1_value (group "value2" m) = Ok v2 ->
     read_datagram_line line st
     = Ok (InLoop,
           set_data_telegram
             (<[group "key" m +:+ ".B" := v2]>
                (<[group "key" m +:+ ".A" := v1]> (data_telegram st))) st)) /\
  (forall m v,
     re_search P1_MORE_THAN_TWO_VALUES_RGX line = None ->
     re_search P1_TWO_VALUES_RGX line = None ->
     re_search P1_ONE_VALUE_RGX line = Some m ->
     parse_p1_value (group "value" m) = Ok v ->
     read_datagram_line line st
     = Ok (InLoop, set_data_telegram (<[group "key" m := v]> (data_telegram st)) st)) /\
  (forall p' st',
     read_datagram_line line st = Ok (p', st') ->
     p' = InLoop /\ exists tel lg, st' = set_logged lg (set_data_telegram tel st)) /\
  (forall e,
     read_datagram_line line st = Raise e <->
     exists m name,
       (re_search P1_MORE_THAN_TWO_VALUES_RGX line = Some m /\
        (name = "value" \/
         name = "value2" /\ exists v, parse_p1_value (group "value" m) = Ok v)
        \/
        re_search P1_MORE_THAN_TWO_VALUES_RGX line = None /\
        re_search P1_TWO_VALUES_RGX line = Some m /\
        (name = "value1" \/
         name = "value2" /\ exists v, parse_p1_value (group "value1" m) = Ok v)
        \/
        re_search P1_MORE_THAN_TWO_VALUES_RGX line = None /\
        re_search P1_TWO_VALUES_RGX line = None /\
        re_search P1_ONE_VALUE_RGX line = Some m /\ name = "value") /\
       parse_p1_value (group name m) = Raise e /\
       (e = ValueError \/ e = OverflowError)).
Proof.
  intros Hflr Hne Hf.
  rewrite (line_data line st Hflr Hne Hf).
  split; [|split; [|split; [|split; [|split]]]].
  - unfold SlimmeLezer.parse_line. unfold_m. intros -> -> ->. reflexivity.
  - unfold SlimmeLezer.parse_line. unfold_m. intros m v v2 -> -> ->. reflexivity.
  - unfold SlimmeLezer.parse_line. unfold_m. intros m v1 v2 -> -> -> ->. reflexivity.
  - unfold SlimmeLezer.parse_line. unfold_m. intros m v -> -> -> ->. reflexivity.
  - intros p' st' H.
    destruct (SlimmeLezer.parse_line line st) as [[u st1]|e] eqn:E; [|discriminate H].
    inversion H; subst. split; [reflexivity|].
    eapply parse_line_inv. exact E.
  - intros e. unfold SlimmeLezer.parse_line. unfold_m.
    destruct (re_search P1_MORE_THAN_TWO_VALUES_RGX line) as [m|].
    { destruct (parse_p1_value (group "value" m)) as [v|e1] eqn:E1.
      - destruct (parse_p1_value (group "value2" m)) as [v2|e2] eqn:E2; simpl.
        + split; [discriminate|].
          intros (m' & name & [(Hm & [->|[-> _]])|[(Hm & _)|(Hm & _)]] & Hr & _);
            try discriminate Hm; inversion Hm; subst; congruence.
        + split.
          * intros H. inversion H; subst. exists m, "value2".
            split; [left; split; [reflexivity|right; eauto]|].
            split; [exact E2 | now apply (parse_p1_value_raises _ _ E2)].
          * intros (m' & name & [(Hm & [->|[-> _]])|[(Hm & _)|(Hm & _)]] & Hr & _);
              try discriminate Hm; inversion Hm; subst; congruence.
      - simpl. split.
        + intros H. inversion H; subst. exists m, "value".
          split; [left; split; [reflexivity|now left]|].
          split; [exact E1 | now apply (parse_p1_value_raises _ _ E1)].
        + intros (m' & name & [(Hm & [->|[-> (v & Hv)]])|[(Hm & _)|(Hm & _)]] & Hr & _);
            try discriminate Hm; inversion Hm; subst; congruence. }
    destruct (re_search P1_TWO_VALUES_RGX line) as [m|].
    { destruct (parse_p1_value (group "value1" m)) as [v|e1] eqn:E1.
      - destruct (parse_p1_value (group "value2" m)) as [v2|e2] eqn:E2; simpl.
        + split; [discriminate|].
          intros (m' & name & [(Hm & _)|[(_ & Hm & [->|[-> _]])|(_ & Hm & _)]] & Hr & _);
            try discriminate Hm; inversion Hm; subst; congruence.
        + split.
          * intros H. inversion H; subst. exists m, "value2".
            split; [right; left; split; [reflexivity|split; [reflexivity|right; eauto]]|].
            split; [exact E2 | now apply (parse_p1_value_raises _ _ E2)].
          * intros (m' & name & [(Hm & _)|[(_ & Hm & [->|[-> _]])|(_ & Hm & _)]] & Hr & _);
              try discriminate Hm; inversion Hm; subst; congruence.
      - simpl. split.
        + intros H. inversion H; subst. exists m, "value1".
          split; [right; left; split; [reflexivity|split; [reflexivity|now left]]|].
          split; [exact E1 | now apply (parse_p1_value_raises _ _ E1)].
        + intros (m' & name & [(Hm & _)|[(_ & Hm & [->|[-> (v & Hv)]])|(_ & Hm & _)]] & Hr & _);
            try discriminate Hm; inversion Hm; subst; congruence. }
    destruct (re_search P1_ONE_VALUE_RGX line) as [m|].
    { destruct (parse_p1_value (group "value" m)) as [v|e1] eqn:E1; simpl.
      - split; [discriminate|].
        intros (m' & name & [(Hm & _)|[(_ & Hm & _)|(_ & _ & Hm & ->)]] & Hr & _);
          try discriminate Hm; inversion Hm; subst; congruence.
      - split.
        + intros H. inversion H; subst. exists m, "value".
          split; [right; right; repeat split; reflexivity|].
          split; [exact E1 | now apply (parse_p1_value_raises _ _ E1)].
        + intros (m' & name & [(Hm & _)|[(_ & Hm & _)|(_ & _ & Hm & ->)]] & Hr & _);
            try discriminate Hm; inversion Hm; subst; congruence. }
    simpl. split; [discriminate|].
    intros (m' & name & [(Hm & _)|[(_ & Hm & _)|(_ & _ & Hm & _)]] & _); discriminate Hm.
Qed.

(** A header line and the lines after it, up to the footer line. *)
Lemma run_datagram header body footer st p1 st1 :
  first_line_read st = false -> startswith "/" header = true ->
  Forall (fun l => is_footer l = false) body -> is_footer footer = true ->
  run InLoop (header :: body) st = Ok (p1, st1) ->
  p1 = InLoop /\
  (exists tel lg,
     st1 = set_logged lg
             (set_data_telegram tel
                (opened header (clock (ticks st)) (clock (S (ticks st))) st))) /\
  run InLoop (header :: body ++ [footer]) st
  = match end_line footer st1 with
    | Ok (_, st') => Ok (InLoop, st')
    | Raise e => Raise e
    end.
Proof.
  intros Hflr Hh Hb Hf H0. pose proof H0 as H.
  cbn [SlimmeLezer.run SlimmeLezer.step] in H. unfold mbind, M_bind in H.
  rewrite line_header in H by assumption.
  apply run_body in H as (-> & tel & lg & E); [|reflexivity|assumption].
  split; [reflexivity|]. split; [eauto|].
  change (header :: body ++ [footer]) with ((header :: body) ++ [footer]).
  rewrite run_app, H0. cbn [SlimmeLezer.run SlimmeLezer.step]. unfold mbind, M_bind.
  rewrite line_footer; [|subst st1; reflexivity|assumption].
  destruct (end_line footer st1) as [[u st']|e]; reflexivity.
Qed.

(** C5 (as amended). For every datagram bounded by a header line and a
    footer line of 5 characters starting with [!], whose lines are read
    without an exception, with a resync period that is not zero: if the
    field [0-0:1.0.0] holds a string that [strptime] accepts, the datagram is
    published exactly once and the message's checksum is the footer without
    its first character; if the field is absent, nothing is published; in
    both cases the framer awaits a header afterwards. *)
Theorem datagram_published_once st header body footer p1 st1 :
  first_line_read st = false -> startswith "/" header = true ->
  Forall (fun l => is_footer l = false) body -> is_footer footer = true ->
  run InLoop (header :: body) st = Ok (p1, st1) ->
  timesync_period st <> 0%Z ->
  (forall ts T,
     data_telegram st1 !! TIMESTAMP_KEY = Some (VStr ts) ->
     strptime (fix_zone ts) = Some T ->
     exists msg st2,
       run InLoop (header :: body ++ [footer]) st = Ok (InLoop, st2) /\
       sent st2 = sent st ++ [msg] /\
       msg_telegram msg !! "checksum" = Some (VStr (drop_first footer)) /\
       msg_telegram msg !! TIMESTAMP_KEY = Some (VStr ts) /\
       first_line_read st2 = false) /\
  (data_telegram st1 !! TIMESTAMP_KEY = None ->
   exists st2,
     run InLoop (header :: body ++ [footer]) st = Ok (InLoop, st2) /\
     sent st2 = sent st /\
     first_line_read st2 = false).
Proof.
  intros Hflr Hh Hb Hf H0 Hper.
  destruct (run_datagram header body footer st p1 st1 Hflr Hh Hb Hf H0)
    as (-> & (tel & lg & E) & Hrun).
  assert (Hm : data_meta st1 !! "frame-start-time" = Some (VMicro (clock (S (ticks st))))).
  { subst st1. simpl. rewrite lookup_insert_ne by discriminate. apply lookup_insert_eq. }
  split.
  - intros ts T Hk Hp.
    destruct (end_line_publishes footer st1 _ ts T (clock (ticks st)) Hm Hk Hp)
      as (st2 & P & Hend).
    { subst st1. exact Hper. }
    { subst st1. reflexivity. }
    destruct P as (Hsent & Htel & _).
    exists (Message (data_meta st2) (data_telegram st2)), (cleared st2).
    rewrite Hrun, Hend. split; [reflexivity|].
    split; [simpl; rewrite Hsent; subst st1; reflexivity|].
    split; [simpl; rewrite Htel; simpl; apply lookup_insert_eq|].
    split; [simpl; rewrite Htel; simpl; rewrite lookup_insert_ne by discriminate; exact Hk|].
    reflexivity.
  - intros Hk. rewrite Hrun, (end_line_drops footer st1 _ Hm Hk).
    eexists. split; [reflexivity|]. split; [subst st1; reflexivity | reflexivity].
Qed.

(** C6. For every datagram in progress that a run of the reader has reached
    and whose fields lack the tag [0-0:1.0.0], the footer line sends no
    message, leaves the clock state (reference wall time, reference device
    time, drift, last resync window) as it was, logs the missing key and
    leaves the reader awaiting the next header, with no exception;
    [process_datagram] itself, called on such fields, only logs. *)
Theorem datagram_without_timestamp skip_count period lines st line :
  read_datagram skip_count lines (init period) = Ok (InLoop, st) ->
  first_line_read st = true ->
  data_telegram st !! TIMESTAMP_KEY = None ->
  is_footer line = true ->
  process_datagram st = Ok (tt, set_logged (logged st ++ [LogDateKeyMissing]) st) /\
  exists st',
    read_datagram_line line st = Ok (InLoop, st') /\
    sent st' = sent st /\
    clock_state st' = clock_state st /\
    logged st' = logged st ++ [LogDateKeyMissing] /\
    first_line_read st' = false /\
    data_meta st' = ∅ /\ data_telegram st' = ∅.
Proof.
  intros Hrun Hflr Hk Hf.
  split; [now apply process_datagram_missing|].
  apply read_datagram_framed in Hrun.
  destruct (Hrun Hflr) as ((t0 & Hm) & _).
  rewrite line_footer by assumption.
  rewrite (end_line_drops line st t0 Hm Hk).
  eexists. split; [reflexivity|]. repeat split; reflexivity.
Qed.

(** C8. For every non-empty line that does not start with [/] and is read
    while a header is awaited, the reader logs a warning, then discards
    lines until two footer lines have been read: after the first of them it
    is still discarding, after the second it awaits a header again; no
    message is sent meanwhile and the clock state is untouched. *)
Theorem forced_resynchronisation st line l1 f1 l2 f2 :
  first_line_read st = false -> line <> "" -> startswith "/" line = false ->
  Forall (fun l => is_footer l = false) l1 -> is_footer f1 = true ->
  Forall (fun l => is_footer l = false) l2 -> is_footer f2 = true ->
  read_datagram_line line st
  = Ok (InSkip 0 2, cleared (set_logged (logged st ++ [LogMissedHeader]) st)) /\
  (exists st1,
     run InLoop (line :: l1 ++ f1 :: l2) st = Ok (InSkip 1 2, st1) /\
     sent st1 = sent st) /\
  (exists st2,
     run InLoop (line :: l1 ++ f1 :: l2 ++ [f2]) st = Ok (InLoop, st2) /\
     sent st2 = sent st /\
     clock_state st2 = clock_state st /\
     logged st2 = logged st ++ [LogMissedHeader; LogSkipping 1 2; LogSkipping 2 2] /\
     first_line_read st2 = false /\
     data_meta st2 = ∅ /\ data_telegram st2 = ∅).
Proof.
  intros Hflr Hne Hs H1 Hf1 H2 Hf2.
  split; [now apply line_missed|].
  assert (Hfirst : forall rest,
    run InLoop (line :: l1 ++ f1 :: rest) st
    = run (InSkip 1 2) rest
        (set_logged ((logged st ++ [LogMissedHeader]) ++ [LogSkipping 1 2])
           (cleared (set_logged (logged st ++ [LogMissedHeader]) st)))).
  { intros rest. cbn [SlimmeLezer.run SlimmeLezer.step]. unfold mbind, M_bind.
    rewrite line_missed by assumption.
    rewrite run_app, run_skip_others by assumption.
    cbn [SlimmeLezer.run SlimmeLezer.step]. unfold mbind, M_bind.
    rewrite skip_footer by assumption. reflexivity. }
  split.
  - rewrite Hfirst, run_skip_others by assumption.
    eexists. split; reflexivity.
  - rewrite Hfirst, run_app, run_skip_others by assumption.
    cbn [SlimmeLezer.run SlimmeLezer.step]. unfold mbind, M_bind.
    rewrite skip_footer by assumption.
    eexists. split; [reflexivity|]. simpl. rewrite <- !app_assoc.
    repeat split; reflexivity.
Qed.

(** The startup skip ends with the footer line that brings the count to the
    skip count, and with the first footer line when the skip count is below
    1. *)
Lemma run_skip_startup ds n st :
  Forall footer_delimited ds -> length ds = Z.to_nat (Z.max 1 n) ->
  exists lg,
    run (InSkip 0 n) (concat ds) st = Ok (InLoop, set_logged (logged st ++ lg) st).
Proof.
  intros Hds Hlen.
  destruct (exists_last (l := ds)) as (ds' & d & ->).
  { intros ->. cbn [length] in Hlen. lia. }
  apply Forall_app in Hds as [Hds' Hd]. inversion Hd as [|? ? Hd' _]; subst.
  rewrite length_app in Hlen. cbn [length] in Hlen.
  destruct (Z.le_gt_cases n 1) as [Hle|Hgt].
  - destruct ds' as [|d' ds']; [|cbn [length] in Hlen; lia].
    cbn [app concat]. rewrite app_nil_r, run_skip_group by assumption.
    destruct (Z.leb_spec n (0 + 1)) as [_|Hlt]; [|lia].
    eexists. reflexivity.
  - apply run_skip_all; [assumption|assumption|lia].
Qed.

(** C9 (as amended). With a startup skip-count [n] (10 by default), the
    reader discards the first [max n 1] footer-delimited runs of lines of
    the stream, whatever they hold, and sends nothing meanwhile: [n] of them
    when [n] is at least 1, and one all the same when [n] is zero or
    negative, the count being compared with [n] only once a footer line has
    been counted. Before the last of these footer lines it is still
    discarding, after it it awaits a header. The datagram that follows, when
    its lines are read without an exception and its timestamp is accepted,
    is therefore the first one published, as frame number 1. *)
Theorem first_published_after_skip skip_count period ds header body footer p1 st1 ts T :
  length ds = Z.to_nat (Z.max 1 skip_count) ->
  Forall footer_delimited ds ->
  startswith "/" header = true ->
  Forall (fun l => is_footer l = false) body -> is_footer footer = true ->
  read_datagram skip_count (concat ds ++ header :: body) (init period) = Ok (p1, st1) ->
  data_telegram st1 !! TIMESTAMP_KEY = Some (VStr ts) ->
  strptime (fix_zone ts) = Some T ->
  period <> 0%Z ->
  (forall ds1 ds2,
     ds = ds1 ++ ds2 -> ds2 <> [] ->
     exists st',
       read_datagram skip_count (concat ds1) (init period)
       = Ok (InSkip (Z.of_nat (length ds1)) skip_count, st') /\
       sent st' = []) /\
  (exists st0,
     read_datagram skip_count (concat ds) (init period) = Ok (InLoop, st0) /\
     sent st0 = [] /\ first_line_read st0 = false) /\
  (exists msg st2,
     read_datagram skip_count (concat ds ++ header :: body ++ [footer]) (init period)
     = Ok (InLoop, st2) /\
     sent st2 = [msg] /\
     msg_meta msg !! "frame-number" = Some (VInt 1) /\
     msg_telegram msg !! "checksum" = Some (VStr (drop_first footer))).
Proof.
  intros Hlen Hds Hh Hb Hf H0 Hk Hp Hper.
  set (s0 := cleared (set_datagram_counter 0 (init period))) in *.
  split.
  { intros ds1 ds2 -> Hne. rewrite read_datagram_eq. fold s0.
    destruct ds1 as [|d1 ds1].
    { eexists. split; reflexivity. }
    apply Forall_app in Hds as [Hds1 _].
    destruct (run_skip_groups (d1 :: ds1) 0%Z skip_count s0 Hds1) as (lg & E).
    { rewrite length_app in Hlen. destruct ds2; [contradiction|].
      cbn [length] in Hlen |- *. lia. }
    rewrite E. eexists. split; [reflexivity|reflexivity]. }
  destruct (run_skip_startup ds skip_count s0 Hds Hlen) as (lg & E).
  split.
  { rewrite read_datagram_eq. fold s0. rewrite E. eexists. split; [reflexivity|].
    split; reflexivity. }
  rewrite read_datagram_eq in H0. fold s0 in H0. rewrite run_app, E in H0.
  rewrite read_datagram_eq. fold s0. rewrite run_app, E.
  set (s1 := set_logged (logged s0 ++ lg) s0) in *.
  destruct (run_datagram header body footer s1 p1 st1 eq_refl Hh Hb Hf H0)
    as (-> & (tel & lg' & Est) & Hrun).
  assert (Hm : data_meta st1 !! "frame-start-time" = Some (VMicro (clock (S (ticks s1))))).
  { subst st1. simpl. rewrite lookup_insert_ne by discriminate. apply lookup_insert_eq. }
  destruct (end_line_publishes footer st1 _ ts T (clock (ticks s1)) Hm Hk Hp)
    as (st2 & P & Hend).
  { subst st1. exact Hper. }
  { subst st1. reflexivity. }
  destruct P as (Hsent & Htel & Hmeta & _).
  exists (Message (data_meta st2) (data_telegram st2)), (cleared st2).
  rewrite Hrun, Hend. split; [reflexivity|].
  split; [simpl; rewrite Hsent; subst st1; reflexivity|].
  split.
  - simpl. rewrite Hmeta. rewrite !lookup_insert_ne by discriminate.
    subst st1. simpl. rewrite !lookup_insert_ne by discriminate.
    apply lookup_insert_eq.
  - simpl. rewrite Htel. simpl. apply lookup_insert_eq.
Qed.

Lemma clock_state_eq st st' :
  clock_state st' = clock_state st ->
  first_datagram_time st' = first_datagram_time st /\
  first_datagram_timestamp st' = first_datagram_timestamp st /\
  delta_time st' = delta_time st /\
  previous_timesync_period_block st' = previous_timesync_period_block st.
Proof. unfold clock_state. intros H. inversion H. auto. Qed.

Lemma window_mono period a b :
  (0 < period)%Z -> (a <= b)%Z -> (window period a <= window period b)%Z.
Proof.
  intros Hp Hab. unfold window, int_seconds, second_us.
  apply Z.div_le_mono; [assumption|]. apply Z.quot_le_mono; lia.
Qed.

Lemma window_nonneg period a :
  (0 < period)%Z -> (0 <= a)%Z -> (0 <= window period a)%Z.
Proof.
  intros Hp Ha. unfold window, int_seconds, second_us.
  apply Z.div_pos; [|assumption]. apply Z.quot_pos; lia.
Qed.

Lemma published_drift st T st' :
  published st T st' ->
  data_meta st' !! "clock-drift" = Some (VMicro (delta_time st')).
Proof.
  intros (_ & _ & -> & _). rewrite lookup_insert_ne by discriminate.
  apply lookup_insert_eq.
Qed.

Lemma published_timestamp st T st' :
  published st T st' ->
  data_meta st' !! "telegram-timestamp"
  = Some (VInt (round_seconds
                  (first_datagram_time st'
                   + timedelta_seconds (T - first_datagram_timestamp st') * second_us))).
Proof.
  intros (_ & _ & -> & _). rewrite !lookup_insert_ne by discriminate.
  apply lookup_insert_eq.
Qed.

(** The seconds field of a difference is the difference in whole seconds
    only from zero up to one day. *)
Lemma timedelta_seconds_within_a_day us :
  (0 <= us < 86400 * second_us)%Z ->
  timedelta_seconds us = timedelta_whole_seconds us.
Proof.
  intros H. unfold timedelta_seconds, timedelta_whole_seconds.
  now rewrite Z.mod_small.
Qed.

Lemma timedelta_seconds_range us : (0 <= timedelta_seconds us < 86400)%Z.
Proof.
  unfold timedelta_seconds, second_us.
  pose proof (Z.mod_pos_bound us (86400 * 1000000) ltac:(lia)) as H.
  split.
  - apply Z.div_pos; lia.
  - apply Z.div_lt_upper_bound; lia.
Qed.

Lemma step_ticks p line st p' st' :
  step p line st = Ok (p', st') -> ticks st <= ticks st'.
Proof.
  intros H. apply step_inv in H as [(_ & _ & _ & H)|(t0 & T & st2 & _ & _ & _ & P & ->)].
  - exact H.
  - destruct P as (_ & _ & _ & _ & _ & _ & _ & [(_ & _ & Ht & _)|(_ & fs & _ & _ & _ & _ & _ & Ht & _)]);
      simpl in *; lia.
Qed.

Lemma run_ticks lines :
  forall p st p' st', run p lines st = Ok (p', st') -> ticks st <= ticks st'.
Proof.
  induction lines as [|l lines IH]; intros p st p' st' H.
  - inversion H; subst. lia.
  - cbn [SlimmeLezer.run] in H. unfold mbind, M_bind in H.
    destruct (step p l st) as [[p1 st1]|e] eqn:E; [|discriminate H].
    apply step_ticks in E. apply IH in H. lia.
Qed.

(** *** The last resync window under a clock that does not go back *)

Lemma step_window_mono p line st p' st' :
  (forall i j, i <= j -> (clock i <= clock j)%Z) ->
  (0 < timesync_period st)%Z -> ahead st ->
  step p line st = Ok (p', st') ->
  (previous_timesync_period_block st <= previous_timesync_period_block st')%Z /\
  timesync_period st' = timesync_period st /\ ahead st'.
Proof.
  intros Hmono Hper Hah H.
  apply step_inv in H as [(_ & Hc & Hp & Ht)|(t0 & T & st2 & _ & _ & _ & P & ->)].
  - apply clock_state_eq in Hc as (_ & _ & _ & Hc).
    split; [lia|]. split; [assumption|].
    intros k Hk. rewrite Hc, Hp. apply Hah. lia.
  - destruct P as (_ & _ & _ & _ & _ & Hp & _ & [(_ & Hc & Ht & _)|(_ & fs & _ & _ & _ & _ & Hw & Ht & _)]);
      simpl in *.
    + apply clock_state_eq in Hc as (_ & _ & _ & Hc). simpl in Hc.
      split; [lia|]. split; [assumption|].
      intros k Hk. simpl in *. rewrite Hc, Hp. apply Hah. lia.
    + split; [rewrite Hw; apply Hah; lia|]. split; [assumption|].
      intros k Hk. simpl in *. rewrite Hw, Hp.
      apply window_mono; [assumption|]. apply Hmono. lia.
Qed.

Lemma run_window_mono lines :
  forall p st p' st',
    (forall i j, i <= j -> (clock i <= clock j)%Z) ->
    (0 < timesync_period st)%Z -> ahead st ->
    run p lines st = Ok (p', st') ->
    (previous_timesync_period_block st <= previous_timesync_period_block st')%Z /\
    timesync_period st' = timesync_period st /\ ahead st'.
Proof.
  induction lines as [|l lines IH]; intros p st p' st' Hmono Hper Hah H.
  - inversion H; subst. split; [lia|]. auto.
  - cbn [SlimmeLezer.run] in H. unfold mbind, M_bind in H.
    destruct (step p l st) as [[p1 st1]|e] eqn:E; [|discriminate H].
    apply (step_window_mono _ _ _ _ _ Hmono Hper Hah) in E as (H1 & H2 & H3).
    apply IH in H as (H4 & H5 & H6); [|assumption|lia|assumption].
    split; [lia|]. split; [congruence | assumption].
Qed.

(** *** Messages sent within one resync window *)

Lemma step_one_drift p line st p' st' w base new :
  sent st = base ++ new -> one_drift w new st ->
  step p line st = Ok (p', st') ->
  (forall k, ticks st <= k < ticks st' -> window (timesync_period st) (clock k) = w) ->
  timesync_period st' = timesync_period st /\
  exists new', sent st' = base ++ new' /\ one_drift w new' st'.
Proof.
  intros Hs Hd H Hw.
  apply step_inv in H as [(Hs' & Hc & Hp & Ht)|(t0 & T & st2 & _ & _ & _ & P & ->)].
  - split; [assumption|]. exists new. split; [congruence|].
    apply clock_state_eq in Hc as (_ & _ & Hc1 & Hc2).
    destruct Hd as [->|(Hd1 & Hd2)]; [now left | right].
    rewrite Hc1, Hc2. auto.
  - pose proof (published_drift _ _ _ P) as Hdrift.
    destruct P as (Hsent & _ & _ & _ & _ & Hp & _ & Hcases). simpl in *.
    split; [assumption|].
    exists (new ++ [Message (data_meta st2) (data_telegram st2)]).
    split; [rewrite Hsent, Hs; now rewrite app_assoc|].
    right.
    change (previous_timesync_period_block (cleared st2))
      with (previous_timesync_period_block st2).
    change (delta_time (cleared st2)) with (delta_time st2).
    destruct Hcases as [(Hwin & Hc & Ht & _)|(Hwin & fs & _ & _ & _ & _ & Hprev & Ht & _)].
    + apply clock_state_eq in Hc as (_ & _ & Hc1 & Hc2). simpl in Hc1, Hc2.
      rewrite (Hw (S (ticks st))) in Hwin by lia.
      split; [congruence|].
      apply Forall_app. split.
      * destruct Hd as [->|(_ & Hd2)]; [constructor|]. now rewrite Hc1.
      * constructor; [exact Hdrift | constructor].
    + rewrite (Hw (S (ticks st))) in Hwin by lia.
      destruct Hd as [->|(Hd1 & _)]; [|congruence].
      split; [rewrite Hprev; apply Hw; lia|].
      constructor; [exact Hdrift | constructor].
Qed.

Lemma run_one_drift lines :
  forall p st p' st' w base new,
    sent st = base ++ new -> one_drift w new st ->
    run p lines st = Ok (p', st') ->
    (forall k, ticks st <= k < ticks st' -> window (timesync_period st) (clock k) = w) ->
    exists new', sent st' = base ++ new' /\ one_drift w new' st'.
Proof.
  induction lines as [|l lines IH]; intros p st p' st' w base new Hs Hd H Hw.
  - inversion H; subst. eauto.
  - cbn [SlimmeLezer.run] in H. unfold mbind, M_bind in H.
    destruct (step p l st) as [[p1 st1]|e] eqn:E; [|discriminate H].
    pose proof (step_ticks _ _ _ _ _ E) as Ht1.
    pose proof (run_ticks _ _ _ _ _ H) as Ht2.
    destruct (step_one_drift _ _ _ _ _ w base new Hs Hd E) as (Hp & new1 & Hs1 & Hd1).
    { intros k Hk. apply Hw. lia. }
    apply (IH _ _ _ _ w base new1 Hs1 Hd1 H).
    intros k Hk. rewrite Hp. apply Hw. lia.
Qed.

(** C2 (as amended). The clock state changes in [process_datagram] only
    when the window of the wall-clock reading differs from the last resync
    window; the last resync window does not decrease along a run when the
    clock readings are not negative and never go back (and the period is
    positive); the messages sent by consecutive steps whose clock readings
    all fall in one window carry the same clock drift; and the window of a
    reading that is not negative is the floor of the reading divided by the
    period. *)
Theorem drift_recomputed_once_per_window :
  (forall st u st',
     process_datagram st = Ok (u, st') ->
     window (timesync_period st) (clock (ticks st)) = previous_timesync_period_block st ->
     clock_state st' = clock_state st) /\
  (forall period skip_count lines1 lines2 p1 st1 p2 st2,
     (forall i j, i <= j -> (clock i <= clock j)%Z) ->
     (0 <= clock 0)%Z -> (0 < period)%Z ->
     read_datagram skip_count lines1 (init period) = Ok (p1, st1) ->
     read_datagram skip_count (lines1 ++ lines2) (init period) = Ok (p2, st2) ->
     (previous_timesync_period_block st1 <= previous_timesync_period_block st2)%Z) /\
  (forall p lines st p' st' w,
     run p lines st = Ok (p', st') ->
     (forall k, ticks st <= k < ticks st' ->
                window (timesync_period st) (clock k) = w) ->
     exists new,
       sent st' = sent st ++ new /\
       forall m1 m2, In m1 new -> In m2 new ->
         msg_meta m1 !! "clock-drift" = msg_meta m2 !! "clock-drift") /\
  (forall period us,
     (0 < period)%Z -> (0 <= us)%Z ->
     window period us = (us `div` (period * second_us))%Z).
Proof.
  split; [|split; [|split]]; cycle 3.
  { intros period us Hp Hus. unfold window, int_seconds, second_us.
    rewrite Z.quot_div_nonneg by lia. rewrite Z.div_div by lia.
    f_equal. lia. }
  - intros st u st' H Hw.
    apply process_datagram_inv in H as [[_ ->]|(ts & T & _ & _ & _ & P)]; [reflexivity|].
    destruct P as (_ & _ & _ & _ & _ & _ & _ & [(_ & Hc & _)|(Hne & _)]);
      [exact Hc | contradiction].
  - intros period skip_count lines1 lines2 p1 st1 p2 st2 Hmono H0 Hper H1 H2.
    rewrite read_datagram_eq in H1, H2. rewrite run_app, H1 in H2.
    set (s0 := cleared (set_datagram_counter 0 (init period))) in *.
    assert (Hah : ahead s0).
    { intros k _. simpl. apply window_nonneg; [assumption|].
      specialize (Hmono 0 k ltac:(lia)). lia. }
    assert (Hper0 : (0 < timesync_period s0)%Z) by exact Hper.
    destruct (run_window_mono lines1 _ _ _ _ Hmono Hper0 Hah H1)
      as (_ & Hp1 & Hah1).
    assert (Hper1 : (0 < timesync_period st1)%Z) by (rewrite Hp1; exact Hper0).
    destruct (run_window_mono lines2 _ _ _ _ Hmono Hper1 Hah1 H2)
      as (Hle & _).
    exact Hle.
  - intros p lines st p' st' w H Hw.
    destruct (run_one_drift lines p st p' st' w (sent st) []) as (new & Hs & Hd);
      [now rewrite app_nil_r | now left | exact H | exact Hw |].
    exists new. split; [exact Hs|].
    intros m1 m2 H1 H2.
    destruct Hd as [->|(_ & Hall)]; [destruct H1|].
    rewrite Forall_forall in Hall.
    rewrite (Hall m1), (Hall m2); [reflexivity | |]; now apply list_elem_of_In.
Qed.

(** C10 (as amended). From the clock state that [__init__] leaves, the
    first datagram processed triggers a drift recomputation exactly when the
    resync window of the wall-clock reading, [int(now) // period], is not 0:
    for a positive period, when the reading is at least one period after
    the epoch. When that window is 0 the initial zero drift is reused and
    published. *)
Theorem first_datagram_resync st ts T fs :
  clock_state st = clock_state (init (timesync_period st)) ->
  data_telegram st !! TIMESTAMP_KEY = Some (VStr ts) ->
  strptime (fix_zone ts) = Some T ->
  frame_start_time st = Some fs ->
  timesync_period st <> 0%Z ->
  exists st',
    process_datagram st = Ok (tt, st') /\
    (window (timesync_period st) (clock (ticks st)) <> 0%Z ->
     delta_time st' = (fs - T)%Z /\
     first_datagram_time st' = clock (S (ticks st)) /\
     first_datagram_timestamp st' = T /\
     previous_timesync_period_block st'
     = window (timesync_period st) (clock (S (S (ticks st)))) /\
     logged st' = logged st ++ [LogDrift (fs - T)]) /\
    (window (timesync_period st) (clock (ticks st)) = 0%Z ->
     clock_state st' = clock_state st /\
     logged st' = logged st /\
     data_meta st' !! "clock-drift" = Some (VMicro 0)) /\
    ((0 < timesync_period st)%Z -> (0 <= clock (ticks st))%Z ->
     (window (timesync_period st) (clock (ticks st)) <> 0%Z
      <-> (timesync_period st <= int_seconds (clock (ticks st)))%Z)).
Proof.
  intros Hinit Hk Hp Hfs Hper.
  apply clock_state_eq in Hinit as (Hi1 & Hi2 & Hi3 & Hi4). simpl in Hi1, Hi2, Hi3, Hi4.
  destruct (process_datagram_publishes st ts T fs Hk Hp Hper Hfs)
    as (st' & E & P).
  exists st'. split; [exact E|].
  pose proof (published_drift _ _ _ P) as Hdrift.
  destruct P as (_ & _ & _ & _ & _ & _ & _ & Hcases).
  split; [|split].
  - intros Hw. destruct Hcases as [(Hwin & _)|(_ & fs' & Hfs' & Hd & Hf & Hts & Hprev & _ & Hlog)].
    + congruence.
    + rewrite Hfs in Hfs'. inversion Hfs'; subst fs'.
      assert (Hdelta : delta_time st' = (fs - T)%Z) by (rewrite Hd, Hi1, Hi2; lia).
      rewrite Hlog, Hdelta. auto.
  - intros Hw. destruct Hcases as [(_ & Hc & _ & Hlog)|(Hwin & _)].
    + split; [exact Hc|]. split; [exact Hlog|].
      apply clock_state_eq in Hc as (_ & _ & Hc & _).
      rewrite Hdrift, Hc, Hi3. reflexivity.
    + congruence.
  - intros Hpos Hnow. unfold window.
    assert (0 <= int_seconds (clock (ticks st)))%Z
      by (unfold int_seconds, second_us; apply Z.quot_pos; lia).
    split.
    + intros Hne. destruct (Z.lt_ge_cases (int_seconds (clock (ticks st))) (timesync_period st));
        [|assumption].
      rewrite Z.div_small in Hne by lia. contradiction.
    + intros Hle Hz.
      pose proof (Z.div_le_mono _ _ _ Hpos Hle) as Hd.
      rewrite Z.div_same in Hd by lia. lia.
Qed.

End Properties.

(** ** The statements on the sample streams *)

Import Sample.

(** C1. The corrected timestamp is the reference wall time plus the
    seconds field of the difference of device times, not the difference:
    with a resync period of two days and device timestamps a day and five
    seconds apart, the second message is stamped five seconds after the
    first; with the default period and a device clock set one second back,
    it is stamped 86399 seconds after it. *)
Theorem seconds_field_drops_days :
  strptime_cet "221011140000CEST" = Some 1665496800000000%Z /\
  strptime_cet "221012140005CEST" = Some 1665583205000000%Z /\
  timedelta_whole_seconds (1665583205000000 - 1665496800000000) = 86405%Z /\
  timedelta_seconds (1665583205000000 - 1665496800000000) = 5%Z /\
  first_datagram_time
    (final (SlimmeLezer.init clock_next_day 172800) (reader clock_next_day 1 a_day_apart 172800))
  = 1665489601250000%Z /\
  round_seconds (1665489601250000 + 86405 * second_us) = 1665576006%Z /\
  sent_meta "telegram-timestamp" (reader clock_next_day 1 a_day_apart 172800)
  = Some [Some (VInt 1665489601); Some (VInt 1665489606)] /\
  timedelta_whole_seconds (1665496804000000 - 1665496805000000) = (-1)%Z /\
  timedelta_seconds (1665496804000000 - 1665496805000000) = 86399%Z /\
  sent_meta "telegram-timestamp" (reader clock_2022 1 a_second_back 86400)
  = Some [Some (VInt 1665489601); Some (VInt 1665576000)].
Proof. repeat split; vm_compute; reflexivity. Qed.

(** Against C2 as stated: the clock is set back across midnight UTC between
    two datagrams, and the last resync window goes from 19277 to 19276. *)
Lemma last_window_decreases_when_clock_set_back :
  previous_timesync_period_block
    (final (SlimmeLezer.init clock_set_back 86400) (reader clock_set_back 1 one_alone 86400))
  = 19277%Z /\
  previous_timesync_period_block
    (final (SlimmeLezer.init clock_set_back 86400) (reader clock_set_back 1 two_in_a_row 86400))
  = 19276%Z /\
  two_in_a_row = one_alone ++ datagram "221011140006S" "!C3D4".
Proof. repeat split; vm_compute; reflexivity. Qed.

(** Against C3 as stated: [000123.456*kWh] ends with none of the four
    markers and is converted all the same; [abc*kW] ends with [*kW] and
    raises. *)
Lemma unit_marker_is_not_a_suffix :
  endswith "*m3" "000123.456*kWh" = false /\
  endswith "*kW" "000123.456*kWh" = false /\
  endswith "*V" "000123.456*kWh" = false /\
  endswith "*A" "000123.456*kWh" = false /\
  parse_p1_value "000123.456*kWh" = Ok (VInt 123456) /\
  endswith "*kW" "abc*kW" = true /\
  parse_p1_value "abc*kW" = Raise ValueError.
Proof. repeat split; vm_compute; reflexivity. Qed.

(** Against C4 as stated: a two-value line and a list-style line that store
    nothing, a value of theirs having no number before its unit. *)
Lemma two_value_line_that_raises :
  SlimmeLezer.parse_line ("1-0:1.8.1" +:+ "(" +:+ "x*kW" +:+ ")(" +:+ "2" +:+ ")")
    (in_datagram "1-3:0.2.8(50)")
  = Raise ValueError /\
  SlimmeLezer.parse_line ("1-0:99.97.0" +:+ "(" +:+ "2" +:+ ")(" +:+ "x*kW" +:+ "(" +:+ "a" +:+ ")")
    (in_datagram "1-3:0.2.8(50)")
  = Raise ValueError.
Proof. split; vm_compute; reflexivity. Qed.

(** Against C5 as stated: two datagrams between a header and a footer that
    hold the tag [0-0:1.0.0] and are not published, the reader ending on an
    exception. *)
Lemma datagram_with_bad_timestamp :
  reader clock_2022 1 ["!0000"; header; "0-0:1.0.0(garbage)"; "!A1B2"] 86400
  = Raise ValueError /\
  reader clock_2022 1 ["!0000"; header; "0-0:1.0.0(5*A)"; "!A1B2"] 86400
  = Raise AttributeError.
Proof. split; vm_compute; reflexivity. Qed.

(** Against C7 as stated: two data lines that raise out of
    [read_datagram]. *)
Lemma data_line_that_raises :
  reader clock_2022 1 ["!0000"; header; "1-0:31.7.0(1.5*A)"] 86400 = Raise ValueError /\
  reader clock_2022 1 ["!0000"; header; "1-0:1.7.0(inf*kW)"] 86400 = Raise OverflowError.
Proof. split; vm_compute; reflexivity. Qed.

(** Against C9 as stated: with a skip count of zero no footer line is to be
    counted, and the first datagram of the stream would be the first one
    published. It is discarded, its footer line being counted as 1 out of
    0, and the first message sent is that of the second datagram. *)
Lemma startup_skip_of_zero :
  sent (final (SlimmeLezer.init clock_2022 86400)
          (reader clock_2022 0 (datagram "221011140005S" "!A1B2") 86400)) = [] /\
  logged (final (SlimmeLezer.init clock_2022 86400)
            (reader clock_2022 0 (datagram "221011140005S" "!A1B2") 86400))
  = [LogSkipping 1 0] /\
  (exists m st,
     reader clock_2022 0
       (datagram "221011140005S" "!A1B2" ++ datagram "221011140006S" "!C3D4") 86400
     = Ok (InLoop, st) /\
     sent st = [m] /\
     msg_meta m !! "frame-number" = Some (VInt 1) /\
     msg_telegram m !! TIMESTAMP_KEY = Some (VStr "221011140006S") /\
     msg_telegram m !! "checksum" = Some (VStr "C3D4")).
Proof.
  split; [vm_compute; reflexivity|]. split; [vm_compute; reflexivity|].
  eexists _, _. split; [vm_compute; reflexivity|].
  repeat split; vm_compute; reflexivity.
Qed.

(** Against C10 as stated: with the wall clock a quarter of an hour after
    the epoch, the first datagram is published with the initial drift, no
    drift is logged and the clock state is the one of [__init__]. *)
Lemma first_datagram_at_the_epoch :
  window 86400 (clock_1970 4) = 0%Z /\
  sent_meta "clock-drift" (reader clock_1970 1 one_alone 86400) = Some [Some (VMicro 0)] /\
  logged (final (SlimmeLezer.init clock_1970 86400) (reader clock_1970 1 one_alone 86400))
  = [LogSkipping 1 1] /\
  clock_state (final (SlimmeLezer.init clock_1970 86400) (reader clock_1970 1 one_alone 86400))
  = clock_state (SlimmeLezer.init clock_1970 86400).
Proof. repeat split; vm_compute; reflexivity. Qed.

(** The sample clock does not go back. *)
Lemma clock_2022_mono i j : i <= j -> (clock_2022 i <= clock_2022 j)%Z.
Proof. unfold clock_2022. lia. Qed.

(** The statements above, applied to the sample streams. *)

Lemma drift_recomputed_once_per_window_witness :
  (previous_timesync_period_block
     (final (SlimmeLezer.init clock_2022 86400) (reader clock_2022 1 one_alone 86400))
   <= previous_timesync_period_block
        (final (SlimmeLezer.init clock_2022 86400) (reader clock_2022 1 two_in_a_row 86400)))%Z /\
  exists new,
    sent (final (SlimmeLezer.init clock_2022 86400) (reader clock_2022 1 two_in_a_row 86400))
    = sent (SlimmeLezer.init clock_2022 86400) ++ new /\
    forall m1 m2, In m1 new -> In m2 new ->
      msg_meta m1 !! "clock-drift" = msg_meta m2 !! "clock-drift".
Proof.
  pose proof (drift_recomputed_once_per_window strptime_cet strftime_ymd_hms clock_2022)
    as (_ & Hmono & Hsame & _).
  split.
  - apply (Hmono 86400%Z 1%Z one_alone (datagram "221011140006S" "!C3D4") InLoop _ InLoop _).
    + exact clock_2022_mono.
    + unfold clock_2022, second_us. lia.
    + lia.
    + by_eval.
    + by_eval.
  - apply (Hsame InLoop (tl two_in_a_row)
             (final (SlimmeLezer.init clock_2022 86400) (reader clock_2022 1 ["!0000"] 86400))
             InLoop _ 19276%Z).
    + by_eval.
    + intros k Hk.
      assert (1 <= k < 13) as Hk' by exact Hk. clear Hk.
      do 13 (destruct k as [|k]; [first [lia | by_eval]|]). lia.
Defined.

Lemma parse_p1_value_by_marker_witness :
  contains "*kW" "00.424*kW" /\
  parse_p1_value "00.424*kW"
  = (x ← of_option ValueError (py_float (split_head "*" "00.424*kW"));
     n ← int_of_float (fmul (float_of_Z 1000) x);
     Ok (VInt n)).
Proof.
  assert (H : contains "*kW" "00.424*kW") by (exists "00.424", ""; reflexivity).
  split; [exact H|].
  apply (proj1 (parse_p1_value_by_marker "00.424*kW")). right. exact H.
Defined.

Lemma two_value_and_list_lines_witness :
  SlimmeLezer.parse_line ("0-1:24.2.1" +:+ "(" +:+ "101209112500W" +:+ ")(" +:+ "12785.123*m3" +:+ ")")
    awaiting_header
  = Ok (tt, set_data_telegram
              (<["0-1:24.2.1" +:+ ".B" := VInt 12785123]>
                 (<["0-1:24.2.1" +:+ ".A" := VStr "101209112500W"]>
                    (data_telegram awaiting_header))) awaiting_header).
Proof.
  apply (two_value_and_list_lines "0-1:24.2.1" "101209112500W" "12785.123*m3"
           (VStr "101209112500W") (VInt 12785123) awaiting_header).
  - exists "0", "1", "24", "2", "1". repeat split; reflexivity.
  - reflexivity.
  - reflexivity.
  - by_eval.
  - by_eval.
Defined.

Lemma datagram_published_once_witness :
  exists msg st2,
    SlimmeLezer.run strptime_cet strftime_ymd_hms clock_2022 InLoop
      (header :: body "221011140005S" ++ ["!A1B2"]) awaiting_header
    = Ok (InLoop, st2) /\
    sent st2 = sent awaiting_header ++ [msg] /\
    msg_telegram msg !! "checksum" = Some (VStr (drop_first "!A1B2")) /\
    msg_telegram msg !! TIMESTAMP_KEY = Some (VStr "221011140005S") /\
    first_line_read st2 = false.
Proof.
  refine (proj1 (datagram_published_once strptime_cet strftime_ymd_hms clock_2022
            awaiting_header header (body "221011140005S") "!A1B2" InLoop
            (final awaiting_header
               (SlimmeLezer.run strptime_cet strftime_ymd_hms clock_2022 InLoop
                  (header :: body "221011140005S") awaiting_header))
            _ _ _ _ _ _) "221011140005S" 1665496805000000%Z _ _).
  - by_eval.
  - reflexivity.
  - repeat constructor.
  - reflexivity.
  - by_eval.
  - discriminate.
  - by_eval.
  - by_eval.
Defined.

Lemma datagram_without_timestamp_witness :
  exists st',
    SlimmeLezer.read_datagram_line strptime_cet strftime_ymd_hms clock_2022 "!A1B2"
      (in_datagram "1-0:1.7.0(00.424*kW)")
    = Ok (InLoop, st') /\
    sent st' = sent (in_datagram "1-0:1.7.0(00.424*kW)") /\
    clock_state st' = clock_state (in_datagram "1-0:1.7.0(00.424*kW)") /\
    logged st' = logged (in_datagram "1-0:1.7.0(00.424*kW)") ++ [LogDateKeyMissing] /\
    first_line_read st' = false /\
    data_meta st' = ∅ /\ data_telegram st' = ∅.
Proof.
  refine (proj2 (datagram_without_timestamp strptime_cet strftime_ymd_hms clock_2022
            1%Z 86400%Z ["!0000"; header; "1-0:1.7.0(00.424*kW)"]
            (in_datagram "1-0:1.7.0(00.424*kW)") "!A1B2" _ _ _ _)).
  - by_eval.
  - by_eval.
  - by_eval.
  - reflexivity.
Defined.

Lemma data_line_outcomes_witness :
  SlimmeLezer.read_datagram_line strptime_cet strftime_ymd_hms clock_2022 "garbage"
    (in_datagram "1-3:0.2.8(50)")
  = Ok (InLoop,
        set_logged (logged (in_datagram "1-3:0.2.8(50)") ++ [LogNotParsed "garbage"])
          (in_datagram "1-3:0.2.8(50)")).
Proof.
  refine (proj1 (data_line_outcomes strptime_cet strftime_ymd_hms clock_2022
                   (in_datagram "1-3:0.2.8(50)") "garbage" _ _ _) _ _ _).
  - by_eval.
  - discriminate.
  - reflexivity.
  - by_eval.
  - by_eval.
  - by_eval.
Defined.

Lemma forced_resynchronisation_witness :
  exists st2,
    SlimmeLezer.run strptime_cet strftime_ymd_hms clock_2022 InLoop
      ("1-0:1.7.0(00.424*kW)" :: ["1-0:32.7.0(230.1*V)"] ++ "!A1B2"
       :: (header :: body "221011140005S") ++ ["!C3D4"])
      awaiting_header
    = Ok (InLoop, st2) /\
    sent st2 = sent awaiting_header /\
    clock_state st2 = clock_state awaiting_header /\
    logged st2
    = logged awaiting_header ++ [LogMissedHeader; LogSkipping 1 2; LogSkipping 2 2] /\
    first_line_read st2 = false /\
    data_meta st2 = ∅ /\ data_telegram st2 = ∅.
Proof.
  refine (proj2 (proj2 (forced_resynchronisation strptime_cet strftime_ymd_hms clock_2022
            awaiting_header "1-0:1.7.0(00.424*kW)" ["1-0:32.7.0(230.1*V)"] "!A1B2"
            (header :: body "221011140005S") "!C3D4" _ _ _ _ _ _ _))).
  - by_eval.
  - discriminate.
  - reflexivity.
  - repeat constructor.
  - reflexivity.
  - repeat constructor.
  - reflexivity.
Defined.

Lemma ten_delimited : Forall footer_delimited ten.
Proof.
  repeat constructor;
    (eexists (header :: body _), "!A1B2";
     split; [reflexivity | split; [repeat constructor | reflexivity]]).
Defined.

Lemma first_published_after_skip_witness :
  exists msg st2,
    reader clock_2022 10 (concat ten ++ header :: body "221011140010S" ++ ["!C3D4"]) 86400
    = Ok (InLoop, st2) /\
    sent st2 = [msg] /\
    msg_meta msg !! "frame-number" = Some (VInt 1) /\
    msg_telegram msg !! "checksum" = Some (VStr (drop_first "!C3D4")).
Proof.
  refine (proj2 (proj2 (first_published_after_skip strptime_cet strftime_ymd_hms clock_2022
            10%Z 86400%Z ten header (body "221011140010S") "!C3D4" InLoop
            (final (SlimmeLezer.init clock_2022 86400)
               (reader clock_2022 10 (concat ten ++ header :: body "221011140010S") 86400))
            "221011140010S" 1665496810000000%Z _ _ _ _ _ _ _ _ _))).
  - reflexivity.
  - exact ten_delimited.
  - reflexivity.
  - repeat constructor.
  - reflexivity.
  - by_eval.
  - by_eval.
  - by_eval.
  - discriminate.
Defined.

Lemma first_datagram_resync_witness :
  exists st',
    SlimmeLezer.process_datagram strptime_cet strftime_ymd_hms clock_2022
      (in_datagram "0-0:1.0.0(221011140005S)")
    = Ok (tt, st') /\
    (window 86400 (clock_2022 3) <> 0%Z ->
     delta_time st' = (1665489600250000 - 1665496805000000)%Z /\
     first_datagram_time st' = clock_2022 4 /\
     first_datagram_timestamp st' = 1665496805000000%Z /\
     previous_timesync_period_block st' = window 86400 (clock_2022 5) /\
     logged st'
     = logged (in_datagram "0-0:1.0.0(221011140005S)")
       ++ [LogDrift (1665489600250000 - 1665496805000000)]).
Proof.
  destruct (first_datagram_resync strptime_cet strftime_ymd_hms clock_2022
              (in_datagram "0-0:1.0.0(221011140005S)") "221011140005S"
              1665496805000000%Z 1665489600250000%Z) as (st' & E & H & _).
  - by_eval.
  - by_eval.
  - by_eval.
  - by_eval.
  - discriminate.
  - exists st'. split; [exact E | exact H].
Defined.

(** ** The line reader *)

Lemma startswith_app p a b : startswith p a = true -> startswith p (a +:+ b) = true.
Proof.
  intros [x ->]%startswith_iff. apply startswith_iff. exists (x +:+ b).
  now rewrite str_app_assoc.
Qed.

Lemma str_in_app_l p a b : str_in p a = true -> str_in p (a +:+ b) = true.
Proof.
  intros (x & y & ->)%str_in_contains. apply str_in_contains.
  exists x, (y +:+ b). now rewrite !str_app_assoc.
Qed.

Lemma str_in_app_r p a b : str_in p b = true -> str_in p (a +:+ b) = true.
Proof.
  intros (x & y & ->)%str_in_contains. apply str_in_contains.
  exists (a +:+ x), y. now rewrite !str_app_assoc.
Qed.

Lemma str_drop_app t s : str_drop (String.length t) (t +:+ s) = s.
Proof. induction t as [|c t IH]; [now destruct s | exact IH]. Qed.

(** [split1] cuts at the first occurrence of the separator. *)
Lemma split1_found sep s :
  sep <> "" -> str_in sep s = true ->
  exists a b, split1 sep s = [a; b] /\ s = a +:+ sep +:+ b /\ str_in sep a = false.
Proof.
  intros Hne. induction s as [|c s IH]; intros H.
  - cbn [str_in] in H. rewrite orb_false_r in H.
    destruct sep; [contradiction | discriminate H].
  - cbn [split1]. destruct (startswith sep (String c s)) eqn:Hs.
    + apply startswith_iff in Hs as [b E]. exists "", b.
      rewrite E at 1. rewrite str_drop_app. repeat split; [exact E|].
      destruct sep as [|x sep]; [contradiction | reflexivity].
    + cbn [str_in] in H. rewrite Hs in H. cbn [orb] in H.
      destruct (IH H) as (a & b & E1 & E2 & E3). rewrite E1.
      exists (String c a), b. repeat split; [now rewrite E2|].
      cbn [str_in]. rewrite E3, orb_false_r.
      destruct (startswith sep (String c a)) eqn:Hs'; [|reflexivity].
      apply (startswith_app _ _ (sep +:+ b)) in Hs'.
      cbn [String.append] in Hs'. rewrite <- E2 in Hs'. congruence.
Qed.

Lemma split1_missing sep s : str_in sep s = false -> split1 sep s = [s].
Proof.
  induction s as [|c s IH]; intros H; cbn [str_in] in H;
    apply orb_false_iff in H as [Hs H]; cbn [split1]; rewrite Hs; [reflexivity|].
  now rewrite (IH H).
Qed.

(** A line has no delimiter in it, so the first delimiter of a line followed
    by a delimiter is the one that follows it. *)
Lemma split1_line line rest :
  str_in slimmelezer_delimeter line = false ->
  split1 slimmelezer_delimeter (line +:+ slimmelezer_delimeter +:+ rest) = [line; rest].
Proof.
  induction line as [|c line IH]; intros H; [reflexivity|].
  cbn [str_in] in H. apply orb_false_iff in H as [Hs H].
  cbn [String.append split1].
  replace (startswith slimmelezer_delimeter
             (String c (line +:+ slimmelezer_delimeter +:+ rest))) with false.
  - now rewrite (IH H).
  - symmetry. unfold slimmelezer_delimeter in *. cbn [startswith] in *.
    destruct (Ascii.eqb "013" c); [|reflexivity]. cbn [andb] in *.
    destruct line as [|d line]; [reflexivity|]. cbn [String.append].
    cbn [andb] in Hs. destruct (Ascii.eqb "010" d); [discriminate Hs | reflexivity].
Qed.

Local Abbreviation buffered c := (str_in slimmelezer_delimeter (slimmelezer_buffer c)).

Lemma payload_app a b : payload (a ++ b) = payload a +:+ payload b.
Proof.
  induction a as [|[t| |] a IH]; cbn [app payload]; [reflexivity| |exact IH|exact IH].
  now rewrite IH, str_app_assoc.
Qed.

Lemma failures_app a b : failures (a ++ b) = (failures a + failures b)%nat.
Proof.
  induction a as [|[t| |] a IH]; cbn [app failures]; [reflexivity|exact IH| |];
    now rewrite IH.
Qed.

Lemma seconds_slept_app a b :
  seconds_slept (a ++ b) = (seconds_slept a + seconds_slept b)%Z.
Proof.
  induction a as [|x a IH]; [reflexivity|].
  destruct x; cbn [app seconds_slept]; rewrite ?IH; lia.
Qed.

(** Opening a socket again: one more socket, the wait that was due, and a
    wait of 15 seconds due from then on; the buffer is kept. *)
Lemma open_p1_connection_effect connects c :
  let c' := SlimmeLezer.open_p1_connection connects c in
  slimmelezer_buffer c' = slimmelezer_buffer c /\
  sleep_open_p1_connection c' = 15%Z /\
  opened_sockets c' = S (opened_sockets c) /\
  seconds_slept (actions c')
  = (seconds_slept (actions c) + sleep_open_p1_connection c)%Z.
Proof.
  unfold SlimmeLezer.open_p1_connection, SlimmeLezer.close_p1_connection, act,
    set_sleep_open_p1_connection, set_opened_sockets.
  cbn [slimmelezer_buffer sleep_open_p1_connection opened_sockets actions].
  destruct (connects (opened_sockets c));
    cbn [slimmelezer_buffer sleep_open_p1_connection opened_sockets actions];
    rewrite !seconds_slept_app; cbn [seconds_slept]; repeat split; lia.
Qed.

(** After a failed reception the socket is closed and opened again. *)
Lemma reopened_effect connects a c :
  sleep_open_p1_connection c = 15%Z ->
  (a = LogTimeout \/ a = LogReadError) ->
  let c' := SlimmeLezer.open_p1_connection connects (SlimmeLezer.close_p1_connection (act a c)) in
  slimmelezer_buffer c' = slimmelezer_buffer c /\
  sleep_open_p1_connection c' = 15%Z /\
  opened_sockets c' = S (opened_sockets c) /\
  seconds_slept (actions c') = (seconds_slept (actions c) + 15)%Z.
Proof.
  intros H15 Ha c'.
  destruct (open_p1_connection_effect connects (SlimmeLezer.close_p1_connection (act a c)))
    as (E1 & E2 & E3 & E4).
  fold c' in E1, E2, E3, E4.
  unfold SlimmeLezer.close_p1_connection, act in E1, E3, E4.
  cbn [slimmelezer_buffer sleep_open_p1_connection opened_sockets actions] in *.
  rewrite E1, E2, E3, E4, H15, !seconds_slept_app.
  destruct Ha as [-> | ->]; cbn [seconds_slept]; repeat split; lia.
Qed.

Lemma reopened_buffer connects a c :
  slimmelezer_buffer (SlimmeLezer.open_p1_connection connects (SlimmeLezer.close_p1_connection (act a c)))
  = slimmelezer_buffer c.
Proof.
  unfold SlimmeLezer.open_p1_connection, SlimmeLezer.close_p1_connection, act,
    set_sleep_open_p1_connection, set_opened_sockets.
  cbn [slimmelezer_buffer sleep_open_p1_connection opened_sockets actions].
  now destruct (connects (opened_sockets c)).
Qed.

Lemma filled_refl c incoming : buffered c = true -> filled c incoming c incoming.
Proof.
  intros H. exists []. cbn [app payload failures].
  rewrite str_app_nil_r. split; [reflexivity|]. split; [reflexivity|].
  split; [exact H|]. split.
  - intros [|x before] after E Hne; [cbn in E; subst; contradiction | discriminate E].
  - intros H15. repeat split; try assumption; lia.
Qed.

Lemma filled_step c x c1 incoming c' incoming' :
  buffered c = false ->
  slimmelezer_buffer c1 = slimmelezer_buffer c +:+ payload [x] ->
  (sleep_open_p1_connection c = 15%Z ->
   sleep_open_p1_connection c1 = 15%Z /\
   opened_sockets c1 = (opened_sockets c + failures [x])%nat /\
   seconds_slept (actions c1)
   = (seconds_slept (actions c) + 15 * Z.of_nat (failures [x]))%Z) ->
  filled c1 incoming c' incoming' -> filled c (x :: incoming) c' incoming'.
Proof.
  intros Hb B T (consumed & -> & E2 & E3 & E4 & E5).
  exists (x :: consumed). split; [reflexivity|].
  change (x :: consumed) with ([x] ++ consumed).
  rewrite payload_app, failures_app, <- str_app_assoc, <- B.
  split; [exact E2|]. split; [exact E3|]. split.
  - intros [|y before] after E Hne.
    + cbn [payload]. now rewrite str_app_nil_r.
    + cbn [app] in E. inversion E; subst y.
      change (x :: before) with ([x] ++ before).
      rewrite payload_app, <- str_app_assoc, <- B. now apply (E4 before after).
  - intros H15. destruct (T H15) as (T1 & T2 & T3).
    destruct (E5 T1) as (F1 & F2 & F3). rewrite F1, F2, F3, T2, T3.
    repeat split; lia.
Qed.

Lemma read_slimmelezer_buffer_spec connects incoming :
  forall c,
    match SlimmeLezer.read_slimmelezer_buffer connects incoming c with
    | Some (c', incoming') => filled c incoming c' incoming'
    | None => str_in slimmelezer_delimeter (slimmelezer_buffer c +:+ payload incoming) = false
    end.
Proof.
  induction incoming as [|x incoming IH]; intros c;
    cbn [SlimmeLezer.read_slimmelezer_buffer]; destruct (buffered c) eqn:Hb; cbn [negb].
  - now apply filled_refl.
  - cbn [payload]. now rewrite str_app_nil_r.
  - now apply filled_refl.
  - destruct x as [text| |].
    + specialize (IH (set_slimmelezer_buffer (slimmelezer_buffer c +:+ text) c)).
      destruct (SlimmeLezer.read_slimmelezer_buffer connects incoming _) as [[c' incoming']|].
      * refine (filled_step _ _ _ _ _ _ Hb _ _ IH).
        -- cbn [payload set_slimmelezer_buffer slimmelezer_buffer].
           now rewrite str_app_nil_r.
        -- intros H15. cbn. repeat split; try assumption; lia.
      * cbn [set_slimmelezer_buffer slimmelezer_buffer] in IH.
        cbn [payload]. now rewrite <- str_app_assoc.
    + specialize (IH (SlimmeLezer.open_p1_connection connects
                        (SlimmeLezer.close_p1_connection (act LogTimeout c)))).
      destruct (SlimmeLezer.read_slimmelezer_buffer connects incoming _) as [[c' incoming']|].
      * refine (filled_step _ _ _ _ _ _ Hb _ _ IH).
        -- rewrite reopened_buffer. cbn [payload]. now rewrite str_app_nil_r.
        -- intros H15.
           destruct (reopened_effect connects LogTimeout c H15 (or_introl eq_refl))
             as (_ & R2 & R3 & R4).
           rewrite R2, R3, R4. cbn [failures]. repeat split; lia.
      * rewrite reopened_buffer in IH. exact IH.
    + specialize (IH (SlimmeLezer.open_p1_connection connects
                        (SlimmeLezer.close_p1_connection (act LogReadError c)))).
      destruct (SlimmeLezer.read_slimmelezer_buffer connects incoming _) as [[c' incoming']|].
      * refine (filled_step _ _ _ _ _ _ Hb _ _ IH).
        -- rewrite reopened_buffer. cbn [payload]. now rewrite str_app_nil_r.
        -- intros H15.
           destruct (reopened_effect connects LogReadError c H15 (or_intror eq_refl))
             as (_ & R2 & R3 & R4).
           rewrite R2, R3, R4. cbn [failures]. repeat split; lia.
      * rewrite reopened_buffer in IH. exact IH.
Qed.

Lemma delimiter_not_empty : slimmelezer_delimeter <> "".
Proof. discriminate. Qed.

(** One call of [read_line], for the statements about several. *)
Lemma read_line_spec connects incoming c :
  match SlimmeLezer.read_line connects incoming c with
  | Returned (element, c', incoming') =>
      exists c1,
        filled c incoming c1 incoming' /\
        (buffered c = true -> c1 = c) /\
        slimmelezer_buffer c1
        = element +:+ slimmelezer_delimeter +:+ slimmelezer_buffer c' /\
        str_in slimmelezer_delimeter element = false /\
        c' = set_slimmelezer_buffer (slimmelezer_buffer c') c1
  | Raised _ => False
  | Waiting =>
      str_in slimmelezer_delimeter (slimmelezer_buffer c +:+ payload incoming) = false
  end.
Proof.
  unfold SlimmeLezer.read_line. destruct (buffered c) eqn:Hb; cbn [negb].
  - destruct (split1_found _ _ delimiter_not_empty Hb) as (a & b & E1 & E2 & E3).
    rewrite E1. exists c. split; [now apply filled_refl|].
    split; [reflexivity|]. split; [exact E2|]. split; [exact E3 | reflexivity].
  - pose proof (read_slimmelezer_buffer_spec connects incoming c) as S.
    destruct (SlimmeLezer.read_slimmelezer_buffer connects incoming c) as [[c1 incoming1]|];
      [|exact S].
    pose proof S as (consumed & _ & _ & Hb1 & _).
    destruct (split1_found _ _ delimiter_not_empty Hb1) as (a & b & E1 & E2 & E3).
    rewrite E1. exists c1. split; [exact S|].
    split; [congruence|]. split; [exact E2|]. split; [exact E3 | reflexivity].
Qed.

(** X1. [read_line] returns the text before the first delimiter of what is
    buffered and received, and keeps what follows that delimiter in the
    buffer; it takes from the socket only what is needed for a delimiter to
    be there, nothing when the buffer holds one; no exception of the socket
    takes text away; the call never raises, and it is still waiting exactly
    when the buffer and all that is received hold no delimiter. *)
Theorem read_line_first_delimiter connects incoming c :
  match SlimmeLezer.read_line connects incoming c with
  | Returned (element, c', incoming') =>
      exists consumed,
        incoming = consumed ++ incoming' /\
        slimmelezer_buffer c +:+ payload consumed
        = element +:+ slimmelezer_delimeter +:+ slimmelezer_buffer c' /\
        str_in slimmelezer_delimeter element = false /\
        (forall before after, consumed = before ++ after -> after <> [] ->
           str_in slimmelezer_delimeter (slimmelezer_buffer c +:+ payload before) = false)
  | Raised _ => False
  | Waiting =>
      str_in slimmelezer_delimeter (slimmelezer_buffer c +:+ payload incoming) = false
  end.
Proof.
  pose proof (read_line_spec connects incoming c) as S.
  destruct (SlimmeLezer.read_line connects incoming c) as [[[element c'] incoming']|e|];
    [|exact S|exact S].
  destruct S as (c1 & (consumed & E1 & E2 & _ & E4 & _) & _ & B & N & _).
  exists consumed. rewrite <- E2. auto.
Qed.

(** Several calls in a row. *)
Lemma read_lines_spec connects n :
  forall incoming c lines c' incoming',
    SlimmeLezer.read_lines connects n incoming c = Returned (lines, c', incoming') ->
    exists consumed,
      incoming = consumed ++ incoming' /\
      slimmelezer_buffer c +:+ payload consumed
      = join_lines lines +:+ slimmelezer_buffer c' /\
      Forall (fun line => str_in slimmelezer_delimeter line = false) lines /\
      length lines = n /\
      (sleep_open_p1_connection c = 15%Z ->
       sleep_open_p1_connection c' = 15%Z /\
       opened_sockets c' = (opened_sockets c + failures consumed)%nat /\
       seconds_slept (actions c')
       = (seconds_slept (actions c) + 15 * Z.of_nat (failures consumed))%Z).
Proof.
  induction n as [|n IH]; intros incoming c lines c' incoming' H.
  - cbn [SlimmeLezer.read_lines] in H. inversion H; subst. exists [].
    cbn [app payload join_lines failures length]. rewrite str_app_nil_r.
    repeat split; try assumption; try constructor; lia.
  - cbn [SlimmeLezer.read_lines] in H.
    pose proof (read_line_spec connects incoming c) as S.
    destruct (SlimmeLezer.read_line connects incoming c) as [[[element c1] incoming1]|e|];
      [|contradiction|discriminate H].
    destruct (SlimmeLezer.read_lines connects n incoming1 c1)
      as [[[elements c2] incoming2]|e|] eqn:R; [|discriminate H|discriminate H].
    inversion H; subst. clear H.
    destruct S as (c0 & (consumed & -> & E2 & _ & _ & E5) & _ & B & N & Ec1).
    destruct (IH _ _ _ _ _ R) as (consumed' & -> & F2 & F3 & F4 & F5).
    exists (consumed ++ consumed'). rewrite app_assoc. split; [reflexivity|].
    rewrite payload_app, failures_app, <- str_app_assoc, <- E2, B.
    cbn [join_lines]. rewrite !str_app_assoc, <- F2.
    split; [reflexivity|]. split; [now constructor|]. split; [cbn; congruence|].
    intros H15. destruct (E5 H15) as (G1 & G2 & G3).
    rewrite Ec1 in F5. cbn [set_slimmelezer_buffer sleep_open_p1_connection
                            opened_sockets actions] in F5.
    destruct (F5 G1) as (K1 & K2 & K3). rewrite K1, K2, K3, G2, G3.
    repeat split; lia.
Qed.

(** The same text cut into as many lines in two ways gives the same
    lines. *)
Lemma join_lines_unique ls1 :
  forall ls2 r1 r2,
    length ls1 = length ls2 ->
    Forall (fun line => str_in slimmelezer_delimeter line = false) ls1 ->
    Forall (fun line => str_in slimmelezer_delimeter line = false) ls2 ->
    join_lines ls1 +:+ r1 = join_lines ls2 +:+ r2 ->
    ls1 = ls2 /\ r1 = r2.
Proof.
  induction ls1 as [|l1 ls1 IH]; intros [|l2 ls2] r1 r2 Hlen H1 H2 E;
    try discriminate Hlen.
  - now split.
  - inversion H1; subst. inversion H2; subst. cbn [join_lines] in E.
    rewrite !str_app_assoc in E.
    assert (S : [l1; join_lines ls1 +:+ r1] = [l2; join_lines ls2 +:+ r2]).
    { rewrite <- (split1_line l1) by assumption.
      rewrite <- (split1_line l2) by assumption. now rewrite E. }
    inversion S; subst.
    destruct (IH ls2 r1 r2) as [-> ->]; auto.
Qed.

(** X2. The lines returned depend only on the text that the buffer and the
    receptions decoded hold together, not on how that text is spread over
    the receptions nor on the receptions that end in an exception between
    them: two readers whose buffer and decoded receptions carry the same
    text, and that each return from as many calls of [read_line], have
    returned the same lines and are left with the same text. This is about
    the text decoded, chunk by chunk, not about the bytes on the wire: a
    chunk that does not decode is a reception that ends in an exception. *)
Theorem lines_depend_on_text_received connects1 connects2 n
    incoming1 incoming2 c1 c2 lines1 lines2 c1' c2' left1 left2 :
  slimmelezer_buffer c1 +:+ payload incoming1
  = slimmelezer_buffer c2 +:+ payload incoming2 ->
  SlimmeLezer.read_lines connects1 n incoming1 c1 = Returned (lines1, c1', left1) ->
  SlimmeLezer.read_lines connects2 n incoming2 c2 = Returned (lines2, c2', left2) ->
  lines1 = lines2 /\
  slimmelezer_buffer c1' +:+ payload left1 = slimmelezer_buffer c2' +:+ payload left2.
Proof.
  intros E R1 R2.
  apply read_lines_spec in R1 as (k1 & -> & A1 & N1 & L1 & _).
  apply read_lines_spec in R2 as (k2 & -> & A2 & N2 & L2 & _).
  rewrite !payload_app, <- !str_app_assoc, A1, A2, !str_app_assoc in E.
  apply join_lines_unique in E; [exact E|congruence|assumption|assumption].
Qed.

(** X3. From the constructor on, every reception that ends in an exception
    makes the reader open one more socket after a wait of 15 seconds, the
    first socket being opened after 1 second, and no text is lost: after any
    number of calls of [read_line] the sockets opened are one more than the
    failed receptions, the time slept is 1 + 15 seconds for each, and the
    lines returned and the buffer are the text received. *)
Theorem reconnects_after_failures connects n incoming lines c' incoming' :
  SlimmeLezer.read_lines connects n incoming (SlimmeLezer.connect connects) = Returned (lines, c', incoming') ->
  exists consumed,
    incoming = consumed ++ incoming' /\
    opened_sockets c' = S (failures consumed) /\
    seconds_slept (actions c') = (1 + 15 * Z.of_nat (failures consumed))%Z /\
    sleep_open_p1_connection c' = 15%Z /\
    payload consumed = join_lines lines +:+ slimmelezer_buffer c'.
Proof.
  intros R.
  apply read_lines_spec in R as (consumed & -> & A & _ & _ & T).
  destruct (open_p1_connection_effect connects (Connection "" 1 0 []))
    as (B1 & B2 & B3 & B4).
  fold (SlimmeLezer.connect connects) in B1, B2, B3, B4.
  cbn [slimmelezer_buffer sleep_open_p1_connection opened_sockets actions
       seconds_slept] in B1, B3, B4.
  destruct (T B2) as (T1 & T2 & T3).
  exists consumed. rewrite T1, T2, T3, B3, B4. rewrite B1 in A.
  repeat split; try lia. exact A.
Qed.

(** ** [str.replace] and [re.findall] *)

Lemma replace_from_skip old new t s :
  replace_from old new (t +:+ s) (String.length t) = replace_from old new s 0.
Proof.
  induction t as [|c t IH]; [|exact IH].
  cbn [String.append String.length]. now destruct s.
Qed.

Lemma replace_from_hit old new b :
  old <> "" -> replace_from old new (old +:+ b) 0 = new +:+ replace_from old new b 0.
Proof.
  intros Hne. destruct old as [|c old]; [contradiction|].
  cbn [String.append replace_from].
  replace (startswith (String c old) (String c (old +:+ b))) with true
    by (symmetry; apply startswith_iff; now exists b).
  f_equal. replace (String.length (String c old) - 1) with (String.length old)
    by (cbn [String.length]; lia).
  apply replace_from_skip.
Qed.

(** Where no occurrence starts, the text is copied. *)
Lemma replace_from_pass old new a rest :
  (forall a1 a2, a = a1 +:+ a2 -> a2 <> "" -> startswith old (a2 +:+ rest) = false) ->
  replace_from old new (a +:+ rest) 0 = a +:+ replace_from old new rest 0.
Proof.
  induction a as [|c a IH]; intros H; [reflexivity|].
  cbn [String.append replace_from].
  pose proof (H "" (String c a) eq_refl ltac:(discriminate)) as E.
  cbn [String.append] in E. rewrite E.
  f_equal. apply IH. intros a1 a2 -> Hne. now apply (H (String c a1) a2).
Qed.

Lemma replace_from_missing old new s :
  str_in old s = false -> replace_from old new s 0 = s.
Proof.
  induction s as [|c s IH]; intros H; [reflexivity|].
  cbn [str_in] in H. apply orb_false_iff in H as [Hs H].
  cbn [replace_from]. rewrite Hs. f_equal. now apply IH.
Qed.

Lemma findall_from_skip r t s :
  findall_from r (t +:+ s) (String.length t) = findall_from r s 0.
Proof.
  induction t as [|c t IH]; [|exact IH].
  cbn [String.append String.length]. now destruct s.
Qed.

Lemma findall_from_hit r t rest rest' :
  t <> "" -> match_text r (t +:+ rest) = Some (t, rest') ->
  findall_from r (t +:+ rest) 0 = t :: findall_from r rest 0.
Proof.
  intros Hne H. destruct t as [|c t]; [contradiction|].
  cbn [String.append findall_from]. cbn [String.append] in H. rewrite H.
  f_equal. replace (String.length (String c t) - 1) with (String.length t)
    by (cbn [String.length]; lia).
  apply findall_from_skip.
Qed.

Lemma findall_from_pass r a rest :
  (forall a1 a2, a = a1 +:+ a2 -> a2 <> "" -> match_text r (a2 +:+ rest) = None) ->
  findall_from r (a +:+ rest) 0 = findall_from r rest 0.
Proof.
  induction a as [|c a IH]; intros H; [reflexivity|].
  cbn [String.append findall_from].
  pose proof (H "" (String c a) eq_refl ltac:(discriminate)) as E.
  cbn [String.append] in E. rewrite E.
  apply IH. intros a1 a2 -> Hne. now apply (H (String c a1) a2).
Qed.

(** ** References to environment variables *)

Lemma no_dollar_head c s : no_dollar (String c s) = true -> Ascii.eqb "$" c = false.
Proof.
  unfold no_dollar, not_dollar. cbn [all_chars].
  intros [H _]%andb_true_iff. apply negb_true_iff in H. now rewrite Ascii.eqb_sym.
Qed.

Lemma is_word_not_dollar c : is_word c = true -> not_dollar c = true.
Proof.
  intros H. unfold not_dollar. destruct (Ascii.eqb_spec c "$") as [->|]; [discriminate H | reflexivity].
Qed.

Lemma is_word_not_brace c : is_word c = true -> Ascii.eqb "}" c = false.
Proof.
  intros H. destruct (Ascii.eqb_spec "}" c) as [<-|]; [discriminate H | reflexivity].
Qed.

Lemma all_chars_impl (p q : ascii -> bool) s :
  (forall c, p c = true -> q c = true) -> all_chars p s = true -> all_chars q s = true.
Proof.
  intros Hpq. induction s as [|c s IH]; [reflexivity|]. cbn [all_chars].
  intros [Hc Hs]%andb_true_iff. now rewrite (Hpq c Hc), IH.
Qed.

(** The pattern matches at a dollar sign only. *)
Lemma environment_no_match s :
  match s with String c _ => Ascii.eqb "$" c = false | EmptyString => True end ->
  match_text ENVIRONMENT_RGX s = None.
Proof.
  destruct s as [|c s]; [reflexivity|]. intros H.
  unfold match_text, re_match, ENVIRONMENT_RGX. cbn [rmatch chr]. now rewrite H.
Qed.

(** At a reference it matches the reference: the lazy name stops at the
    closing brace. *)
Lemma environment_match name rest :
  is_name name = true ->
  match_text ENVIRONMENT_RGX (written (Reference name) +:+ rest)
  = Some (written (Reference name), rest).
Proof.
  unfold is_name. intros [Hne Hw]%andb_true_iff.
  destruct name as [|c name]; [discriminate Hne|]. clear Hne.
  cbn [all_chars] in Hw. apply andb_true_iff in Hw as [Hc Hw].
  enough (E : re_match (Grp "0" ENVIRONMENT_RGX)
                (written (Reference (String c name)) +:+ rest)
              = Some ([("0", written (Reference (String c name)))], rest)).
  { unfold match_text. rewrite E. cbn [mbind option_bind group].
    now rewrite String.eqb_refl. }
  unfold re_match, ENVIRONMENT_RGX, written.
  cbn [String.append rmatch chr]. rewrite !Ascii.eqb_refl, Hc.
  rewrite str_app_assoc.
  apply star_lazy_takes; [exact Hw| |].
  - intros a b -> Hb. destruct b as [|d b]; [contradiction|].
    apply all_chars_suffix in Hw. cbn [all_chars] in Hw.
    apply andb_true_iff in Hw as [Hd _].
    cbn [String.append rmatch]. now rewrite (is_word_not_brace d Hd).
  - cbn [String.append rmatch accept]. rewrite Ascii.eqb_refl.
    reflexivity.
Qed.

Lemma drop_last_app s c : drop_last (s +:+ String c "") = s.
Proof.
  induction s as [|x s IH]; [reflexivity|].
  cbn [String.append drop_last]. rewrite IH. now destruct s.
Qed.

(** [(match[2:])[:-1]] is the name. *)
Lemma name_of_reference name : drop_last (str_drop 2 (written (Reference name))) = name.
Proof. unfold written. cbn [String.append str_drop]. apply drop_last_app. Qed.

Lemma no_dollar_no_match s rest :
  no_dollar s = true ->
  forall a1 a2, s = a1 +:+ a2 -> a2 <> "" ->
    match a2 +:+ rest with String c _ => Ascii.eqb "$" c = false | EmptyString => True end.
Proof.
  intros Hs a1 a2 -> Hne. unfold no_dollar in Hs. apply all_chars_suffix in Hs.
  destruct a2 as [|c a2]; [contradiction|]. now apply no_dollar_head in Hs.
Qed.

Lemma findall_pieces ps :
  Forall unexpanded ps ->
  findall ENVIRONMENT_RGX (str_concat (map written ps))
  = map (fun name => written (Reference name)) (references ps).
Proof.
  unfold findall. induction 1 as [|p ps Hp _ IH]; [reflexivity|].
  cbn [map str_concat]. destruct p as [s|name]; cbn [unexpanded] in Hp.
  - cbn [written references]. rewrite findall_from_pass; [exact IH|].
    intros a1 a2 E Hne. apply environment_no_match.
    now apply (no_dollar_no_match s _ Hp a1 a2).
  - cbn [references map].
    rewrite (findall_from_hit _ (written (Reference name)) _ _
               ltac:(discriminate) (environment_match name _ Hp)).
    f_equal. exact IH.
Qed.

Lemma startswith_app_iff p q s :
  startswith (p +:+ q) (p +:+ s) = startswith q s.
Proof. induction p as [|c p IH]; [reflexivity|]. cbn. now rewrite Ascii.eqb_refl. Qed.

(** Two references are written alike only if they name the same
    variable. *)
Lemma startswith_names n m rest :
  all_chars is_word n = true -> all_chars is_word m = true ->
  startswith (n +:+ "}") (m +:+ String "}" rest) = String.eqb m n.
Proof.
  revert m. induction n as [|c n IH]; intros m Hn Hm.
  - destruct m as [|d m]; [reflexivity|].
    cbn [all_chars] in Hm. apply andb_true_iff in Hm as [Hd _].
    cbn. now rewrite (is_word_not_brace d Hd).
  - cbn [all_chars] in Hn. apply andb_true_iff in Hn as [Hc Hn].
    destruct m as [|d m].
    + cbn. rewrite Ascii.eqb_sym. now rewrite (is_word_not_brace c Hc).
    + cbn [all_chars] in Hm. apply andb_true_iff in Hm as [Hd Hm].
      cbn [String.append startswith]. rewrite (IH m Hn Hm).
      change ((String d m =? String c n)%string)
        with (if Ascii.eqb d c then (m =? n)%string else false).
      rewrite (Ascii.eqb_sym d c).
      destruct (Ascii.eqb c d); reflexivity.
Qed.

Lemma is_name_word name : is_name name = true -> all_chars is_word name = true.
Proof. unfold is_name. now intros [_ H]%andb_true_iff. Qed.

Lemma no_dollar_startswith name s rest :
  no_dollar s = true ->
  forall a1 a2, s = a1 +:+ a2 -> a2 <> "" ->
    startswith (written (Reference name)) (a2 +:+ rest) = false.
Proof.
  intros Hs a1 a2 E Hne.
  pose proof (no_dollar_no_match s rest Hs a1 a2 E Hne) as D.
  destruct (a2 +:+ rest) as [|c r]; [reflexivity|].
  cbn [written String.append startswith]. now rewrite D.
Qed.

(** No reference to [name] starts inside a reference to another name. *)
Lemma other_reference name m rest :
  is_name name = true -> is_name m = true -> m <> name ->
  forall a1 a2, written (Reference m) = a1 +:+ a2 -> a2 <> "" ->
    startswith (written (Reference name)) (a2 +:+ rest) = false.
Proof.
  intros Hn Hm Hmn a1 a2 E Hne. destruct a1 as [|x a1].
  - cbn [String.append] in E. subst a2. cbn [written String.append startswith].
    rewrite !Ascii.eqb_refl. cbn [andb]. rewrite str_app_assoc.
    cbn [String.append].
    rewrite (startswith_names name m _ (is_name_word _ Hn) (is_name_word _ Hm)).
    now apply String.eqb_neq.
  - cbn [written String.append] in E. inversion E as [[Ex E']].
    apply (no_dollar_startswith name ("{" +:+ m +:+ "}") rest) with (a1 := a1);
      [|exact E'|exact Hne].
    unfold no_dollar. cbn [String.append all_chars]. rewrite all_chars_app.
    rewrite (all_chars_impl is_word not_dollar m is_word_not_dollar (is_name_word _ Hm)).
    reflexivity.
Qed.

Lemma replace_pieces name value ps :
  is_name name = true ->
  Forall unexpanded ps ->
  replace (written (Reference name)) value (str_concat (map written ps))
  = str_concat (map written (map (substituted name value) ps)).
Proof.
  intros Hn. unfold replace.
  replace (is_empty (written (Reference name))) with false by reflexivity.
  induction 1 as [|p ps Hp _ IH]; [reflexivity|].
  cbn [map str_concat]. destruct p as [s|m]; cbn [unexpanded] in Hp.
  - cbn [substituted]. change (written (Text s)) with s.
    rewrite replace_from_pass; [now rewrite IH|].
    now apply no_dollar_startswith.
  - cbn [substituted]. destruct (String.eqb_spec m name) as [->|Hmn].
    + rewrite replace_from_hit by discriminate. now rewrite IH.
    + rewrite replace_from_pass; [now rewrite IH|].
      now apply other_reference.
Qed.

(** The references of a text are replaced one name after the other. *)
Lemma replaced_in_turn environ names :
  forall ps,
    Forall unexpanded ps ->
    Forall (fun name => is_name name = true /\ no_dollar (value_of environ name) = true) names ->
    fold_left
      (fun value match_ =>
         let environment_variable := drop_last (str_drop 2 match_) in
         let environment_value :=
           default environment_variable (environ !! environment_variable) in
         replace match_ environment_value value)
      (map (fun name => written (Reference name)) names)
      (str_concat (map written ps))
    = str_concat
        (map written
           (fold_left (fun ps name => map (substituted name (value_of environ name)) ps)
              names ps)).
Proof.
  induction names as [|name names IH]; intros ps Hps Hnames; [reflexivity|].
  inversion Hnames as [|? ? [Hn Hv] Hnames']; subst.
  cbn [map fold_left]. cbv zeta. rewrite name_of_reference.
  fold (value_of environ name).
  rewrite replace_pieces by assumption.
  apply IH; [|assumption].
  clear -Hps Hv. induction Hps as [|p ps Hp _ IHps]; [constructor|].
  cbn [map]. constructor; [|exact IHps].
  destruct p as [s|m]; [exact Hp|]. cbn [substituted].
  destruct (String.eqb m name); [exact Hv | exact Hp].
Qed.

(** Once every name has had its turn, no reference is left. *)
Lemma all_substituted environ names p :
  (forall m, p = Reference m -> In m names) ->
  written (fold_left (fun p name => substituted name (value_of environ name) p) names p)
  = expanded environ p.
Proof.
  revert p. induction names as [|name names IH]; intros p Hp.
  - destruct p as [s|m]; [reflexivity|]. destruct (Hp m eq_refl).
  - cbn [fold_left]. destruct p as [s|m].
    + cbn [substituted]. apply (IH (Text s)). intros m E. discriminate E.
    + cbn [substituted]. destruct (String.eqb_spec m name) as [->|Hmn].
      * rewrite (IH (Text (value_of environ name))); [reflexivity|].
        intros m E. discriminate E.
      * apply IH. intros m' E. inversion E; subst m'.
        destruct (Hp m eq_refl) as [->|Hin]; [contradiction | exact Hin].
Qed.

Lemma fold_left_map_pieces environ names :
  forall ps,
    fold_left (fun ps name => map (substituted name (value_of environ name)) ps) names ps
    = map (fun p => fold_left (fun p name => substituted name (value_of environ name) p)
                      names p) ps.
Proof.
  induction names as [|name names IH]; intros ps; cbn [fold_left].
  - now rewrite map_id.
  - rewrite IH, map_map. reflexivity.
Qed.

Lemma simple_unexpanded environ ps : Forall (simple environ) ps -> Forall unexpanded ps.
Proof.
  induction 1 as [|p ps Hp _ IH]; constructor; [|exact IH].
  destruct p; [exact Hp | exact (proj1 Hp)].
Qed.

Lemma simple_references environ ps :
  Forall (simple environ) ps ->
  Forall (fun name => is_name name = true /\ no_dollar (value_of environ name) = true)
    (references ps).
Proof.
  induction 1 as [|p ps Hp _ IH]; [constructor|].
  destruct p; cbn [references]; [exact IH | now constructor].
Qed.

Lemma references_in m ps : In (Reference m) ps -> In m (references ps).
Proof.
  induction ps as [|q ps IH]; intros Hin; [destruct Hin|].
  destruct Hin as [->|Hin]; [now left|].
  destruct q; cbn [references]; [|right]; now apply IH.
Qed.

(** X4. [path_constructor] replaces every reference [${NAME}] by the value
    of the environment variable NAME, and by NAME itself when the variable is
    not set, in a text whose other parts hold no dollar sign, when the values
    hold none either; the rest of the text is kept. *)
Theorem path_constructor_expands environ ps :
  Forall (simple environ) ps ->
  path_constructor environ (str_concat (map written ps))
  = str_concat (map (expanded environ) ps).
Proof.
  intros Hps. unfold path_constructor. cbv zeta.
  rewrite findall_pieces by (eapply simple_unexpanded; eassumption).
  rewrite replaced_in_turn;
    [|eapply simple_unexpanded; eassumption|now apply simple_references].
  rewrite fold_left_map_pieces, map_map. f_equal.
  apply map_ext_in. intros p Hin. apply all_substituted.
  intros m ->. now apply references_in.
Qed.

(** ** The default configuration file *)

Lemma str_in_suffix p a1 a2 : str_in p (a1 +:+ a2) = false -> str_in p a2 = false.
Proof.
  intros H. destruct (str_in p a2) eqn:E; [|reflexivity].
  now rewrite (str_in_app_r p a1 a2 E) in H.
Qed.

Lemma str_in_head p s : str_in p s = false -> startswith p s = false.
Proof. destruct s; cbn [str_in]; now intros [H _]%orb_false_iff. Qed.

(** A prefix no longer than the first part of a text is a prefix of that
    part. *)
Lemma startswith_shorten p :
  forall s t, startswith p (s +:+ t) = true -> String.length p <= String.length s ->
    startswith p s = true.
Proof.
  induction p as [|c p IH]; intros s t H Hlen; [reflexivity|].
  destruct s as [|d s]; [cbn in Hlen; lia|].
  cbn [String.append startswith] in *. apply andb_true_iff in H as [Hc H].
  rewrite Hc. cbn [andb]. apply (IH s t H). cbn [String.length] in Hlen. lia.
Qed.

Lemma no_py_across a2 :
  a2 <> "" -> startswith ".py" a2 = false -> startswith ".py" (a2 +:+ ".py") = false.
Proof.
  intros Hne H. destruct a2 as [|x [|y [|z a2]]]; [contradiction| | |exact H];
    cbn [String.append startswith] in *.
  - destruct (Ascii.eqb "." x); reflexivity.
  - destruct (Ascii.eqb "." x); [|reflexivity].
    destruct (Ascii.eqb "p" y); reflexivity.
Qed.

Lemma no_slash_no_bin s : str_in "/" s = false -> str_in "/bin/" (s +:+ ".yml") = false.
Proof.
  induction s as [|c s IH]; intros H; [reflexivity|].
  cbn [str_in] in H. apply orb_false_iff in H as [Hc H].
  cbn [String.append str_in]. rewrite (IH H), orb_false_r.
  cbn [startswith] in *. rewrite andb_true_r in Hc. now rewrite Hc.
Qed.

(** X5. The default configuration file of a script [dir/bin/name.py] is
    [dir/etc/name.yml], when [.py] occurs nowhere else in the path, [/bin/]
    nowhere before, and the name holds no slash. *)
Theorem default_config_file_of_script dir name :
  str_in ".py" (dir +:+ "/bin/" +:+ name) = false ->
  str_in "/bin/" (dir +:+ "/bin") = false ->
  str_in "/" name = false ->
  default_config_file (dir +:+ "/bin/" +:+ name +:+ ".py")
  = dir +:+ "/etc/" +:+ name +:+ ".yml".
Proof.
  intros Hpy Hbin Hname. unfold default_config_file, replace. cbn [is_empty].
  assert (E1 : replace_from ".py" ".yml" (dir +:+ "/bin/" +:+ name +:+ ".py") 0
               = dir +:+ "/bin/" +:+ name +:+ ".yml").
  { rewrite <- !str_app_assoc. rewrite replace_from_pass.
    - replace (replace_from ".py" ".yml" ".py" 0) with ".yml" by reflexivity.
      now rewrite !str_app_assoc.
    - intros a1 a2 E Hne. apply no_py_across; [exact Hne|].
      apply str_in_head. rewrite <- !str_app_assoc, E in Hpy.
      now apply str_in_suffix in Hpy. }
  rewrite E1. rewrite replace_from_pass.
  - rewrite (replace_from_hit "/bin/" "/etc/" _ ltac:(discriminate)).
    rewrite replace_from_missing by now apply no_slash_no_bin.
    reflexivity.
  - intros a1 a2 -> Hne.
    destruct (startswith "/bin/" (a2 +:+ "/bin/" +:+ name +:+ ".yml")) eqn:S;
      [|reflexivity].
    rewrite str_app_assoc in Hbin. apply str_in_suffix, str_in_head in Hbin.
    change ("/bin/" +:+ name +:+ ".yml") with ("/bin" +:+ ("/" +:+ name +:+ ".yml")) in S.
    rewrite <- str_app_assoc in S.
    apply startswith_shorten in S; [congruence|].
    destruct a2 as [|x a2]; [contradiction|].
    clear. induction a2 as [|y a2 IH]; cbn [String.append String.length] in *; lia.
Qed.

(** ** [get_config_value] *)

Lemma is_in_dict (d : gmap string yaml) key :
  is_in key (YDict d) = Ok (bool_decide (is_Some (d !! key))).
Proof. reflexivity. Qed.

(** X6. What a call of [get_config_value] can give. When it returns, either
    the category is not in the configuration or the key is not in the
    category, a warning is logged and the default is returned as it was
    given, unconverted; or the configuration is a mapping whose category is
    a mapping that holds the key, nothing is logged and the value is the
    conversion of what is stored. When it raises, either the configuration
    or the category is not a mapping and the exception is [TypeError] (so
    for an empty configuration file, read as [None], whatever the default),
    or the exception is that of the conversion of what is stored. *)
Theorem get_config_value_outcomes {R : Type} (CONFIG : yaml) (category key : string)
    (config_type : yaml -> result R) (default : R) :
  match get_config_value CONFIG category key config_type default with
  | Ok (r, warnings) =>
      (r = default /\ warnings = [CategoryMissing category] /\
       is_in category CONFIG = Ok false) \/
      (r = default /\ warnings = [KeyMissing key category] /\
       exists section, subscript CONFIG category = Ok section /\ is_in key section = Ok false) \/
      (warnings = [] /\
       exists d c v,
         CONFIG = YDict d /\ d !! category = Some (YDict c) /\ c !! key = Some v /\
         config_type v = Ok r)
  | Raise e =>
      (e = TypeError /\
       ((forall d, CONFIG <> YDict d) \/
        exists d section,
          CONFIG = YDict d /\ d !! category = Some section /\ forall c, section <> YDict c)) \/
      (exists d c v,
         CONFIG = YDict d /\ d !! category = Some (YDict c) /\ c !! key = Some v /\
         config_type v = Raise e)
  end.
Proof.
  unfold get_config_value.
  destruct CONFIG as [|b|n|x|s|l|d]; cbn [is_in mbind result_bind];
    try (left; split; [reflexivity|]; left; intros d E; discriminate E).
  - (* a string: [in] is the test for a substring *)
    destruct (str_in category s); cbn [negb subscript mbind result_bind].
    + left. split; [reflexivity|]. left. intros d E; discriminate E.
    + left. auto.
  - (* a list *)
    destruct (existsb _ l); cbn [negb subscript mbind result_bind].
    + left. split; [reflexivity|]. left. intros d E; discriminate E.
    + left. auto.
  - (* a mapping *)
    cbn [subscript].
    destruct (d !! category) as [section|] eqn:Hc.
    2:{ rewrite bool_decide_eq_false_2 by (intros [? ?]; discriminate).
        cbn [negb]. left. auto. }
    rewrite bool_decide_eq_true_2 by eauto.
    cbn [negb of_option mbind result_bind].
    destruct section as [|b|n|x|s|l|c]; cbn [is_in subscript mbind result_bind];
      try (left; split; [reflexivity|]; right; exists d; eexists;
           split; [reflexivity|]; split; [exact Hc|]; intros c E; discriminate E).
    + destruct (str_in key s) eqn:Hk; cbn [negb subscript mbind result_bind].
      * left. split; [reflexivity|]. right. exists d, (YStr s).
        split; [reflexivity|]. split; [exact Hc|]. intros c E; discriminate E.
      * right. left. split; [reflexivity|]. split; [reflexivity|].
        exists (YStr s). cbn [is_in]. rewrite Hk. auto.
    + destruct (existsb _ l) eqn:Hk; cbn [negb subscript mbind result_bind].
      * left. split; [reflexivity|]. right. exists d, (YList l).
        split; [reflexivity|]. split; [exact Hc|]. intros c E; discriminate E.
      * right. left. split; [reflexivity|]. split; [reflexivity|].
        exists (YList l). cbn [is_in]. rewrite Hk. auto.
    + destruct (c !! key) as [v|] eqn:Hk.
      2:{ rewrite bool_decide_eq_false_2 by (intros [? ?]; discriminate).
          cbn [negb]. right. left. split; [reflexivity|]. split; [reflexivity|].
          exists (YDict c). cbn [is_in]. rewrite Hk.
          rewrite bool_decide_eq_false_2 by (intros [? ?]; discriminate). auto. }
      rewrite bool_decide_eq_true_2 by eauto.
      cbn [negb of_option mbind result_bind].
      destruct (config_type v) as [r|e] eqn:Hv; cbn [mbind result_bind].
      * right. right. split; [reflexivity|]. exists d, c, v. auto.
      * right. exists d, c, v. auto.
Qed.

(** A key that the configuration lacks gives the default as it was given,
    with one warning, whatever the conversion asked for: the default is
    neither converted nor checked. *)
Lemma get_config_value_default {R : Type} (d : gmap string yaml) (category key : string)
    (config_type : yaml -> result R) (default : R) :
  d !! category = None \/ (exists c, d !! category = Some (YDict c) /\ c !! key = None) ->
  exists warning,
    get_config_value (YDict d) category key config_type default = Ok (default, [warning]).
Proof.
  intros [Hc|(c & Hc & Hk)]; unfold get_config_value; cbn [is_in mbind result_bind].
  - rewrite Hc. rewrite bool_decide_eq_false_2 by (intros [? ?]; discriminate).
    cbn [negb]. eauto.
  - rewrite Hc. rewrite bool_decide_eq_true_2 by eauto.
    cbn [negb subscript]. rewrite Hc. cbn [of_option mbind result_bind is_in].
    rewrite Hk. rewrite bool_decide_eq_false_2 by (intros [? ?]; discriminate).
    cbn [negb]. eauto.
Qed.

(** ** What a pattern captures *)

Lemma star_match_matches g p k s :
  forall acc caps res,
    star_match g p k acc s caps = Some res ->
    exists t s', s = t +:+ s' /\ all_chars p t = true /\ k (acc +:+ t) s' caps = Some res.
Proof. apply star_match_sound. Qed.

Lemma rmatch_matches r :
  forall s caps k res,
    rmatch r s caps k = Some res ->
    exists t s' new,
      s = t +:+ s' /\ matches r t s' new /\ k t s' (new ++ caps) = Some res.
Proof.
  induction r as [p | r1 IH1 r2 IH2 | r1 IH1 r2 IH2 | g p | n r IH | ];
    cbn [rmatch matches]; intros s caps k res H.
  - destruct s as [|c s]; [discriminate|].
    destruct (p c) eqn:Hc; [|discriminate].
    exists (String c ""), s, []. cbn [app String.append]. eauto 8.
  - apply IH1 in H as (t1 & s1 & n1 & -> & L1 & H).
    apply IH2 in H as (t2 & s2 & n2 & -> & L2 & H).
    exists (t1 +:+ t2), s2, (n2 ++ n1). rewrite str_app_assoc, <- app_assoc.
    split; [reflexivity|]. split; [|exact H]. exists t1, t2, n1, n2. auto.
  - destruct (rmatch r1 s caps k) eqn:E.
    + inversion H; subst. apply IH1 in E as (t & s' & new & -> & L & E). eauto 8.
    + apply IH2 in H as (t & s' & new & -> & L & E'). eauto 8.
  - apply star_match_sound in H as (t & s' & -> & Ht & H). cbn [String.append] in H.
    exists t, s', []. auto.
  - apply IH in H as (t & s' & new & -> & L & H).
    exists t, s', ((n, t) :: new). split; [reflexivity|]. split; [|exact H]. eauto.
  - destruct (is_empty s || (s =? newline)%string) eqn:E; [|discriminate].
    exists "", s, []. split; [reflexivity|]. split; [|exact H].
    split; [reflexivity|]. split; [reflexivity|].
    apply orb_true_iff in E as [E|E]; [left; now destruct s | right; now apply String.eqb_eq].
Qed.

Lemma re_search_matches r line m :
  re_search r line = Some m ->
  exists before t rest, line = before +:+ t +:+ rest /\ matches r t rest m.
Proof.
  induction line as [|c line IH]; rewrite re_search_unfold;
    destruct (re_match r _) as [[caps rest0]|] eqn:E; intros H; try discriminate H.
  - inversion H; subst. unfold re_match in E.
    apply rmatch_matches in E as (t & s' & new & E1 & L & E2).
    unfold accept in E2. rewrite app_nil_r in E2. inversion E2; subst.
    exists "", t, rest0. auto.
  - inversion H; subst. unfold re_match in E.
    apply rmatch_matches in E as (t & s' & new & E1 & L & E2).
    unfold accept in E2. rewrite app_nil_r in E2. inversion E2; subst.
    exists "", t, rest0. auto.
  - destruct (IH H) as (before & t & rest & -> & L).
    exists (String c before), t, rest. auto.
Qed.

Lemma matches_chr c t rest new : matches (chr c) t rest new -> t = String c "" /\ new = [].
Proof.
  intros (x & -> & H & ->). apply Ascii.eqb_eq in H. now subst.
Qed.

Lemma matches_digits t rest new : matches digits t rest new -> is_digits t = true /\ new = [].
Proof.
  unfold digits. cbn [matches].
  intros (t1 & t2 & n1 & n2 & -> & -> & (c & -> & Hc & ->) & (Ht & ->)).
  split; [|reflexivity]. unfold is_digits. cbn [String.append is_empty negb all_chars andb].
  now rewrite Hc, Ht.
Qed.

Lemma matches_key t rest new : matches KEY_RGX t rest new -> is_tag t /\ new = [].
Proof.
  unfold KEY_RGX. cbn [matches].
  intros (a & t1 & na & n1 & -> & -> & [Ha ->]%matches_digits &
          (x1 & t2 & nx1 & n2 & -> & -> & [-> ->]%matches_chr &
          (b & t3 & nb & n3 & -> & -> & [Hb ->]%matches_digits &
          (x2 & t4 & nx2 & n4 & -> & -> & [-> ->]%matches_chr &
          (c & t5 & nc & n5 & -> & -> & [Hc ->]%matches_digits &
          (x3 & t6 & nx3 & n6 & -> & -> & [-> ->]%matches_chr &
          (d & t7 & nd & n7 & -> & -> & [Hd ->]%matches_digits &
          (x4 & e & nx4 & ne & -> & -> & [-> ->]%matches_chr &
          [He ->]%matches_digits)))))))).
  split; [|reflexivity]. exists a, b, c, d, e. auto 10.
Qed.

Lemma matches_value n t rest new :
  matches (Grp n (Star false not_lparen)) t rest new -> new = [(n, t)].
Proof. cbn [matches]. now intros (new0 & -> & _ & ->). Qed.

Lemma matches_key_group t rest new :
  matches (Grp "key" KEY_RGX) t rest new -> is_tag t /\ new = [("key", t)].
Proof.
  cbn [matches]. intros (new0 & -> & [Ht ->]%matches_key). auto.
Qed.

Lemma one_value_matches t rest m :
  matches P1_ONE_VALUE_RGX t rest m ->
  exists tag v,
    is_tag tag /\ t = tag +:+ "(" +:+ v +:+ ")" /\
    m = [("value", v); ("key", tag)] /\ (rest = "" \/ rest = newline).
Proof.
  unfold P1_ONE_VALUE_RGX. cbn [matches].
  intros (tag & t1 & nk & n1 & -> & -> & [Ht ->]%matches_key_group &
          (x1 & t2 & nx1 & n2 & -> & -> & [-> ->]%matches_chr &
          (v & t3 & nv & n3 & -> & -> & ->%matches_value &
          (x2 & t4 & nx2 & n4 & -> & -> & [-> ->]%matches_chr &
          (-> & -> & Hrest))))).
  exists tag, v. cbn [app String.append]. auto.
  Unshelve. all: exact "".
Qed.

Lemma two_values_matches t rest m :
  matches P1_TWO_VALUES_RGX t rest m ->
  exists tag v1 v2,
    is_tag tag /\ t = tag +:+ "(" +:+ v1 +:+ ")(" +:+ v2 +:+ ")" /\
    m = [("value2", v2); ("value1", v1); ("key", tag)] /\ (rest = "" \/ rest = newline).
Proof.
  unfold P1_TWO_VALUES_RGX. cbn [matches].
  intros (tag & t1 & nk & n1 & -> & -> & [Ht ->]%matches_key_group &
          (x1 & t2 & nx1 & n2 & -> & -> & [-> ->]%matches_chr &
          (v1 & t3 & nv & n3 & -> & -> & ->%matches_value &
          (x2 & t4 & nx2 & n4 & -> & -> & [-> ->]%matches_chr &
          (x3 & t5 & nx3 & n5 & -> & -> & [-> ->]%matches_chr &
          (v2 & t6 & nv2 & n6 & -> & -> & ->%matches_value &
          (x4 & t7 & nx4 & n7 & -> & -> & [-> ->]%matches_chr &
          (-> & -> & Hrest)))))))).
  exists tag, v1, v2. cbn [app String.append]. auto.
  Unshelve. all: exact "".
Qed.

Lemma more_than_two_matches t rest m :
  matches P1_MORE_THAN_TWO_VALUES_RGX t rest m ->
  exists tag v1 v2 others,
    is_tag tag /\ t = tag +:+ "(" +:+ v1 +:+ ")(" +:+ v2 +:+ "(" +:+ others +:+ ")" /\
    m = [("value2", v2); ("value", v1); ("key", tag)] /\ (rest = "" \/ rest = newline).
Proof.
  unfold P1_MORE_THAN_TWO_VALUES_RGX. cbn [matches].
  intros (tag & t1 & nk & n1 & -> & -> & [Ht ->]%matches_key_group &
          (x1 & t2 & nx1 & n2 & -> & -> & [-> ->]%matches_chr &
          (v1 & t3 & nv & n3 & -> & -> & ->%matches_value &
          (x2 & t4 & nx2 & n4 & -> & -> & [-> ->]%matches_chr &
          (x3 & t5 & nx3 & n5 & -> & -> & [-> ->]%matches_chr &
          (v2 & t6 & nv2 & n6 & -> & -> & ->%matches_value &
          (x4 & t7 & nx4 & n7 & -> & -> & [-> ->]%matches_chr &
          (others & t8 & no & n8 & -> & -> & [_ ->] &
          (x5 & t9 & nx5 & n9 & -> & -> & [-> ->]%matches_chr &
          (-> & -> & Hrest)))))))))).
  exists tag, v1, v2, others. cbn [app String.append]. auto.
  Unshelve. all: exact "".
Qed.

Lemma closed_line before body rest :
  rest = "" \/ rest = newline -> closed (before +:+ (body +:+ ")") +:+ rest).
Proof.
  intros [-> | ->]; exists (before +:+ body); [left | right];
    now rewrite ?str_app_nil_r, !str_app_assoc.
Qed.

(** The ways [parse_line] returns: the line matched no pattern and is
    logged; or it holds a tag and an opening parenthesis, is closed, and one
    field is stored under the tag, or two under the tag followed by [.A] and
    [.B]. *)
Lemma parse_line_cases line st u st' :
  SlimmeLezer.parse_line line st = Ok (u, st') ->
  st' = set_logged (logged st ++ [LogNotParsed line]) st \/
  (closed line /\
   exists before tag after,
     line = before +:+ tag +:+ "(" +:+ after /\ is_tag tag /\
     ((exists x, st' = set_data_telegram (<[tag := x]> (data_telegram st)) st) \/
      (exists x y,
         st' = set_data_telegram
                 (<[tag +:+ ".B" := y]> (<[tag +:+ ".A" := x]> (data_telegram st))) st))).
Proof.
  unfold SlimmeLezer.parse_line. unfold_m. intros H.
  destruct (re_search P1_MORE_THAN_TWO_VALUES_RGX line) as [m|] eqn:S3.
  { apply re_search_matches in S3 as (before & t & rest & -> & M).
    apply more_than_two_matches in M as (tag & v1 & v2 & others & Ht & -> & -> & Hrest).
    cbv [group String.eqb Ascii.eqb Bool.eqb] in H.
    destruct (parse_p1_value v1) as [x|]; [|discriminate H].
    destruct (parse_p1_value v2) as [y|]; [|discriminate H].
    cbn in H. inversion H; subst. right. split.
    - replace (tag +:+ "(" +:+ v1 +:+ ")(" +:+ v2 +:+ "(" +:+ others +:+ ")")
        with ((tag +:+ "(" +:+ v1 +:+ ")(" +:+ v2 +:+ "(" +:+ others) +:+ ")")
        by now rewrite !str_app_assoc.
      now apply closed_line.
    - exists before, tag, (v1 +:+ ")(" +:+ v2 +:+ "(" +:+ others +:+ ")" +:+ rest).
      split; [now rewrite !str_app_assoc|]. split; [exact Ht|]. left. now exists x. }
  destruct (re_search P1_TWO_VALUES_RGX line) as [m|] eqn:S2.
  { apply re_search_matches in S2 as (before & t & rest & -> & M).
    apply two_values_matches in M as (tag & v1 & v2 & Ht & -> & -> & Hrest).
    cbv [group String.eqb Ascii.eqb Bool.eqb] in H.
    destruct (parse_p1_value v1) as [x|]; [|discriminate H].
    destruct (parse_p1_value v2) as [y|]; [|discriminate H].
    cbn in H. inversion H; subst. right. split.
    - replace (tag +:+ "(" +:+ v1 +:+ ")(" +:+ v2 +:+ ")")
        with ((tag +:+ "(" +:+ v1 +:+ ")(" +:+ v2) +:+ ")")
        by now rewrite !str_app_assoc.
      now apply closed_line.
    - exists before, tag, (v1 +:+ ")(" +:+ v2 +:+ ")" +:+ rest).
      split; [now rewrite !str_app_assoc|]. split; [exact Ht|]. right. now exists x, y. }
  destruct (re_search P1_ONE_VALUE_RGX line) as [m|] eqn:S1.
  { apply re_search_matches in S1 as (before & t & rest & -> & M).
    apply one_value_matches in M as (tag & v & Ht & -> & -> & Hrest).
    cbv [group String.eqb Ascii.eqb Bool.eqb] in H.
    destruct (parse_p1_value v) as [x|]; [|discriminate H].
    cbn in H. inversion H; subst. right. split.
    - replace (tag +:+ "(" +:+ v +:+ ")") with ((tag +:+ "(" +:+ v) +:+ ")")
        by now rewrite !str_app_assoc.
      now apply closed_line.
    - exists before, tag, (v +:+ ")" +:+ rest).
      split; [now rewrite !str_app_assoc|]. split; [exact Ht|]. left. now exists x. }
  inversion H; subst. now left.
Qed.

(** X7. A data line changes the telegram only if it holds a tag followed by
    an opening parenthesis and ends, a final newline apart, with a closing
    parenthesis; what is stored then is one field under that tag, or two
    under the tag followed by [.A] and [.B]. Any other line that
    [parse_line] returns from is logged as not parsed and leaves the
    telegram as it was. *)
Theorem parse_line_stores line st u st' :
  SlimmeLezer.parse_line line st = Ok (u, st') ->
  (st' = set_logged (logged st ++ [LogNotParsed line]) st /\
   data_telegram st' = data_telegram st) \/
  (closed line /\ logged st' = logged st /\
   exists before tag after,
     line = before +:+ tag +:+ "(" +:+ after /\ is_tag tag /\
     ((exists x, data_telegram st' = <[tag := x]> (data_telegram st)) \/
      (exists x y,
         data_telegram st'
         = <[tag +:+ ".B" := y]> (<[tag +:+ ".A" := x]> (data_telegram st))))).
Proof.
  intros H. apply parse_line_cases in H as [->|(Hc & before & tag & after & E & Ht & H)].
  - left. now split.
  - right. split; [exact Hc|].
    destruct H as [(x & ->)|(x & y & ->)].
    + split; [reflexivity|]. exists before, tag, after.
      split; [exact E|]. split; [exact Ht|]. left. now exists x.
    + split; [reflexivity|]. exists before, tag, after.
      split; [exact E|]. split; [exact Ht|]. right. now exists x, y.
Qed.

(** ** Text before the tag *)

(** The three patterns start with a digit of the tag. *)
Lemma key_needs_digit R c s caps k :
  is_digit c = false -> rmatch (Cat (Grp "key" KEY_RGX) R) (String c s) caps k = None.
Proof.
  intros H. unfold KEY_RGX, digits, digit. cbn [rmatch]. now rewrite H.
Qed.

Lemma re_search_after R junk line :
  all_chars not_digit junk = true ->
  re_search (Cat (Grp "key" KEY_RGX) R) (junk +:+ line)
  = re_search (Cat (Grp "key" KEY_RGX) R) line.
Proof.
  induction junk as [|c junk IH]; intros H; [reflexivity|].
  cbn [all_chars] in H. apply andb_true_iff in H as [Hc H].
  unfold not_digit in Hc. apply negb_true_iff in Hc.
  cbn [String.append]. rewrite re_search_unfold. unfold re_match.
  rewrite key_needs_digit by exact Hc. now apply IH.
Qed.

(** X8. The patterns are searched for, not matched from the start of the
    line: characters before the tag that are not digits change nothing to
    what a data line stores or raises. Only a line that no pattern matches
    is logged with them. *)
Theorem text_before_the_tag junk line st :
  all_chars not_digit junk = true ->
  SlimmeLezer.parse_line (junk +:+ line) st = SlimmeLezer.parse_line line st \/
  (SlimmeLezer.parse_line line st
   = Ok (tt, set_logged (logged st ++ [LogNotParsed line]) st) /\
   SlimmeLezer.parse_line (junk +:+ line) st
   = Ok (tt, set_logged (logged st ++ [LogNotParsed (junk +:+ line)]) st)).
Proof.
  intros H. unfold SlimmeLezer.parse_line.
  unfold P1_MORE_THAN_TWO_VALUES_RGX, P1_TWO_VALUES_RGX, P1_ONE_VALUE_RGX.
  rewrite !re_search_after by exact H.
  destruct (re_search _ line) as [m|]; [now left|].
  destruct (re_search _ line) as [m|]; [now left|].
  destruct (re_search _ line) as [m|]; [now left|].
  right. split; reflexivity.
Qed.

(** ** The messages sent *)

Lemma is_digits_head a : is_digits a = true -> exists c s, a = String c s /\ is_digit c = true.
Proof.
  unfold is_digits. destruct a as [|c a]; [discriminate|]. cbn [is_empty negb andb all_chars].
  intros [Hc _]%andb_true_iff. eauto.
Qed.

Lemma is_tag_head tag : is_tag tag -> exists c s, tag = String c s /\ is_digit c = true.
Proof.
  intros (a & b & c & d & e & Ha & _ & _ & _ & _ & ->).
  apply is_digits_head in Ha as (x & s & -> & Hx). cbn [String.append]. eauto.
Qed.

Lemma field_key_head k : field_key k -> exists c s, k = String c s /\ is_digit c = true.
Proof.
  intros (tag & (c & s & -> & Hc)%is_tag_head & [->| [->| ->]]); cbn [String.append]; eauto.
Qed.

Lemma field_key_not_header k : field_key k -> k <> "header".
Proof. intros (c & s & -> & Hc)%field_key_head E. inversion E; subst. discriminate Hc. Qed.

Lemma field_key_not_checksum k : field_key k -> k <> "checksum".
Proof. intros (c & s & -> & Hc)%field_key_head E. inversion E; subst. discriminate Hc. Qed.

Lemma timestamp_is_field_key : field_key TIMESTAMP_KEY.
Proof.
  exists TIMESTAMP_KEY. split; [|now left].
  exists "0", "0", "1", "0", "0". repeat split; reflexivity.
Qed.

Lemma increasing_snoc ns n :
  increasing ns -> Forall (fun x => (x < n)%Z) ns -> increasing (ns ++ [n]).
Proof.
  induction ns as [|a ns IH]; cbn [app increasing]; intros H Hn.
  - split; [constructor | exact I].
  - destruct H as [Ha H]. inversion Hn; subst. split; [|now apply IH].
    apply Forall_app. split; [exact Ha | now constructor].
Qed.

Lemma footer_checksum line : SlimmeLezer.is_footer line = true -> String.length (drop_first line) = 4.
Proof.
  unfold SlimmeLezer.is_footer. intros [_ H]%andb_true_iff.
  apply Nat.eqb_eq in H. destruct line; [discriminate H|]. cbn in *. lia.
Qed.

Section Orderly.

Variable strptime : string -> option Z.
Variable strftime : Z -> string.
Variable clock : nat -> Z.

Local Abbreviation step := (SlimmeLezer.step strptime strftime clock).
Local Abbreviation run := (SlimmeLezer.run strptime strftime clock).
Local Abbreviation read_datagram := (SlimmeLezer.read_datagram strptime strftime clock).
Local Abbreviation end_line := (SlimmeLezer.end_line strptime strftime clock).
Local Abbreviation is_footer := SlimmeLezer.is_footer.
Local Abbreviation published := (published strftime clock).
Local Abbreviation complete := (complete strptime strftime).
Local Abbreviation orderly := (orderly strptime strftime).
Local Abbreviation init := (SlimmeLezer.init clock).

(** The bounds of the numbers sent, when the state changes in nothing they
    depend on or gets weaker demands. *)
Lemma numbers_weaken (ns : list Z) (c c' : Z) (f f' : bool) :
  (c <= c')%Z -> (f' = true -> (c < c')%Z \/ (c = c' /\ f = true)) ->
  Forall (fun n => (1 <= n <= c)%Z /\ (f = true -> (n < c)%Z)) ns ->
  Forall (fun n => (1 <= n <= c')%Z /\ (f' = true -> (n < c')%Z)) ns.
Proof.
  intros Hc Hf H. eapply List.Forall_impl; [|exact H].
  intros n [Hn Hlt]. split; [lia|].
  intros Hf'. destruct (Hf Hf') as [|[-> ->]]; [lia | now apply Hlt].
Qed.

(** Between two datagrams. *)
Lemma orderly_idle st st' :
  orderly st ->
  first_line_read st' = false -> data_meta st' = ∅ -> data_telegram st' = ∅ ->
  datagram_counter st' = datagram_counter st -> sent st' = sent st ->
  orderly st'.
Proof.
  intros (H0 & _ & _ & ns & Hs & Hi & Hb) Hf Hm Ht Hc Hsent.
  split; [now rewrite Hc|]. split; [now split|].
  split; [intros E; congruence|].
  exists ns. rewrite Hsent, Hc, Hf. split; [exact Hs|]. split; [exact Hi|].
  revert Hb. apply numbers_weaken; [lia|]. intros E. discriminate E.
Qed.

(** Inside a datagram, after a data line. *)
Lemma orderly_field st tel lg :
  orderly st -> first_line_read st = true ->
  data_telegram st !! "header" = tel !! "header" ->
  (forall k, is_Some (tel !! k) -> is_Some (data_telegram st !! k) \/ field_key k) ->
  orderly (set_logged lg (set_data_telegram tel st)).
Proof.
  intros (H0 & _ & Hin & Hsent) Hflr Hh Hk.
  destruct (Hin Hflr) as (H1 & t0 & h & Hmeta & Hhead & Hslash & Hkeys).
  split; [exact H0|]. split; [intros E; cbn in E; congruence|].
  split; [|exact Hsent].
  intros _. split; [exact H1|]. exists t0, h.
  split; [exact Hmeta|]. split; [cbn; congruence|]. split; [exact Hslash|].
  intros k Hs. cbn in Hs. destruct (Hk k Hs) as [Hold|Hnew]; [now apply Hkeys | now right].
Qed.

Lemma insert_field (tel : gmap string pyval) key x k :
  field_key key -> is_Some (<[key := x]> tel !! k) -> is_Some (tel !! k) \/ field_key k.
Proof.
  intros Hkey Hs. destruct (decide (k = key)) as [->|Hne]; [now right|].
  rewrite lookup_insert_ne in Hs by congruence. now left.
Qed.

Lemma step_orderly p line st p' st' :
  orderly st -> step p line st = Ok (p', st') -> orderly st'.
Proof.
  intros Ho H. destruct p as [c n|]; cbn [SlimmeLezer.step] in H.
  - destruct (is_footer line) eqn:Hf.
    + rewrite skip_footer in H by assumption. inversion H; subst. exact Ho.
    + rewrite skip_other in H by assumption. inversion H; subst. exact Ho.
  - destruct line as [|c line].
    { rewrite line_empty in H. inversion H; subst. exact Ho. }
    destruct (first_line_read st) eqn:Hflr.
    + destruct (is_footer (String c line)) eqn:Hf.
      * rewrite line_footer in H by assumption.
        destruct (end_line (String c line) st) as [[u st1]|e] eqn:E; [|discriminate H].
        inversion H; subst.
        apply end_line_inv in E
          as (t0 & Hm & [[Hk ->]|(ts & T & st2 & Hk & Hp & Hper & P & ->)]).
        -- now apply (orderly_idle st).
        -- destruct Ho as (H0 & _ & Hin & ns & Hs & Hi & Hb).
           destruct (Hin Hflr) as (H1 & t0' & h & Hmeta & Hh & Hslash & Hkeys).
           destruct P as (Psent & Ptel & Pmeta & Pflr & _ & _ & Pcnt & _).
           cbn [closing sent data_telegram data_meta datagram_counter first_line_read
                set_data_meta set_ticks set_data_telegram] in Psent, Ptel, Pmeta, Pcnt.
           assert (t0' = t0) as ->.
           { rewrite Hmeta in Hm. rewrite lookup_insert_ne in Hm by discriminate.
             rewrite lookup_insert_eq in Hm. congruence. }
           split; [cbn; lia|]. split; [now split|].
           split; [intros Ec; discriminate Ec|].
           exists (ns ++ [datagram_counter st]).
           cbn [cleared sent datagram_counter first_line_read set_data_telegram
                set_data_meta set_first_line_read].
           rewrite Psent, Pcnt. split; [|split].
           ++ apply Forall2_app; [exact Hs|]. constructor; [|constructor].
              cbn [msg_meta msg_telegram]. rewrite Pmeta, Ptel, Hmeta.
              do 6 eexists. exists h, (drop_first (String c line)), ts.
              cbn [msg_meta msg_telegram].
              split; [reflexivity|].
              split; [now rewrite lookup_insert_ne by discriminate|].
              split; [exact Hslash|].
              split; [apply lookup_insert_eq|].
              split; [now apply footer_checksum|].
              split; [now rewrite lookup_insert_ne by discriminate|].
              split; [exact Hp|].
              intros k Hsome. destruct (decide (k = "checksum")) as [->|Hne]; [auto|].
              rewrite lookup_insert_ne in Hsome by congruence.
              destruct (Hkeys k Hsome); auto.
           ++ apply increasing_snoc; [exact Hi|].
              eapply List.Forall_impl; [|exact Hb]. intros x [_ Hx]. now apply Hx.
           ++ apply Forall_app. split.
              ** revert Hb. apply numbers_weaken; [lia|]. intros Ec. discriminate Ec.
              ** constructor; [|constructor]. split; [lia|]. intros Ec. discriminate Ec.
      * rewrite line_data in H by (assumption || discriminate).
        destruct (SlimmeLezer.parse_line (String c line) st) as [[u st1]|e] eqn:E;
          [|discriminate H].
        inversion H; subst.
        apply parse_line_cases in E
          as [->|(_ & before & tag & after & _ & Ht & [(x & ->)|(x & y & ->)])].
        -- exact Ho.
        -- assert (Hkey : field_key tag) by (exists tag; auto).
           apply (orderly_field st (<[tag := x]> (data_telegram st)) (logged st)) in Ho;
             [| exact Hflr | |].
           ++ destruct st; exact Ho.
           ++ now rewrite lookup_insert_ne by (apply field_key_not_header, Hkey).
           ++ intros k. now apply insert_field.
        -- assert (HA : field_key (tag +:+ ".A")) by (exists tag; auto).
           assert (HB : field_key (tag +:+ ".B")) by (exists tag; auto).
           apply (orderly_field st
                    (<[tag +:+ ".B" := y]> (<[tag +:+ ".A" := x]> (data_telegram st)))
                    (logged st)) in Ho; [| exact Hflr | |].
           ++ destruct st; exact Ho.
           ++ rewrite lookup_insert_ne by (apply field_key_not_header, HB).
              now rewrite lookup_insert_ne by (apply field_key_not_header, HA).
           ++ intros k Hsome. apply insert_field in Hsome as [Hsome|]; [|auto|exact HB].
              now apply insert_field in Hsome.
    + destruct (startswith "/" (String c line)) eqn:Hs.
      * rewrite line_header in H by assumption. inversion H; subst.
        destruct Ho as (H0 & Hout & _ & ns & Hsent & Hi & Hb).
        destruct (Hout Hflr) as [Hmeta Htel].
        split; [cbn; lia|]. split; [intros Ec; discriminate Ec|].
        split.
        -- intros _. split; [cbn; lia|].
           exists (clock (S (ticks st))), (String c line).
           cbn [opened data_meta data_telegram datagram_counter set_first_line_read
                set_data_meta set_ticks set_frame_start_time set_data_telegram
                set_datagram_counter].
           rewrite Hmeta, Htel.
           split; [reflexivity|]. split; [apply lookup_insert_eq|]. split; [exact Hs|].
           intros k Hsome. destruct (decide (k = "header")) as [->|Hne]; [now left|].
           rewrite lookup_insert_ne in Hsome by congruence.
           rewrite lookup_empty in Hsome. now destruct Hsome.
        -- exists ns. split; [exact Hsent|]. split; [exact Hi|].
           cbn [opened first_line_read datagram_counter set_first_line_read
                set_data_meta set_ticks set_frame_start_time set_data_telegram
                set_datagram_counter].
           revert Hb. apply numbers_weaken; [lia|]. intros _. left. lia.
      * rewrite line_missed in H by (assumption || discriminate). inversion H; subst.
        now apply (orderly_idle st).
Qed.

Lemma run_orderly lines :
  forall p st p' st', orderly st -> run p lines st = Ok (p', st') -> orderly st'.
Proof.
  induction lines as [|l lines IH]; intros p st p' st' Ho H.
  - inversion H; subst. exact Ho.
  - cbn [SlimmeLezer.run] in H. unfold mbind, M_bind in H.
    destruct (step p l st) as [[p1 st1]|e] eqn:E; [|discriminate H].
    eapply IH; [|exact H]. eapply step_orderly; eassumption.
Qed.

Lemma read_datagram_orderly skip_count lines st p' st' :
  sent st = [] -> read_datagram skip_count lines st = Ok (p', st') -> orderly st'.
Proof.
  intros Hs. rewrite read_datagram_eq. apply run_orderly.
  split; [cbn; lia|]. split; [now split|]. split; [intros Ec; discriminate Ec|].
  exists []. cbn. rewrite Hs. repeat split; constructor.
Qed.

(** X9. Every message the reader has sent is complete: its meta fields are
    the eight of [process_datagram] and of the frame, and its telegram holds
    the header line that opened the datagram, the four characters after the
    [!] of its footer line, a timestamp that [strptime] reads, and nothing
    else but fields stored from data lines, under a tag or a tag followed by
    [.A] or [.B]; no field is left from an earlier datagram. *)
Theorem messages_are_complete skip_count period lines p st' :
  read_datagram skip_count lines (init period) = Ok (p, st') ->
  Forall (fun m => exists n, complete m n) (sent st').
Proof.
  intros H. apply read_datagram_orderly in H as (_ & _ & _ & ns & Hs & _); [|reflexivity].
  induction Hs as [|m n ms ns Hm _ IH]; constructor; eauto.
Qed.

(** Whatever the lines read, the frame numbers of the messages sent
    increase and lie between 1 and the count of header lines. *)
Lemma frame_numbers_sorted skip_count period lines p st' :
  read_datagram skip_count lines (init period) = Ok (p, st') ->
  exists ns,
    map (fun m => msg_meta m !! "frame-number") (sent st')
    = map (fun n => Some (VInt n)) ns /\
    increasing ns /\
    Forall (fun n => (1 <= n <= datagram_counter st')%Z) ns.
Proof.
  intros H. apply read_datagram_orderly in H as (_ & _ & _ & ns & Hs & Hi & Hb); [|reflexivity].
  exists ns. split; [|split; [exact Hi|]].
  - clear Hi Hb. induction Hs as [|m n ms ns Hm _ IH]; [reflexivity|].
    cbn [map]. rewrite IH. f_equal.
    destruct Hm as (t0 & t1 & T & stamp & drift & t2 & h & c & ts & -> & _).
    unfold meta_fields. now rewrite !lookup_insert_ne by discriminate.
  - eapply List.Forall_impl; [|exact Hb]. now intros n [Hn _].
Qed.

(** A whole datagram read while a header is awaited: the count of header
    lines goes up by one, and the message, when one is sent, carries it. *)
Lemma run_whole_datagram d st p' st' :
  first_line_read st = false -> whole_datagram d ->
  run InLoop d st = Ok (p', st') ->
  p' = InLoop /\ first_line_read st' = false /\
  datagram_counter st' = (datagram_counter st + 1)%Z /\
  ((sent st' = sent st /\ exists lg, logged st' = lg ++ [LogDateKeyMissing]) \/
   exists m,
     sent st' = sent st ++ [m] /\
     msg_meta m !! "frame-number" = Some (VInt (datagram_counter st + 1))).
Proof.
  intros Hflr (header & body & footer & -> & Hh & Hb & Hf) H.
  pose proof H as R.
  change (header :: body ++ [footer]) with ((header :: body) ++ [footer]) in R.
  rewrite run_app in R.
  destruct (run InLoop (header :: body) st) as [[p1 st1]|e] eqn:B; [|discriminate R].
  clear R.
  destruct (run_datagram strptime strftime clock header body footer st p1 st1
              Hflr Hh Hb Hf B) as (-> & (tel & lg & E) & Hrun).
  rewrite Hrun in H.
  destruct (end_line footer st1) as [[u st2]|e] eqn:El; [|discriminate H].
  inversion H; subst p' st2. clear H. split; [reflexivity|].
  apply end_line_inv in El
    as (t0 & Hm & [[Hk ->]|(ts & T & st3 & Hk & Hp & Hper & P & ->)]).
  - split; [reflexivity|]. split; [subst st1; reflexivity|].
    left. split; [subst st1; reflexivity|]. eexists. reflexivity.
  - destruct P as (Psent & _ & Pmeta & _ & _ & _ & Pcount & _).
    split; [reflexivity|].
    split; [cbn [cleared datagram_counter set_data_telegram set_data_meta
                 set_first_line_read]; rewrite Pcount; subst st1; reflexivity|].
    right. eexists. split.
    + cbn [cleared sent set_data_telegram set_data_meta set_first_line_read].
      rewrite Psent. subst st1. reflexivity.
    + cbn [msg_meta]. rewrite Pmeta. rewrite !lookup_insert_ne by discriminate.
      subst st1. cbn. rewrite !lookup_insert_ne by discriminate.
      apply lookup_insert_eq.
Qed.

Lemma run_whole_datagrams ds :
  forall st rest p' st',
    first_line_read st = false -> Forall whole_datagram ds ->
    run InLoop (concat ds ++ rest) st = Ok (p', st') ->
    exists st1,
      run InLoop (concat ds) st = Ok (InLoop, st1) /\
      first_line_read st1 = false /\
      datagram_counter st1 = (datagram_counter st + Z.of_nat (length ds))%Z /\
      run InLoop rest st1 = Ok (p', st').
Proof.
  induction ds as [|d ds IH]; intros st rest p' st' Hflr Hds H.
  - exists st. cbn [concat length app] in *. rewrite Z.add_0_r. auto.
  - inversion Hds as [|? ? Hd Hds']; subst.
    cbn [concat] in H |- *. rewrite <- app_assoc, run_app in H. rewrite run_app.
    destruct (run InLoop d st) as [[p1 st1]|e] eqn:D; [|discriminate H].
    destruct (run_whole_datagram d st p1 st1 Hflr Hd D) as (-> & Hflr1 & Hc & _).
    destruct (IH st1 rest p' st' Hflr1 Hds' H) as (st2 & R & Hflr2 & Hc2 & H2).
    exists st2. split; [exact R|]. split; [exact Hflr2|]. split; [|exact H2].
    cbn [length]. lia.
Qed.

(** X10. The frame number of a message is the count of header lines read
    when its datagram began. In a stream of whole datagrams read while a
    header is awaited, each datagram raises the count by one, and the last
    of them, the one after [k] others, is sent with the number [k + 1]
    above the count at the start, or is not sent at all (it has no
    timestamp, which is logged): the number does not depend on how many of
    the datagrams before it were sent. Whatever the lines read from the
    start, the frame numbers of the messages sent increase and lie between
    1 and the count of header lines. *)
Theorem frame_numbers_count_headers :
  (forall ds d st p' st',
     first_line_read st = false ->
     Forall whole_datagram ds -> whole_datagram d ->
     run InLoop (concat ds ++ d) st = Ok (p', st') ->
     exists st1,
       run InLoop (concat ds) st = Ok (InLoop, st1) /\
       p' = InLoop /\
       datagram_counter st' = (datagram_counter st + Z.of_nat (length ds) + 1)%Z /\
       ((sent st' = sent st1 /\ exists lg, logged st' = lg ++ [LogDateKeyMissing]) \/
        exists m,
          sent st' = sent st1 ++ [m] /\
          msg_meta m !! "frame-number"
          = Some (VInt (datagram_counter st + Z.of_nat (length ds) + 1)))) /\
  (forall skip_count period lines p st',
     read_datagram skip_count lines (init period) = Ok (p, st') ->
     exists ns,
       map (fun m => msg_meta m !! "frame-number") (sent st')
       = map (fun n => Some (VInt n)) ns /\
       increasing ns /\
       Forall (fun n => (1 <= n <= datagram_counter st')%Z) ns).
Proof.
  split; [|exact frame_numbers_sorted].
  intros ds d st p' st' Hflr Hds Hd H.
  destruct (run_whole_datagrams ds st d p' st' Hflr Hds H) as (st1 & R & Hflr1 & Hc & H1).
  destruct (run_whole_datagram d st1 p' st' Hflr1 Hd H1) as (-> & _ & Hc1 & Hm).
  exists st1. rewrite <- Hc. auto.
Qed.

(** ** A resync period of zero, a skip count below one *)

Lemma step_silent p line st p' st' :
  timesync_period st = 0%Z -> step p line st = Ok (p', st') ->
  sent st' = sent st /\ timesync_period st' = 0%Z.
Proof.
  intros Hz H.
  destruct (step_inv strptime strftime clock p line st p' st' H)
    as [(Hs & _ & Hp & _)|(t0 & T & st2 & -> & Hflr & Hf & P & ->)].
  - split; [exact Hs | congruence].
  - cbn [SlimmeLezer.step] in H. rewrite line_footer in H by assumption.
    destruct (end_line line st) as [[u st1]|e] eqn:E; [|discriminate H].
    injection H as _ Hst.
    apply end_line_inv in E
      as (t1 & Hm & [[Hk ->]|(ts & T' & st3 & Hk & Hp & Hper & _)]); [|contradiction].
    rewrite <- Hst. split; [reflexivity | exact Hz].
Qed.

Lemma run_silent lines :
  forall p st p' st',
    timesync_period st = 0%Z -> run p lines st = Ok (p', st') -> sent st' = sent st.
Proof.
  induction lines as [|l lines IH]; intros p st p' st' Hz H.
  - now inversion H.
  - cbn [SlimmeLezer.run] in H. unfold mbind, M_bind in H.
    destruct (step p l st) as [[p1 st1]|e] eqn:E; [|discriminate H].
    destruct (step_silent _ _ _ _ _ Hz E) as [Hs Hz1].
    rewrite <- Hs. now apply (IH p1 st1 p' st').
Qed.

Lemma process_datagram_zero st ts T :
  data_telegram st !! TIMESTAMP_KEY = Some (VStr ts) ->
  strptime (replace_char "W" "CET" (replace_char "S" "CEST" ts)) = Some T ->
  timesync_period st = 0%Z ->
  SlimmeLezer.process_datagram strptime strftime clock st = Raise ZeroDivisionError.
Proof.
  intros Hk Hp Hz. unfold SlimmeLezer.process_datagram. unfold_m.
  rewrite Hk, Hp. simpl. rewrite Hz. reflexivity.
Qed.

Lemma end_line_zero line st t0 ts T :
  data_meta st !! "frame-start-time" = Some (VMicro t0) ->
  data_telegram st !! TIMESTAMP_KEY = Some (VStr ts) ->
  strptime (replace_char "W" "CET" (replace_char "S" "CEST" ts)) = Some T ->
  timesync_period st = 0%Z ->
  end_line line st = Raise ZeroDivisionError.
Proof.
  intros Hm Hk Hp Hz.
  pose proof (process_datagram_zero (closing line t0 (clock (ticks st)) st) ts T) as E.
  unfold SlimmeLezer.end_line. unfold_m. simpl.
  rewrite lookup_insert_ne by discriminate. rewrite Hm. simpl.
  rewrite lookup_insert_ne by discriminate. rewrite Hk.
  match goal with
  | |- context [SlimmeLezer.process_datagram _ _ _ ?s] =>
      change s with (closing line t0 (clock (ticks st)) st)
  end.
  rewrite E; [reflexivity | | exact Hp | exact Hz].
  simpl. rewrite lookup_insert_ne by discriminate. exact Hk.
Qed.

(** X11. With a resync period of zero the reader never sends a message: a
    datagram without a timestamp is dropped as ever, and the footer line of
    a datagram whose timestamp [strptime] reads raises [ZeroDivisionError],
    which ends the reader. *)
Theorem zero_period_sends_nothing :
  (forall skip_count lines p st',
     read_datagram skip_count lines (init 0) = Ok (p, st') -> sent st' = []) /\
  (forall st header body footer p1 st1 ts T,
     timesync_period st = 0%Z ->
     first_line_read st = false -> startswith "/" header = true ->
     Forall (fun l => is_footer l = false) body -> is_footer footer = true ->
     run InLoop (header :: body) st = Ok (p1, st1) ->
     data_telegram st1 !! TIMESTAMP_KEY = Some (VStr ts) ->
     strptime (replace_char "W" "CET" (replace_char "S" "CEST" ts)) = Some T ->
     run InLoop (header :: body ++ [footer]) st = Raise ZeroDivisionError).
Proof.
  split.
  - intros skip_count lines p st' H. rewrite read_datagram_eq in H.
    now apply run_silent in H.
  - intros st header body footer p1 st1 ts T Hz Hflr Hh Hb Hf H0 Hk Hp.
    destruct (run_datagram strptime strftime clock header body footer st p1 st1
                Hflr Hh Hb Hf H0) as (-> & (tel & lg & E) & ->).
    assert (Hz1 : timesync_period st1 = 0%Z) by (subst st1; exact Hz).
    assert (Hm : data_meta st1 !! "frame-start-time"
                 = Some (VMicro (clock (S (ticks st))))).
    { subst st1. simpl. rewrite lookup_insert_ne by discriminate. apply lookup_insert_eq. }
    now rewrite (end_line_zero footer st1 _ ts T Hm Hk Hp Hz1).
Qed.

(** X12. A skip count of one or less skips one datagram all the same: the
    lines up to the first footer line, and that line, are discarded
    whatever they are, and reading starts with the line that follows. *)
Theorem skip_count_below_one skip_count d lines st :
  (skip_count <= 1)%Z -> footer_delimited d ->
  read_datagram skip_count (d ++ lines) st
  = run InLoop lines
      (set_logged (logged st ++ [LogSkipping 1 skip_count])
         (cleared (set_datagram_counter 0 st))).
Proof.
  intros Hc Hd. rewrite read_datagram_eq, run_app, run_skip_group by exact Hd.
  destruct (Z.leb_spec skip_count (0 + 1)) as [_|Hlt]; [reflexivity | lia].
Qed.

(** ** The times of a message *)

Lemma step_timed p line st p' st' :
  timed clock st -> step p line st = Ok (p', st') -> timed clock st'.
Proof.
  intros [Hin Hs] H. destruct p as [c n|]; cbn [SlimmeLezer.step] in H.
  - destruct (is_footer line) eqn:Hf.
    + rewrite skip_footer in H by assumption. inversion H; subst. now split.
    + rewrite skip_other in H by assumption. inversion H; subst. now split.
  - destruct line as [|c line].
    { rewrite line_empty in H. inversion H; subst. now split. }
    destruct (first_line_read st) eqn:Hflr.
    + destruct (Hin eq_refl) as (i & Hi & Hstart).
      destruct (is_footer (String c line)) eqn:Hf.
      * rewrite line_footer in H by assumption.
        destruct (end_line (String c line) st) as [[u st1]|e] eqn:E; [|discriminate H].
        inversion H; subst.
        apply end_line_inv in E
          as (t0 & Hm & [[Hk ->]|(ts & T & st2 & Hk & Hp & Hper & P & ->)]).
        -- split; [intros Ec; discriminate Ec | exact Hs].
        -- split; [intros Ec; discriminate Ec|].
           destruct P as (Psent & _ & Pmeta & _ & _ & _ & _ & Pticks).
           cbn [closing sent data_meta ticks set_data_meta set_ticks set_data_telegram]
             in Psent, Pmeta, Pticks.
           cbn [cleared sent set_data_telegram set_data_meta set_first_line_read].
           rewrite Psent. apply Forall_app. split; [exact Hs|].
           constructor; [|constructor].
           assert (t0 = clock i) as -> by congruence.
           exists i, (ticks st), (pred (ticks st2)). cbn [msg_meta]. rewrite Pmeta.
           split; [exact Hi|].
           split; [destruct Pticks as [(_ & _ & -> & _)|(_ & fs & _ & _ & _ & _ & _ & -> & _)];
                   cbn; lia|].
           repeat split;
             repeat first [rewrite lookup_insert_eq
                          | rewrite lookup_insert_ne by discriminate];
             first [reflexivity | exact Hstart].
      * rewrite line_data in H by (assumption || discriminate).
        destruct (SlimmeLezer.parse_line (String c line) st) as [[u st1]|e] eqn:E;
          [|discriminate H].
        inversion H; subst.
        apply parse_line_inv in E as (tel & lg & ->).
        split; [|exact Hs]. intros _. exists i. now split.
    + destruct (startswith "/" (String c line)) eqn:Hsl.
      * rewrite line_header in H by assumption. inversion H; subst.
        split; [|exact Hs]. intros _. exists (S (ticks st)).
        cbn [opened ticks data_meta set_first_line_read set_data_meta set_ticks
             set_frame_start_time set_data_telegram set_datagram_counter].
        split; [lia|]. rewrite lookup_insert_ne by discriminate. apply lookup_insert_eq.
      * rewrite line_missed in H by (assumption || discriminate). inversion H; subst.
        split; [intros Ec; discriminate Ec | exact Hs].
Qed.

Lemma run_timed lines :
  forall p st p' st', timed clock st -> run p lines st = Ok (p', st') -> timed clock st'.
Proof.
  induction lines as [|l lines IH]; intros p st p' st' Ho H.
  - inversion H; subst. exact Ho.
  - cbn [SlimmeLezer.run] in H. unfold mbind, M_bind in H.
    destruct (step p l st) as [[p1 st1]|e] eqn:E; [|discriminate H].
    eapply IH; [|exact H]. eapply step_timed; eassumption.
Qed.

(** X13. The three times of every message sent ([frame-start-time],
    [frame-end-time], [current-time]) are three readings of the clock, taken
    one after the other in this order. With a clock that does not go back
    the times of a message are therefore in order. *)
Theorem message_times_in_order skip_count period lines p st' :
  read_datagram skip_count lines (init period) = Ok (p, st') ->
  Forall (taken_in_order clock) (sent st') /\
  ((forall a b, a <= b -> (clock a <= clock b)%Z) ->
   Forall (fun m =>
     exists t0 t1 t2,
       msg_meta m !! "frame-start-time" = Some (VMicro t0) /\
       msg_meta m !! "frame-end-time" = Some (VMicro t1) /\
       msg_meta m !! "current-time" = Some (VMicro t2) /\
       (t0 <= t1 <= t2)%Z) (sent st')).
Proof.
  intros H. rewrite read_datagram_eq in H.
  apply run_timed in H as [_ Hs]; [|split; [intros Ec; discriminate Ec | constructor]].
  split; [exact Hs|]. intros Hmono.
  eapply List.Forall_impl; [|exact Hs].
  intros m (i & j & k & Hij & Hjk & E0 & E1 & E2).
  exists (clock i), (clock j), (clock k).
  pose proof (Hmono i j ltac:(lia)). pose proof (Hmono j k ltac:(lia)).
  repeat split; assumption.
Qed.

(** ** The exceptions that end the reader *)

Lemma parse_line_raises line st e :
  SlimmeLezer.parse_line line st = Raise e -> e = ValueError \/ e = OverflowError.
Proof.
  unfold SlimmeLezer.parse_line. unfold_m. intros H.
  destruct (re_search P1_MORE_THAN_TWO_VALUES_RGX line) as [m|].
  { destruct (parse_p1_value (group "value" m)) eqn:E1;
      [|inversion H; subst; now apply parse_p1_value_raises in E1].
    destruct (parse_p1_value (group "value2" m)) eqn:E2;
      [discriminate H | inversion H; subst; now apply parse_p1_value_raises in E2]. }
  destruct (re_search P1_TWO_VALUES_RGX line) as [m|].
  { destruct (parse_p1_value (group "value1" m)) eqn:E1;
      [|inversion H; subst; now apply parse_p1_value_raises in E1].
    destruct (parse_p1_value (group "value2" m)) eqn:E2;
      [discriminate H | inversion H; subst; now apply parse_p1_value_raises in E2]. }
  destruct (re_search P1_ONE_VALUE_RGX line) as [m|]; [|discriminate H].
  destruct (parse_p1_value (group "value" m)) eqn:E1;
    [discriminate H | inversion H; subst; now apply parse_p1_value_raises in E1].
Qed.

Lemma process_datagram_raises st e fs :
  frame_start_time st = Some fs ->
  SlimmeLezer.process_datagram strptime strftime clock st = Raise e -> unusable strptime st e.
Proof.
  intros Hfs H.
  destruct (data_telegram st !! TIMESTAMP_KEY) as [v|] eqn:Hk.
  2:{ rewrite (process_datagram_missing strptime strftime clock st Hk) in H.
      discriminate H. }
  destruct v as [n|x|ts|us].
  1,2,4: left; eexists; split; [exact Hk|]; split; [intros ts E; discriminate E|];
    unfold SlimmeLezer.process_datagram in H; unfold_m; rewrite Hk in H;
    simpl in H; congruence.
  right.
  destruct (strptime (replace_char "W" "CET" (replace_char "S" "CEST" ts))) as [T|] eqn:Hp.
  - right. exists ts, T.
    destruct (Z.eq_dec (timesync_period st) 0%Z) as [Hz|Hz].
    + rewrite (process_datagram_zero st ts T Hk Hp Hz) in H. inversion H; subst. auto.
    + destruct (process_datagram_publishes strptime strftime clock st ts T fs
                  Hk Hp Hz Hfs) as (st2 & E & _).
      rewrite E in H. discriminate H.
  - left. exists ts. split; [exact Hk|]. split; [exact Hp|].
    unfold SlimmeLezer.process_datagram in H. unfold_m. rewrite Hk, Hp in H.
    simpl in H. congruence.
Qed.

Lemma end_line_raises line st e :
  framed st -> first_line_read st = true ->
  end_line line st = Raise e -> unusable strptime st e.
Proof.
  intros Hfr Hflr H. destruct (Hfr Hflr) as ((t0 & Hm) & (fs & Hfs)).
  destruct (data_telegram st !! TIMESTAMP_KEY) as [v|] eqn:Hk.
  2:{ rewrite (end_line_drops strptime strftime clock line st t0 Hm Hk) in H.
      discriminate H. }
  unfold SlimmeLezer.end_line in H. unfold_m. simpl in H.
  rewrite lookup_insert_ne in H by discriminate. rewrite Hm in H. simpl in H.
  rewrite lookup_insert_ne in H by discriminate. rewrite Hk in H.
  match type of H with
  | context [SlimmeLezer.process_datagram _ _ _ ?s] =>
      change s with (closing line t0 (clock (ticks st)) st) in H
  end.
  destruct (SlimmeLezer.process_datagram strptime strftime clock
              (closing line t0 (clock (ticks st)) st)) as [[u st2]|e2] eqn:E;
    [discriminate H|].
  inversion H; subst e2.
  apply (process_datagram_raises _ _ fs) in E; [|exact Hfs].
  unfold unusable in E |- *.
  cbn [closing data_telegram timesync_period set_data_meta set_ticks set_data_telegram] in E.
  rewrite !lookup_insert_ne in E by discriminate. exact E.
Qed.

(** X14. What a line can do, up to the hand-over of a message to [sendto];
    a failure of [sendto] itself is not part of the statement. A line that
    the reader returns from has handed nothing over, or, for a footer line
    inside a datagram, one message. A line raises before anything is handed
    over in these cases only: nothing raises while datagrams are skipped or
    a header is awaited, nor on an empty line; inside a datagram a data line
    raises [ValueError] or [OverflowError] only (the conversion of a value);
    a footer line raises [AttributeError] when the field [0-0:1.0.0] is not
    a string, [ValueError] when [strptime] does not read it,
    [ZeroDivisionError] when it does and the resync period is zero, and
    nothing else. *)
Theorem exceptions_of_the_reader skip_count period lines p st line :
  read_datagram skip_count lines (init period) = Ok (p, st) ->
  match step p line st with
  | Ok (p', st') =>
      sent st' = sent st \/
      (p = InLoop /\ first_line_read st = true /\ is_footer line = true /\
       exists m, sent st' = sent st ++ [m])
  | Raise e =>
      p = InLoop /\ first_line_read st = true /\ line <> "" /\
      ((is_footer line = false /\ (e = ValueError \/ e = OverflowError)) \/
       (is_footer line = true /\ unusable strptime st e))
  end.
Proof.
  intros Hrun. apply read_datagram_framed in Hrun as Hfr.
  destruct (step p line st) as [[p' st']|e] eqn:H.
  { destruct (step_inv strptime strftime clock p line st p' st' H)
      as [(Hs & _)|(t0 & T & st2 & -> & Hflr & Hf & P & ->)]; [now left|].
    right. split; [reflexivity|]. split; [exact Hflr|]. split; [exact Hf|].
    destruct P as (Psent & _). eexists.
    cbn [cleared sent set_data_telegram set_data_meta set_first_line_read].
    rewrite Psent. reflexivity. }
  destruct p as [c n|]; cbn [SlimmeLezer.step] in H.
  { destruct (is_footer line) eqn:Hf.
    - rewrite skip_footer in H by assumption. discriminate H.
    - rewrite skip_other in H by assumption. discriminate H. }
  split; [reflexivity|].
  destruct line as [|c line]; [rewrite line_empty in H; discriminate H|].
  destruct (first_line_read st) eqn:Hflr.
  2:{ destruct (startswith "/" (String c line)) eqn:Hs.
      - rewrite line_header in H by assumption. discriminate H.
      - rewrite line_missed in H by (assumption || discriminate). discriminate H. }
  split; [reflexivity|]. split; [discriminate|].
  destruct (is_footer (String c line)) eqn:Hf.
  - right. split; [reflexivity|].
    rewrite line_footer in H by assumption.
    destruct (end_line (String c line) st) as [[u st1]|e1] eqn:E; [discriminate H|].
    inversion H; subst. now apply (end_line_raises (String c line)).
  - left. split; [reflexivity|].
    rewrite line_data in H by (assumption || discriminate).
    destruct (SlimmeLezer.parse_line (String c line) st) as [[u st1]|e1] eqn:E;
      [discriminate H|].
    inversion H; subst. now apply parse_line_raises in E.
Qed.

End Orderly.

(** ** The telegram of a message *)

Lemma parse_line_same line st1 st2 :
  data_telegram st1 = data_telegram st2 ->
  match SlimmeLezer.parse_line line st1, SlimmeLezer.parse_line line st2 with
  | Ok (_, st1'), Ok (_, st2') => data_telegram st1' = data_telegram st2'
  | Raise e1, Raise e2 => e1 = e2
  | _, _ => False
  end.
Proof.
  intros E. unfold SlimmeLezer.parse_line. unfold_m.
  destruct (re_search P1_MORE_THAN_TWO_VALUES_RGX line) as [m|].
  { destruct (parse_p1_value (group "value" m)); [|reflexivity].
    destruct (parse_p1_value (group "value2" m)); [|reflexivity].
    cbn. now rewrite E. }
  destruct (re_search P1_TWO_VALUES_RGX line) as [m|].
  { destruct (parse_p1_value (group "value1" m)); [|reflexivity].
    destruct (parse_p1_value (group "value2" m)); [|reflexivity].
    cbn. now rewrite E. }
  destruct (re_search P1_ONE_VALUE_RGX line) as [m|].
  { destruct (parse_p1_value (group "value" m)); [|reflexivity].
    cbn. now rewrite E. }
  cbn. exact E.
Qed.

Section Telegram.

Variable strptime : string -> option Z.
Variable strftime : Z -> string.
Variable clock1 clock2 : nat -> Z.

Local Abbreviation run1 := (SlimmeLezer.run strptime strftime clock1).
Local Abbreviation run2 := (SlimmeLezer.run strptime strftime clock2).
Local Abbreviation is_footer := SlimmeLezer.is_footer.

Lemma run_body_same body :
  forall st1 st2 p1 p2 st1' st2',
    first_line_read st1 = true -> first_line_read st2 = true ->
    data_telegram st1 = data_telegram st2 ->
    Forall (fun l => is_footer l = false) body ->
    run1 InLoop body st1 = Ok (p1, st1') -> run2 InLoop body st2 = Ok (p2, st2') ->
    data_telegram st1' = data_telegram st2'.
Proof.
  induction body as [|l body IH]; intros st1 st2 p1 p2 st1' st2' F1 F2 E Hb H1 H2.
  - inversion H1; inversion H2; subst. exact E.
  - inversion Hb as [|? ? Hl Hb']; subst.
    cbn [SlimmeLezer.run SlimmeLezer.step] in H1, H2. unfold mbind, M_bind in H1, H2.
    destruct l as [|c l].
    { rewrite line_empty in H1, H2. now apply (IH st1 st2 p1 p2 st1' st2'). }
    rewrite line_data in H1, H2 by (assumption || discriminate).
    pose proof (parse_line_same (String c l) st1 st2 E) as S.
    destruct (SlimmeLezer.parse_line (String c l) st1) as [[u1 a]|e1] eqn:P1;
      [|discriminate H1].
    destruct (SlimmeLezer.parse_line (String c l) st2) as [[u2 b]|e2] eqn:P2;
      [|discriminate H2].
    apply parse_line_inv in P1 as (tel1 & lg1 & ->).
    apply parse_line_inv in P2 as (tel2 & lg2 & ->).
    exact (IH (set_logged lg1 (set_data_telegram tel1 st1))
             (set_logged lg2 (set_data_telegram tel2 st2)) p1 p2 st1' st2'
             F1 F2 S Hb' H1 H2).
Qed.

Lemma not_own_tail {A : Type} (l : list A) (x : A) : l <> l ++ [x].
Proof.
  intros E. apply (f_equal (@length A)) in E. rewrite length_app in E. cbn in E. lia.
Qed.

(** The telegram of the message that the footer line of a datagram sends. *)
Lemma sent_telegram clock header body footer st p1 st1 p' st' m :
  first_line_read st = false -> startswith "/" header = true ->
  Forall (fun l => is_footer l = false) body -> is_footer footer = true ->
  SlimmeLezer.run strptime strftime clock InLoop (header :: body) st = Ok (p1, st1) ->
  SlimmeLezer.run strptime strftime clock InLoop (header :: body ++ [footer]) st
  = Ok (p', st') ->
  sent st' = sent st ++ [m] ->
  msg_telegram m = <["checksum" := VStr (drop_first footer)]> (data_telegram st1).
Proof.
  intros Hflr Hh Hb Hf H0 H Hs.
  destruct (run_datagram strptime strftime clock header body footer st p1 st1
              Hflr Hh Hb Hf H0) as (-> & (tel & lg & E) & Hrun).
  rewrite Hrun in H.
  destruct (SlimmeLezer.end_line strptime strftime clock footer st1)
    as [[u st2]|e] eqn:El; [|discriminate H].
  inversion H; subst p' st2. clear H.
  apply end_line_inv in El
    as (t0 & Hm & [[Hk ->]|(ts & T & st3 & Hk & Hp & Hper & P & ->)]).
  - exfalso. subst st1. cbn in Hs. now apply not_own_tail in Hs.
  - destruct P as (Psent & Ptel & _).
    cbn [cleared sent set_data_telegram set_data_meta set_first_line_read] in Hs.
    rewrite Psent in Hs.
    cbn [closing sent data_telegram set_data_meta set_ticks set_data_telegram] in Hs, Ptel.
    replace (sent st1) with (sent st) in Hs by (subst st1; reflexivity).
    apply app_inv_head in Hs. inversion Hs; subst m. cbn [msg_telegram]. exact Ptel.
Qed.

(** X15. The telegram of a message is that of its datagram alone: two
    readers that await a header with nothing in store, whatever they have
    read before and whatever their clocks, and that are given the same
    datagram, send messages with the same telegram. *)
Theorem telegram_of_a_datagram header body footer st1 st2 p1 p2 st1' st2' m1 m2 :
  first_line_read st1 = false -> data_telegram st1 = ∅ ->
  first_line_read st2 = false -> data_telegram st2 = ∅ ->
  startswith "/" header = true ->
  Forall (fun l => is_footer l = false) body -> is_footer footer = true ->
  run1 InLoop (header :: body ++ [footer]) st1 = Ok (p1, st1') ->
  run2 InLoop (header :: body ++ [footer]) st2 = Ok (p2, st2') ->
  sent st1' = sent st1 ++ [m1] -> sent st2' = sent st2 ++ [m2] ->
  msg_telegram m1 = msg_telegram m2.
Proof.
  intros F1 T1 F2 T2 Hh Hb Hf H1 H2 S1 S2.
  change (header :: body ++ [footer]) with ((header :: body) ++ [footer]) in H1, H2.
  pose proof H1 as R1. pose proof H2 as R2.
  rewrite run_app in R1, R2.
  destruct (run1 InLoop (header :: body) st1) as [[q1 a]|e1] eqn:B1; [|discriminate R1].
  destruct (run2 InLoop (header :: body) st2) as [[q2 b]|e2] eqn:B2; [|discriminate R2].
  rewrite (sent_telegram clock1 header body footer st1 q1 a p1 st1' m1) by assumption.
  rewrite (sent_telegram clock2 header body footer st2 q2 b p2 st2' m2) by assumption.
  f_equal.
  cbn [SlimmeLezer.run SlimmeLezer.step] in B1, B2. unfold mbind, M_bind in B1, B2.
  rewrite line_header in B1, B2 by assumption.
  eapply (run_body_same body); [| | |exact Hb|exact B1|exact B2];
    [reflexivity|reflexivity|].
  cbn. now rewrite T1, T2.
Qed.

End Telegram.

(** ** The statements on the sample installation *)

Import Installation.

Lemma lines_depend_on_text_received_witness :
  exists lines1 lines2 c1 c2 left1 left2,
    SlimmeLezer.read_lines always 3 cut_by_line (SlimmeLezer.connect always) = Returned (lines1, c1, left1) /\
    SlimmeLezer.read_lines flaky 3 cut_anywhere (SlimmeLezer.connect flaky) = Returned (lines2, c2, left2) /\
    lines1 = [header; "1-0:1.7.0(00.424*kW)"; "!A1B2"] /\
    lines1 = lines2 /\
    slimmelezer_buffer c1 +:+ payload left1 = slimmelezer_buffer c2 +:+ payload left2.
Proof.
  do 6 eexists.
  split; [by_eval|]. split; [by_eval|]. split; [reflexivity|].
  apply (lines_depend_on_text_received always flaky 3 cut_by_line cut_anywhere
           (SlimmeLezer.connect always) (SlimmeLezer.connect flaky)); by_eval.
Defined.

Lemma reconnects_after_failures_witness :
  exists lines c' incoming' consumed,
    SlimmeLezer.read_lines flaky 3 cut_anywhere (SlimmeLezer.connect flaky) = Returned (lines, c', incoming') /\
    cut_anywhere = consumed ++ incoming' /\
    failures consumed = 2 /\
    opened_sockets c' = 3 /\
    seconds_slept (actions c') = 31%Z /\
    sleep_open_p1_connection c' = 15%Z /\
    payload consumed = join_lines lines +:+ slimmelezer_buffer c'.
Proof.
  destruct (reconnects_after_failures flaky 3 cut_anywhere
              [header; "1-0:1.7.0(00.424*kW)"; "!A1B2"]
              (Connection "/ISK5" 15 3
                 (actions (SlimmeLezer.connect flaky)
                  ++ [LogTimeout; Close; LogWaiting 15; Sleep 15; Connect false;
                      LogOpenError; Close; LogOpened;
                      LogReadError; Close; LogWaiting 15; Sleep 15; Connect true;
                      LogOpened]))
              []) as (consumed & E & H1 & H2 & H3 & H4).
  - by_eval.
  - do 3 eexists. exists consumed. split; [by_eval|].
    assert (consumed = cut_anywhere) as -> by (rewrite app_nil_r in E; now symmetry).
    split; [now rewrite app_nil_r|]. split; [reflexivity|].
    split; [exact H1|]. split; [exact H2|]. split; [exact H3 | exact H4].
Defined.

Lemma path_constructor_expands_witness :
  Forall (simple environ) log_file /\
  str_concat (map written log_file) = "${HOME}/log/${P1_HOST}-${USER}.log" /\
  path_constructor environ "${HOME}/log/${P1_HOST}-${USER}.log"
  = "/home/p1/log/10.0.0.2-USER.log".
Proof.
  assert (H : Forall (simple environ) log_file)
    by (repeat constructor; reflexivity).
  split; [exact H|]. split; [reflexivity|].
  exact (path_constructor_expands environ log_file H).
Defined.

Lemma default_config_file_of_script_witness :
  default_config_file "/opt/p1/bin/p1-slimmelezer.py" = "/opt/p1/etc/p1-slimmelezer.yml".
Proof.
  apply (default_config_file_of_script "/opt/p1" "p1-slimmelezer"); reflexivity.
Defined.

Lemma get_config_value_outcomes_witness :
  get_config_value (YDict CONFIG) "slimmelezer" "timesync_period" to_int 86400%Z
  = Ok (3600%Z, []) /\
  get_config_value (YDict CONFIG) "slimmelezer" "skip_count" to_int 10%Z
  = Ok (10%Z, [KeyMissing "skip_count" "slimmelezer"]) /\
  get_config_value YNone "slimmelezer" "skip_count" to_int 10%Z = Raise TypeError /\
  exists d c v,
    YDict CONFIG = YDict d /\ d !! "slimmelezer" = Some (YDict c) /\
    c !! "timesync_period" = Some v /\ to_int v = Ok 3600%Z.
Proof.
  assert (E : get_config_value (YDict CONFIG) "slimmelezer" "timesync_period" to_int 86400%Z
              = Ok (3600%Z, [])) by by_eval.
  split; [exact E|]. split; [by_eval|]. split; [reflexivity|].
  pose proof (get_config_value_outcomes (YDict CONFIG) "slimmelezer" "timesync_period"
                to_int 86400%Z) as H.
  rewrite E in H. destruct H as [(H & _)|[(H & _)|(_ & H)]];
    [discriminate H | discriminate H | exact H].
Defined.

Lemma parse_line_stores_witness :
  exists st',
    SlimmeLezer.parse_line "1-0:1.7.0(00.424*kW)" (in_datagram "1-3:0.2.8(50)")
    = Ok (tt, st') /\
    ((st' = set_logged (logged (in_datagram "1-3:0.2.8(50)")
                        ++ [LogNotParsed "1-0:1.7.0(00.424*kW)"])
              (in_datagram "1-3:0.2.8(50)") /\
      data_telegram st' = data_telegram (in_datagram "1-3:0.2.8(50)")) \/
     (closed "1-0:1.7.0(00.424*kW)" /\
      logged st' = logged (in_datagram "1-3:0.2.8(50)") /\
      exists before tag after,
        "1-0:1.7.0(00.424*kW)" = before +:+ tag +:+ "(" +:+ after /\ is_tag tag /\
        ((exists x,
            data_telegram st' = <[tag := x]> (data_telegram (in_datagram "1-3:0.2.8(50)"))) \/
         (exists x y,
            data_telegram st'
            = <[tag +:+ ".B" := y]>
                (<[tag +:+ ".A" := x]> (data_telegram (in_datagram "1-3:0.2.8(50)"))))))).
Proof.
  eexists. split; [by_eval|].
  apply (parse_line_stores "1-0:1.7.0(00.424*kW)" (in_datagram "1-3:0.2.8(50)") tt).
  by_eval.
Defined.

Lemma text_before_the_tag_witness :
  SlimmeLezer.parse_line (" >" +:+ "1-0:1.7.0(00.424*kW)") (in_datagram "1-3:0.2.8(50)")
  = SlimmeLezer.parse_line "1-0:1.7.0(00.424*kW)" (in_datagram "1-3:0.2.8(50)") \/
  (SlimmeLezer.parse_line "1-0:1.7.0(00.424*kW)" (in_datagram "1-3:0.2.8(50)")
   = Ok (tt, set_logged (logged (in_datagram "1-3:0.2.8(50)")
                         ++ [LogNotParsed "1-0:1.7.0(00.424*kW)"])
               (in_datagram "1-3:0.2.8(50)")) /\
   SlimmeLezer.parse_line (" >" +:+ "1-0:1.7.0(00.424*kW)") (in_datagram "1-3:0.2.8(50)")
   = Ok (tt, set_logged (logged (in_datagram "1-3:0.2.8(50)")
                         ++ [LogNotParsed (" >" +:+ "1-0:1.7.0(00.424*kW)")])
               (in_datagram "1-3:0.2.8(50)"))).
Proof.
  apply (text_before_the_tag " >" "1-0:1.7.0(00.424*kW)" (in_datagram "1-3:0.2.8(50)")).
  reflexivity.
Defined.

Lemma messages_are_complete_witness :
  length (sent (final (SlimmeLezer.init clock_2022 86400)
                  (reader clock_2022 1 two_in_a_row 86400))) = 2 /\
  Forall (fun m => exists n, complete strptime_cet strftime_ymd_hms m n)
    (sent (final (SlimmeLezer.init clock_2022 86400)
             (reader clock_2022 1 two_in_a_row 86400))).
Proof.
  split; [by_eval|].
  apply (messages_are_complete strptime_cet strftime_ymd_hms clock_2022
           1%Z 86400%Z two_in_a_row InLoop).
  by_eval.
Defined.

Lemma undated_whole : whole_datagram undated.
Proof.
  exists header, ["1-0:1.7.0(00.424*kW)"; "1-0:32.7.0(230.1*V)"], "!E5F6".
  split; [reflexivity|]. split; [reflexivity|]. split; [repeat constructor | reflexivity].
Defined.

Lemma datagram_whole timestamp : whole_datagram (datagram timestamp "!A1B2").
Proof.
  exists header, (body timestamp), "!A1B2".
  split; [reflexivity|]. split; [reflexivity|]. split; [repeat constructor | reflexivity].
Defined.

Lemma third_whole : whole_datagram third.
Proof.
  exists header, (body "221011140007S"), "!C3D4".
  split; [reflexivity|]. split; [reflexivity|]. split; [repeat constructor | reflexivity].
Defined.

Lemma frame_numbers_count_headers_witness :
  exists st1 st' m,
    SlimmeLezer.run strptime_cet strftime_ymd_hms clock_2022 InLoop
      (concat first_two) awaiting_header = Ok (InLoop, st1) /\
    SlimmeLezer.run strptime_cet strftime_ymd_hms clock_2022 InLoop
      (concat first_two ++ third) awaiting_header = Ok (InLoop, st') /\
    map (fun m => msg_meta m !! "frame-number") (sent st')
    = [Some (VInt 1); Some (VInt 3)] /\
    datagram_counter st' = 3%Z /\
    sent st' = sent st1 ++ [m] /\
    msg_meta m !! "frame-number" = Some (VInt 3).
Proof.
  destruct (frame_numbers_count_headers strptime_cet strftime_ymd_hms clock_2022) as [H _].
  assert (R' : SlimmeLezer.run strptime_cet strftime_ymd_hms clock_2022 InLoop
                 (concat first_two ++ third) awaiting_header
               = Ok (InLoop,
                     final awaiting_header
                       (SlimmeLezer.run strptime_cet strftime_ymd_hms clock_2022 InLoop
                          (concat first_two ++ third) awaiting_header))) by by_eval.
  assert (F : Forall whole_datagram first_two).
  { constructor; [apply datagram_whole|]. constructor; [apply undated_whole | constructor]. }
  destruct (H first_two third awaiting_header InLoop _ eq_refl F third_whole R')
    as (st1 & R & _ & Hc & [[Hs _]|(m & Hs & Hn)]).
  - exfalso. vm_compute in R. injection R as <-. vm_compute in Hs. discriminate Hs.
  - eexists st1, _, m. split; [exact R|]. split; [exact R'|].
    split; [by_eval|].
    split; [exact Hc|]. split; [exact Hs | exact Hn].
Defined.

Lemma zero_period_sends_nothing_witness :
  sent (final (SlimmeLezer.init clock_2022 0)
          (reader clock_2022 1 ["!0000"; header; "1-0:1.7.0(00.424*kW)"; "!A1B2"] 0)) = [] /\
  SlimmeLezer.run strptime_cet strftime_ymd_hms clock_2022 InLoop
    (header :: body "221011140005S" ++ ["!A1B2"])
    (final (SlimmeLezer.init clock_2022 0) (reader clock_2022 1 ["!0000"] 0))
  = Raise ZeroDivisionError.
Proof.
  destruct (zero_period_sends_nothing strptime_cet strftime_ymd_hms clock_2022) as [H1 H2].
  split.
  - apply (H1 1%Z ["!0000"; header; "1-0:1.7.0(00.424*kW)"; "!A1B2"] InLoop). by_eval.
  - apply (H2 _ header (body "221011140005S") "!A1B2" InLoop
             (final (SlimmeLezer.init clock_2022 0)
                (reader clock_2022 1 ("!0000" :: header :: body "221011140005S") 0))
             "221011140005S" 1665496805000000%Z); try by_eval.
    repeat constructor.
Defined.

Lemma skip_count_below_one_witness :
  reader clock_2022 0 (["1-0:1.7.0(00.424*kW)"; "!0000"] ++ datagram "221011140005S" "!A1B2")
    86400
  = SlimmeLezer.run strptime_cet strftime_ymd_hms clock_2022 InLoop
      (datagram "221011140005S" "!A1B2")
      (set_logged (logged (SlimmeLezer.init clock_2022 86400) ++ [LogSkipping 1 0])
         (cleared (set_datagram_counter 0 (SlimmeLezer.init clock_2022 86400)))).
Proof.
  apply (skip_count_below_one strptime_cet strftime_ymd_hms clock_2022 0%Z
           ["1-0:1.7.0(00.424*kW)"; "!0000"] (datagram "221011140005S" "!A1B2")
           (SlimmeLezer.init clock_2022 86400)).
  - lia.
  - exists ["1-0:1.7.0(00.424*kW)"], "!0000".
    split; [reflexivity|]. split; [repeat constructor | reflexivity].
Defined.

Lemma message_times_in_order_witness :
  Forall (taken_in_order clock_2022)
    (sent (final (SlimmeLezer.init clock_2022 86400)
             (reader clock_2022 1 two_in_a_row 86400))).
Proof.
  apply (message_times_in_order strptime_cet strftime_ymd_hms clock_2022
           1%Z 86400%Z two_in_a_row InLoop).
  by_eval.
Defined.

Lemma exceptions_of_the_reader_witness :
  SlimmeLezer.step strptime_cet strftime_ymd_hms clock_2022 InLoop "1-0:31.7.0(1.5*A)"
    (in_datagram "1-3:0.2.8(50)") = Raise ValueError /\
  SlimmeLezer.step strptime_cet strftime_ymd_hms clock_2022 InLoop "!A1B2"
    (in_datagram "0-0:1.0.0(5*A)") = Raise AttributeError /\
  unusable strptime_cet (in_datagram "0-0:1.0.0(5*A)") AttributeError.
Proof.
  assert (H1 : SlimmeLezer.step strptime_cet strftime_ymd_hms clock_2022 InLoop
                 "1-0:31.7.0(1.5*A)" (in_datagram "1-3:0.2.8(50)") = Raise ValueError)
    by by_eval.
  assert (H2 : SlimmeLezer.step strptime_cet strftime_ymd_hms clock_2022 InLoop "!A1B2"
                 (in_datagram "0-0:1.0.0(5*A)") = Raise AttributeError)
    by by_eval.
  split; [exact H1|]. split; [exact H2|].
  pose proof (exceptions_of_the_reader strptime_cet strftime_ymd_hms clock_2022
                1%Z 86400%Z ["!0000"; header; "0-0:1.0.0(5*A)"] InLoop
                (in_datagram "0-0:1.0.0(5*A)") "!A1B2" ltac:(by_eval)) as H.
  rewrite H2 in H. destruct H as (_ & _ & _ & [[Hf _]|[_ Hu]]).
  - discriminate Hf.
  - exact Hu.
Defined.

Lemma telegram_of_a_datagram_witness :
  exists m1 m2 st1' st2',
    SlimmeLezer.run strptime_cet strftime_ymd_hms clock_2022 InLoop
      (header :: body "221011140006S" ++ ["!C3D4"]) awaiting_header
    = Ok (InLoop, st1') /\
    SlimmeLezer.run strptime_cet strftime_ymd_hms clock_1970 InLoop
      (header :: body "221011140006S" ++ ["!C3D4"])
      (final (SlimmeLezer.init clock_1970 3600) (reader clock_1970 1 one_alone 3600))
    = Ok (InLoop, st2') /\
    sent st1' = sent awaiting_header ++ [m1] /\
    sent st2'
    = sent (final (SlimmeLezer.init clock_1970 3600) (reader clock_1970 1 one_alone 3600))
      ++ [m2] /\
    msg_meta m1 <> msg_meta m2 /\
    msg_telegram m1 = msg_telegram m2.
Proof.
  do 4 eexists.
  assert (forall A B C D E F : Prop, A -> B -> C -> D -> E -> (A -> B -> C -> D -> F) ->
            A /\ B /\ C /\ D /\ E /\ F) as conj6 by tauto.
  apply conj6; [by_eval | by_eval | by_eval | by_eval | |].
  { intros E. apply (f_equal (fun m => m !! "frame-number")) in E.
    vm_compute in E. discriminate E. }
  intros R1 R2 S1 S2.
  refine (telegram_of_a_datagram strptime_cet strftime_ymd_hms clock_2022 clock_1970
            header (body "221011140006S") "!C3D4" awaiting_header
            (final (SlimmeLezer.init clock_1970 3600) (reader clock_1970 1 one_alone 3600))
            InLoop InLoop _ _ _ _ _ _ _ _ _ _ _ R1 R2 S1 S2);
    first [by_eval | repeat constructor].
Defined.
